(** * Course calendar: validation, event expansion, feed codec, tabular import

    A shallow embedding of the course-calendar tool (types.ts, validate.ts,
    generator.ts and excel.ts) together with the properties its
    specification states about it.

    Conventions of the embedding:
    - a JavaScript string is a [string]; comparisons [<], [>], [===] are the
      code-unit comparisons [String.ltb] and [String.eqb];
    - a value of type [T | Error] is a [Result T], an [Error] on the left;
    - an optional, nullable or possibly [undefined] field is an [option];
    - an array is a [list]; [push] appends at the end. *)

From Stdlib Require Import ZArith NArith List String Ascii Bool Lia.
From Stdlib Require Import Strings.Byte Permutation.
Import ListNotations.

Open Scope list_scope.
Open Scope Z_scope.
Open Scope string_scope.

(** ** JavaScript primitives used by the sources *)

Module Js.

Inductive Error : Type := MkError (message : string).

Definition Result (T : Type) : Type := (Error + T)%type.

(** Truthiness of a string: only the empty string is falsy. *)
Definition truthy (s : string) : bool := negb (s =? "")%string.

(** Truthiness of an optional string ([undefined], [null] and [""] are falsy). *)
Definition truthyOpt (s : option string) : bool :=
  match s with
  | Some t => truthy t
  | None => false
  end.

(** Truthiness of an optional boolean. *)
Definition truthyFlag (b : option bool) : bool :=
  match b with
  | Some true => true
  | _ => false
  end.

(** [s.split(sep)] for a one-character separator: never an empty array. *)
Fixpoint split (sep : ascii) (s : string) : list string :=
  match s with
  | EmptyString => [EmptyString]
  | String c r =>
      if Ascii.eqb c sep then EmptyString :: split sep r
      else match split sep r with
           | h :: t => String c h :: t
           | [] => [String c EmptyString]
           end
  end.

Definition isUpper (c : ascii) : bool :=
  let n := nat_of_ascii c in (Nat.leb 65 n && Nat.leb n 90)%bool.

Definition lowerChar (c : ascii) : ascii :=
  if isUpper c then ascii_of_nat (nat_of_ascii c + 32) else c.

(** [s.toLowerCase()], on ASCII letters. *)
Fixpoint toLowerCase (s : string) : string :=
  match s with
  | EmptyString => EmptyString
  | String c r => String (lowerChar c) (toLowerCase r)
  end.

(** White space removed by [trim]: tab, line feed, vertical tab, form feed,
    carriage return and space. *)
Definition isSpace (c : ascii) : bool :=
  let n := nat_of_ascii c in
  (Nat.eqb n 32 || (Nat.leb 9 n && Nat.leb n 13))%bool.

Fixpoint trimStart (s : string) : string :=
  match s with
  | EmptyString => EmptyString
  | String c r => if isSpace c then trimStart r else s
  end.

(** Drops trailing white space: a character is kept when it is not a space
    or when something remains after it. *)
Fixpoint trimEnd (s : string) : string :=
  match s with
  | EmptyString => EmptyString
  | String c r =>
      match trimEnd r with
      | EmptyString => if isSpace c then EmptyString else String c EmptyString
      | r' => String c r'
      end
  end.

Definition trim (s : string) : string := trimEnd (trimStart s).

(** [s.replaceAll(' ', '')]. *)
Fixpoint removeSpaces (s : string) : string :=
  match s with
  | EmptyString => EmptyString
  | String c r =>
      if Ascii.eqb c " " then removeSpaces r else String c (removeSpaces r)
  end.

(** [a > b] on strings. *)
Definition gtb (a b : string) : bool := String.ltb b a.

Definition isDigit (c : ascii) : bool :=
  let n := nat_of_ascii c in (Nat.leb 48 n && Nat.leb n 57)%bool.

Definition digitVal (c : ascii) : Z := Z.of_nat (nat_of_ascii c) - 48.

(** Value of a string of decimal digits, read left to right from [acc]. *)
Fixpoint digitsFrom (acc : Z) (s : string) : option Z :=
  match s with
  | EmptyString => Some acc
  | String c r => if isDigit c then digitsFrom (10 * acc + digitVal c) r else None
  end.

(** A non-empty string of decimal digits. *)
Definition digits (s : string) : option Z :=
  match s with
  | EmptyString => None
  | _ => digitsFrom 0 s
  end.

Definition digitChar (n : nat) : ascii := ascii_of_nat (48 + n).

(** Decimal digits of [n], most significant first; [fuel] bounds their
    number and [S n] is always enough. *)
Fixpoint showNatAux (fuel n : nat) (acc : string) : string :=
  match fuel with
  | O => acc
  | S f =>
      let acc' := String (digitChar (Nat.modulo n 10)) acc in
      match Nat.div n 10 with
      | O => acc'
      | q => showNatAux f q acc'
      end
  end.

(** [String(n)] for a natural number. *)
Definition showNat (n : nat) : string := showNatAux (S n) n EmptyString.

(** [String(z)] for an integer. *)
Definition showZ (z : Z) : string :=
  if (z <? 0)%Z then ("-" ++ showNat (Z.to_nat (- z)))%string
  else showNat (Z.to_nat z).

Fixpoint zeros (n : nat) : string :=
  match n with
  | O => EmptyString
  | S k => String "0" (zeros k)
  end.

(** date-fns [addLeadingZeros(number, targetLength)]. *)
Definition addLeadingZeros (z : Z) (targetLength : nat) : string :=
  let body := showNat (Z.to_nat (Z.abs z)) in
  let padded := (zeros (targetLength - String.length body) ++ body)%string in
  if (z <? 0)%Z then ("-" ++ padded)%string else padded.

(** The value [Number(s)] of a piece of a time string; [None] stands for
    [NaN] and for a missing piece ([undefined]).  Only the forms a time of
    day is written in are given a value: optional surrounding white space
    around decimal digits, and the empty string, which is [0]. *)
Definition Number (s : string) : option Z :=
  match trim s with
  | EmptyString => Some 0
  | t => digitsFrom 0 t
  end.

End Js.

(** ** types.ts: weekdays and meeting patterns *)

(** A weekday is the number [0] (Sunday) to [6] (Saturday). *)
Definition Weekday : Type := Z.

Module WeekdayConst.
Definition Sunday : Weekday := 0.
Definition Monday : Weekday := 1.
Definition Tuesday : Weekday := 2.
Definition Wednesday : Weekday := 3.
Definition Thursday : Weekday := 4.
Definition Friday : Weekday := 5.
Definition Saturday : Weekday := 6.
End WeekdayConst.

(** The lookup table of [parseWeekday]: the keys that the object literal
    declares.  (The names that every object inherits, of which [constructor]
    and [__proto__] are in lower case, are no weekdays and are read here as
    absent from the table.) *)
Definition weekdayTable : list (string * Weekday) :=
  [ ("sunday", WeekdayConst.Sunday); ("monday", WeekdayConst.Monday);
    ("tuesday", WeekdayConst.Tuesday); ("wednesday", WeekdayConst.Wednesday);
    ("thursday", WeekdayConst.Thursday); ("friday", WeekdayConst.Friday);
    ("saturday", WeekdayConst.Saturday);
    ("su", WeekdayConst.Sunday); ("m", WeekdayConst.Monday);
    ("t", WeekdayConst.Tuesday); ("w", WeekdayConst.Wednesday);
    ("r", WeekdayConst.Thursday); ("f", WeekdayConst.Friday);
    ("sa", WeekdayConst.Saturday) ].

Fixpoint lookup {V : Type} (key : string) (table : list (string * V)) : option V :=
  match table with
  | [] => None
  | (k, v) :: rest => if (k =? key)%string then Some v else lookup key rest
  end.

Definition parseWeekday (weekday : string) : Js.Result Weekday :=
  match lookup (Js.trim (Js.toLowerCase weekday)) weekdayTable with
  | Some w => inr w
  | None => inl (Js.MkError ("invalid weekday " ++ weekday))
  end.

(** [array[weekday]] inside a template string: an index outside the array
    reads [undefined]. *)
Definition weekdayToString (weekday : Weekday) (short : bool) : string :=
  let names :=
    if short then ["Su"; "M"; "T"; "W"; "R"; "F"; "Sa"]
    else ["Sunday"; "Monday"; "Tuesday"; "Wednesday"; "Thursday"; "Friday"; "Saturday"] in
  if (weekday <? 0)%Z then "undefined"
  else nth (Z.to_nat weekday) names "undefined".

Record MeetingPattern : Type := mkMeetingPattern {
  startTime : string;
  endTime : string;
  weekdays : list Weekday;
  location : option string
}.

Definition emptyMeetingPattern : MeetingPattern :=
  {| startTime := ""; endTime := ""; weekdays := []; location := None |}.

(** [weekdays.includes(weekday)]. *)
Definition includes (weekday : Weekday) (ws : list Weekday) : bool :=
  existsb (Z.eqb weekday) ws.

Definition isEmptyMeetingPattern (mp : MeetingPattern) : bool :=
  (match weekdays mp with [] => true | _ => false end)
  && negb (Js.truthy (startTime mp)) && negb (Js.truthy (endTime mp))
  && negb (Js.truthyOpt (location mp)).

(** *** Times of day

    [parseTime] reads a time with date-fns [parse(time.trim(), 'hh:mm a', _)]
    and prints it with [formatDate(t, 'HH:mm')]; an unreadable time gives an
    Invalid Date, on which [formatDate] throws, and the exception is returned
    as an [Error]. *)

(** Leading decimal digits of [s], one or two of them (the pattern the hour
    and minute tokens are read with), and the rest of the string. *)
Definition takeTwoDigits (s : string) : option (Z * string) :=
  match s with
  | String a r =>
      if Js.isDigit a then
        match r with
        | String b r' =>
            if Js.isDigit b then Some (10 * Js.digitVal a + Js.digitVal b, r')
            else Some (Js.digitVal a, r)
        | EmptyString => Some (Js.digitVal a, r)
        end
      else None
  | EmptyString => None
  end.

Definition expectChar (c : ascii) (s : string) : option string :=
  match s with
  | String a r => if Ascii.eqb a c then Some r else None
  | EmptyString => None
  end.

Definition skipOpt (p : ascii -> bool) (s : string) : string :=
  match s with
  | String a r => if p a then r else s
  | EmptyString => s
  end.

(** The day period of the token [a]: [a] or [p], then optionally a dot, a
    white space, [m] and a dot (in either case), or [a] or [p] alone.  The
    result is [true] for PM.  (The spelled-out periods that date-fns also
    reads, such as noon and midnight, are left out.) *)
Definition parseDayPeriod (s : string) : option (bool * string) :=
  match s with
  | String a r =>
      let a' := Js.lowerChar a in
      if (Ascii.eqb a' "a" || Ascii.eqb a' "p")%bool then
        let pm := Ascii.eqb a' "p" in
        let r1 := skipOpt Js.isSpace (skipOpt (Ascii.eqb ".") r) in
        match r1 with
        | String m r2 =>
            if Ascii.eqb (Js.lowerChar m) "m"
            then Some (pm, skipOpt (Ascii.eqb ".") r2)
            else Some (pm, r)
        | EmptyString => Some (pm, r)
        end
      else None
  | EmptyString => None
  end.

Fixpoint allSpaces (s : string) : bool :=
  match s with
  | EmptyString => true
  | String c r => Js.isSpace c && allSpaces r
  end.

(** date-fns [parse(s, 'hh:mm a', _)] as the hour (0 to 23) and minute of the
    date it returns; [None] is the Invalid Date. *)
Definition parse_hhmm_a (s : string) : option (Z * Z) :=
  match takeTwoDigits s with
  | Some (h, s1) =>
      match expectChar ":" s1 with
      | Some s2 =>
          match takeTwoDigits s2 with
          | Some (m, s3) =>
              match expectChar " " s3 with
              | Some s4 =>
                  match parseDayPeriod s4 with
                  | Some (pm, s5) =>
                      if ((1 <=? h)%Z && (h <=? 12)%Z && (m <=? 59)%Z && allSpaces s5)%bool
                      then
                        let hours :=
                          if pm then (if (h <? 12)%Z then h + 12 else h)
                          else (if (h =? 12)%Z then 0 else h) in
                        Some (hours, m)
                      else None
                  | None => None
                  end
              | None => None
              end
          | None => None
          end
      | None => None
      end
  | None => None
  end.

(** [formatDate(t, 'HH:mm')]. *)
Definition formatHHmm (hm : Z * Z) : string :=
  Js.addLeadingZeros (fst hm) 2 ++ ":" ++ Js.addLeadingZeros (snd hm) 2.

Definition parseTime (time : string) : Js.Result string :=
  match parse_hhmm_a (Js.trim time) with
  | Some hm => inr (formatHHmm hm)
  | None => inl (Js.MkError "RangeError: Invalid time value")
  end.

(** A [string | Error] inside a template string. *)
Definition showResult (r : Js.Result string) : string :=
  match r with
  | inr s => s
  | inl (Js.MkError m) => "Error: " ++ m
  end.

(** The loop of [parseMeetingPattern] over the weekday strings; [weekdays]
    holds the weekdays pushed so far. *)
Fixpoint parseWeekdays (weekdayStrings : list string) (weekdays : list Weekday)
  : Js.Result (list Weekday) :=
  match weekdayStrings with
  | [] => inr weekdays
  | w :: rest =>
      match parseWeekday w with
      | inl _ => inl (Js.MkError ("scanning MeetingPattern: invalid weekday " ++ w))
      | inr weekday =>
          if includes weekday weekdays
          then inl (Js.MkError ("scanning MeetingPattern: weekday " ++ w ++ " is duplicated"))
          else parseWeekdays rest (weekdays ++ [weekday])
      end
  end.

Definition parseMeetingPattern (pattern : string) : Js.Result MeetingPattern :=
  let parts := Js.split "|" pattern in
  if (negb (Nat.eqb (List.length parts) 2) && negb (Nat.eqb (List.length parts) 3))%bool then
    inl (Js.MkError ("scanning MeetingPattern: expected two parts separated by '|', got "
                     ++ Js.showNat (List.length parts)))
  else
    match parseWeekdays (Js.split "-" (nth 0 parts "")) [] with
    | inl e => inl e
    | inr weekdays =>
        let times := Js.split "-" (nth 1 parts "") in
        if negb (Nat.eqb (List.length times) 2) then
          inl (Js.MkError ("scanning MeetingPattern: expected two times, got "
                           ++ Js.showNat (List.length times)))
        else
          let startTime := parseTime (nth 0 times "") in
          let endTime := parseTime (nth 1 times "") in
          match startTime, endTime with
          | inr startTime, inr endTime =>
              if Js.gtb startTime endTime then
                inl (Js.MkError ("scanning MeetingPattern: start time " ++ nth 0 times ""
                                 ++ " after end time " ++ nth 1 times ""))
              else
                inr {| startTime := startTime;
                       endTime := endTime;
                       weekdays := weekdays;
                       location := option_map Js.trim (nth_error parts 2) |}
          | _, _ =>
              inl (Js.MkError ("scanning MeetingPattern: failed to parse time: "
                               ++ showResult startTime ++ " " ++ showResult endTime))
          end
    end.

(** *** The calendar description *)

Inductive CalendarDateKind : Type :=
| NoClass (reason : option string) (hidden : option bool)
| Follow (weekday : Weekday).

Record CalendarDate : Type := mkCalendarDate {
  date : string;
  kind : CalendarDateKind
}.

Record CalendarSection : Type := mkCalendarSection {
  sec_name : string;
  sec_meetingPatterns : list MeetingPattern;
  sec_except : list string
}.

Record CalendarCourse : Type := mkCalendarCourse {
  number : string;
  name : string;
  meetingPatterns : list MeetingPattern;
  except : list string;
  subsections : list CalendarSection
}.

Record CalendarTerm : Type := mkCalendarTerm {
  term_id : string;
  term_start : string;
  term_end : string;
  courses : list CalendarCourse;
  dates : list CalendarDate
}.

Record Calendar : Type := mkCalendar {
  cal_name : string;
  terms : list CalendarTerm
}.

(** ** Calendar dates

    A [UTCDate] built from a date string is midnight UTC of a day; the
    embedding keeps the number of that day, counted from 1970-01-01, and
    [None] for the Invalid Date.  [addDays] is then the addition of days and
    [isBefore] the order of day numbers. *)

Definition UTCDate : Type := option Z.

Definition isLeapYear (y : Z) : bool :=
  ((y mod 4 =? 0)%Z && (negb (y mod 100 =? 0)%Z || (y mod 400 =? 0)%Z))%bool.

Definition daysInMonth (y m : Z) : Z :=
  if (m =? 2)%Z then (if isLeapYear y then 29 else 28)
  else if ((m =? 4)%Z || (m =? 6)%Z || (m =? 9)%Z || (m =? 11)%Z)%bool then 30
  else 31.

(** Day number of the civil date [y]-[m]-[d] in the proleptic Gregorian
    calendar. *)
Definition daysFromCivil (y m d : Z) : Z :=
  let y' := if (m <=? 2)%Z then y - 1 else y in
  let era := y' / 400 in
  let yoe := y' - era * 400 in
  let doy := (153 * (if (2 <? m)%Z then m - 3 else m + 9) + 2) / 5 + d - 1 in
  let doe := yoe * 365 + yoe / 4 - yoe / 100 + doy in
  era * 146097 + doe - 719468.

(** Year, month (1 to 12) and day of the month of a day number:
    [getFullYear()], [getMonth() + 1] and [getDate()]. *)
Definition civilFromDays (z : Z) : Z * Z * Z :=
  let z' := z + 719468 in
  let era := z' / 146097 in
  let doe := z' - era * 146097 in
  let yoe := (doe - doe / 1460 + doe / 36524 - doe / 146096) / 365 in
  let doy := doe - (365 * yoe + yoe / 4 - yoe / 100) in
  let mp := (5 * doy + 2) / 153 in
  let d := doy - (153 * mp + 2) / 5 + 1 in
  let m := if (mp <? 10)%Z then mp + 3 else mp - 9 in
  ((yoe + era * 400) + (if (m <=? 2)%Z then 1 else 0), m, d).

(** [new UTCDate(s)] for a date string: the date-only form [yyyy-MM-dd] of a
    day that exists gives that day; any other string is taken to give the
    Invalid Date. *)
Definition newUTCDate (s : string) : UTCDate :=
  match Js.split "-" s with
  | [ys; ms; ds] =>
      if (Nat.eqb (String.length ys) 4 && Nat.eqb (String.length ms) 2
          && Nat.eqb (String.length ds) 2)%bool then
        match Js.digits ys, Js.digits ms, Js.digits ds with
        | Some y, Some m, Some d =>
            if ((1 <=? m)%Z && (m <=? 12)%Z && (1 <=? d)%Z && (d <=? daysInMonth y m)%Z)%bool
            then Some (daysFromCivil y m d)
            else None
        | _, _, _ => None
        end
      else None
  | _ => None
  end.

Definition addDays (d : Z) (n : Z) : Z := d + n.

Definition isBefore (a b : Z) : bool := (a <? b)%Z.

(** [getDay()]: 1970-01-01 was a Thursday. *)
Definition getDay (d : Z) : Weekday := (d + 4) mod 7.

(** [formatDate(d, 'yyyy-MM-dd')].  The token [yyyy] prints the year of the
    era, at least four digits wide. *)
Definition formatDate (d : Z) : string :=
  let '(y, m, dd) := civilFromDays d in
  let year := if (0 <? y)%Z then y else 1 - y in
  Js.addLeadingZeros year 4 ++ "-" ++ Js.addLeadingZeros m 2 ++ "-" ++ Js.addLeadingZeros dd 2.

(** The days [d] of the loop
    [for (d = new UTCDate(start); isBefore(d, addDays(end, 1)); d = addDays(d, 1))],
    in the order the loop visits them; no day when either bound is the Invalid
    Date. *)
Definition eachDay (start end_ : UTCDate) : list Z :=
  match start, end_ with
  | Some s, Some e =>
      map (fun k => addDays s (Z.of_nat k)) (seq 0 (Z.to_nat (addDays e 1 - s)))
  | _, _ => []
  end.

(** ** validate.ts *)

Record Warning : Type := mkWarning {
  w_title : string;
  w_message : string
}.

(** What a piece of [validate] pushes: the errors and the warnings, each in
    the order pushed. *)
Definition Diag : Type := (list string * list Warning)%type.

Definition noDiag : Diag := ([], []).

Definition pushError (message : string) : Diag := ([message], []).

Definition pushWarning (title message : string) : Diag :=
  ([], [ {| w_title := title; w_message := message |} ]).

(** One statement after another. *)
Definition thenD (a b : Diag) : Diag := ((fst a ++ fst b)%list, (snd a ++ snd b)%list).

Infix ";;" := thenD (at level 61, right associativity).

Definition when (b : bool) (d : Diag) : Diag := if b then d else noDiag.

(** [for (const x of xs) body(x)]. *)
Fixpoint forOf {A : Type} (body : A -> Diag) (xs : list A) : Diag :=
  match xs with
  | [] => noDiag
  | x :: rest => body x ;; forOf body rest
  end.

(** [for (const [index, x] of xs.entries()) body(index, x)], from [index]. *)
Fixpoint forEntries {A : Type} (body : nat -> A -> Diag) (index : nat) (xs : list A) : Diag :=
  match xs with
  | [] => noDiag
  | x :: rest => body index x ;; forEntries body (S index) rest
  end.

(** [name || '#' + (index + 1)]. *)
Definition nameOr (name : string) (index : nat) : string :=
  if Js.truthy name then name else "#" ++ Js.showNat (index + 1).

Definition validateDate (termName : string) (term : CalendarTerm) (special : CalendarDate) : Diag :=
  if negb (Js.truthy (date special)) then
    pushError ("Term " ++ termName ++ ": missing/invalid date")
  else
    (if String.ltb (date special) (term_start term) then
       pushError ("Term " ++ termName ++ ": special date " ++ date special ++ " before term start")
     else
       when (Js.gtb (date special) (term_end term))
         (pushError ("Term " ++ termName ++ ": special date " ++ date special ++ " after term end")))
    ;;
    match kind special with
    | Follow weekday =>
        when (match newUTCDate (date special) with
              | Some d => (getDay d =? weekday)%Z
              | None => false
              end)
          (pushError ("Term " ++ termName ++ ": special date " ++ date special
                      ++ " does nothing (already a " ++ weekdayToString weekday false ++ ")"))
    | NoClass _ _ => noDiag
    end.

(** The checks of one meeting pattern; [who] is the text between [Term] and the
    colon, [what] the text of the warning's title and [whose] its wording. *)
Definition validateMeetingPattern (who what whose : string) (mp : MeetingPattern) : Diag :=
  when (negb (Js.truthy (startTime mp)))
    (pushError ("Term " ++ who ++ ": missing/invalid start time")) ;;
  when (negb (Js.truthy (endTime mp)))
    (pushError ("Term " ++ who ++ ": missing/invalid end time")) ;;
  when (Js.truthy (startTime mp) && Js.truthy (endTime mp) && Js.gtb (startTime mp) (endTime mp))
    (pushError ("Term " ++ who ++ ": start > end")) ;;
  when (Nat.eqb (List.length (weekdays mp)) 0)
    (pushError ("Term " ++ who ++ ": no weekdays selected")) ;;
  when (negb (Js.truthyOpt (location mp)))
    (pushWarning ("Missing location for " ++ what)
       ("Add a location for this " ++ whose ++ ", if applicable.")).

(** An object inside a template string. *)
Definition objectObject : string := "[object Object]".

Definition validateSubsection (termName courseName : string) (index : nat)
    (subsection : CalendarSection) : Diag :=
  let subsectionName := nameOr (sec_name subsection) index in
  let who := termName ++ ", course " ++ courseName ++ ", component " ++ subsectionName in
  when (negb (Js.truthy (sec_name subsection)))
    (pushError ("Term " ++ who ++ ": missing/invalid name")) ;;
  when (Nat.eqb (List.length (sec_meetingPatterns subsection)) 0)
    (pushWarning ("No meeting patterns for component " ++ objectObject ++ " of course "
                  ++ courseName ++ " in term " ++ termName)
       "Add a meeting pattern for this component, if applicable. It will be ignored otherwise.") ;;
  forOf (validateMeetingPattern who
           ("component " ++ objectObject ++ " of course " ++ courseName ++ " in term " ++ termName)
           "component")
    (sec_meetingPatterns subsection).

Definition validateExcept (termName courseName : string) (term : CalendarTerm)
    (special : string) : Diag :=
  let who := termName ++ ", course " ++ courseName in
  if negb (Js.truthy special) then
    pushError ("Term " ++ who ++ ": missing/invalid special date")
  else if String.ltb special (term_start term) then
    pushError ("Term " ++ who ++ ": special date " ++ special ++ " before term start")
  else
    when (Js.gtb special (term_end term))
      (pushError ("Term " ++ who ++ ": special date " ++ special ++ " after term end")).

(** The body of the loop over [term.courses]; [index] is the variable in scope
    there, the index of the term. *)
Definition validateCourse (termName : string) (index : nat) (term : CalendarTerm)
    (course : CalendarCourse) : Diag :=
  let courseName := nameOr (number course) index in
  let who := termName ++ ", course " ++ courseName in
  when (negb (Js.truthy (number course)))
    (pushError ("Term " ++ who ++ ": missing/invalid number")) ;;
  when (negb (Js.truthy (name course)))
    (pushError ("Term " ++ who ++ ": missing/invalid name")) ;;
  when (Nat.eqb (List.length (meetingPatterns course)) 0)
    (pushWarning ("No meeting patterns for course " ++ courseName ++ " in term " ++ termName)
       "Add a meeting pattern for this course, if applicable. It will be ignored otherwise.") ;;
  forOf (validateMeetingPattern who
           ("course " ++ courseName ++ " in term " ++ termName) "course")
    (meetingPatterns course) ;;
  forEntries (validateSubsection termName courseName) 0 (subsections course) ;;
  forOf (validateExcept termName courseName term) (except course).

(** [termNames.has(id)]. *)
Definition has (x : string) (set : list string) : bool := existsb (String.eqb x) set.

(** The body of the loop over [calendar.terms.entries()], before
    [termNames.add(term.id)] takes effect. *)
Definition validateTerm (termNames : list string) (index : nat) (term : CalendarTerm) : Diag :=
  let termName := nameOr (term_id term) index in
  when (negb (Js.truthy (term_id term)))
    (pushError ("Term " ++ termName ++ ": missing/invalid name")) ;;
  when (has (term_id term) termNames)
    (pushError ("Term " ++ termName ++ ": duplicate name")) ;;
  when (negb (Js.truthy (term_start term)))
    (pushError ("Term " ++ termName ++ ": missing/invalid start date")) ;;
  when (negb (Js.truthy (term_end term)))
    (pushError ("Term " ++ termName ++ ": missing/invalid end date")) ;;
  when (Js.truthy (term_start term) && Js.truthy (term_end term)
        && Js.gtb (term_start term) (term_end term))
    (pushError ("Term " ++ termName ++ ": start > end")) ;;
  forOf (validateDate termName term) (dates term) ;;
  forOf (validateCourse termName index term) (courses term).

(** The loop over the terms; [termNames] is the set of the ids seen. *)
Fixpoint validateTerms (termNames : list string) (index : nat) (ts : list CalendarTerm) : Diag :=
  match ts with
  | [] => noDiag
  | term :: rest =>
      validateTerm termNames index term ;;
      validateTerms (term_id term :: termNames) (S index) rest
  end.

Definition validate (calendar : Calendar) : Diag :=
  when (Nat.eqb (List.length (terms calendar)) 0) (pushError "No terms defined.") ;;
  when (Nat.eqb (List.length (flat_map courses (terms calendar))) 0)
    (pushError "No courses defined.") ;;
  validateTerms [] 0 (terms calendar).

Definition errorsOf (d : Diag) : list string := fst d.

Definition warningsOf (d : Diag) : list Warning := snd d.

(** ** generator.ts: the event expander *)

(** A date of the [ics] library: [[year, month, day]] for an all-day event,
    [[year, month, day, hour, minute]] for a timed one. *)
Inductive IcsDate : Type :=
| DateArray (y m d : Z)
| DateTimeArray (y m d : Z) (h mi : option Z).

Record EventAttributes : Type := mkEvent {
  uid : string;
  ev_start : IcsDate;
  ev_end : IcsDate;
  title : string;
  ev_location : option string
}.

Definition toIcsDate (d : Z) : IcsDate :=
  let '(y, m, dd) := civilFromDays d in DateArray y m dd.

(** [const [h, m] = time.split(':').map(Number)]. *)
Definition toIcsTime (d : Z) (time : string) : IcsDate :=
  let parts := map Js.Number (Js.split ":" time) in
  let '(y, m, dd) := civilFromDays d in
  DateTimeArray y m dd (nth 0 parts None) (nth 1 parts None).

(** The all-day event pushed for a day without classes. *)
Definition noClassMarker (d : Z) (special : string) (reason : option string) : EventAttributes :=
  {| uid := "course-calendar-" ++ special ++ "-no-class@tools.calebc.co";
     ev_start := toIcsDate d;
     ev_end := toIcsDate (addDays d 1);
     title := match reason with
              | Some r => if Js.truthy r then "No Classes (" ++ r ++ ")" else "No Classes"
              | None => "No Classes"
              end;
     ev_location := None |}.

(** The all-day event pushed for a day that follows another weekday. *)
Definition followMarker (d : Z) (special : string) (weekday : Weekday) : EventAttributes :=
  {| uid := "course-calendar-" ++ special ++ "-follow@tools.calebc.co";
     ev_start := toIcsDate d;
     ev_end := toIcsDate (addDays d 1);
     title := "Follow " ++ weekdayToString weekday false ++ " Schedule";
     ev_location := None |}.

(** How the loop over [term.dates] is left: by [continue outer], or by [break]
    or its end, with the value of [weekday]; and the events pushed. *)
Inductive DatesScan : Type :=
| ContinueOuter (pushed : list EventAttributes)
| ToCourses (weekday : Weekday) (pushed : list EventAttributes).

(** The loop over [term.dates] on day [d]: [uids] is the set of that name and
    [weekday] the variable of that name, both as they are when the loop
    reaches [specials]. *)
Fixpoint scanDates (d : Z) (uids : list string) (weekday : Weekday)
    (specials : list CalendarDate) : DatesScan :=
  match specials with
  | [] => ToCourses weekday []
  | special :: rest =>
      if (date special =? formatDate d)%string then
        match kind special with
        | NoClass reason hidden =>
            let ev := noClassMarker d (date special) reason in
            ContinueOuter
              (if (negb (has (uid ev) uids) && negb (Js.truthyFlag hidden))%bool
               then [ev] else [])
        | Follow w =>
            let ev := followMarker d (date special) w in
            ToCourses w (if negb (has (uid ev) uids) then [ev] else [])
        end
      else scanDates d uids weekday rest
  end.

(** [mp.location || undefined]. *)
Definition locationOrUndefined (l : option string) : option string :=
  if Js.truthyOpt l then l else None.

(** The loop over meeting patterns that pushes the events of one stream, a
    course or a subsection, on day [d]. *)
Definition meetingEvents (uid title : string) (d : Z) (weekday : Weekday)
    (mps : list MeetingPattern) : list EventAttributes :=
  flat_map
    (fun mp =>
       if includes weekday (weekdays mp) then
         [ {| uid := uid;
              ev_start := toIcsTime d (startTime mp);
              ev_end := toIcsTime d (endTime mp);
              title := title;
              ev_location := locationOrUndefined (location mp) |} ]
       else [])
    mps.

Definition subsectionEvents (d : Z) (weekday : Weekday) (course : CalendarCourse)
    (subsection : CalendarSection) : list EventAttributes :=
  meetingEvents
    ("course-calendar-" ++ Js.removeSpaces (number course) ++ "-"
     ++ Js.removeSpaces (sec_name subsection) ++ "-" ++ formatDate d ++ "@tools.calebc.co")
    (number course ++ " - " ++ name course ++ " (" ++ sec_name subsection ++ ")")
    d weekday (sec_meetingPatterns subsection).

(** The body of the loop over [term.courses]. *)
Definition courseEvents (d : Z) (weekday : Weekday) (course : CalendarCourse)
    : list EventAttributes :=
  (meetingEvents
     ("course-calendar-" ++ Js.removeSpaces (number course) ++ "-" ++ formatDate d
      ++ "@tools.calebc.co")
     (number course ++ " - " ++ name course)
     d weekday (meetingPatterns course)
   ++ flat_map (subsectionEvents d weekday course) (subsections course))%list.

(** The events pushed by one turn of the loop over the days of [term], once
    past the check of the counter: [uids] starts empty and [weekday] is the
    day of the week of [d]. *)
Definition dayEvents (term : CalendarTerm) (d : Z) : list EventAttributes :=
  match scanDates d [] (getDay d) (dates term) with
  | ContinueOuter pushed => pushed
  | ToCourses weekday pushed =>
      (pushed ++ flat_map (courseEvents d weekday) (courses term))%list
  end.

(** How the loops over terms and days end: by the [return] at [i > 1000], or
    normally, with the counter and the events pushed. *)
Inductive Expansion : Type :=
| TooManyEvents
| Expanded (i : Z) (events : list EventAttributes).

(** The loop over the days of [term]. *)
Fixpoint daysLoop (term : CalendarTerm) (days : list Z) (i : Z)
    (events : list EventAttributes) : Expansion :=
  match days with
  | [] => Expanded i events
  | d :: rest =>
      let i := i + 1 in
      if (i >? 1000)%Z then TooManyEvents
      else daysLoop term rest i (events ++ dayEvents term d)%list
  end.

(** The loop over [calendar.terms]. *)
Fixpoint termsLoop (ts : list CalendarTerm) (i : Z) (events : list EventAttributes)
    : Expansion :=
  match ts with
  | [] => Expanded i events
  | term :: rest =>
      match daysLoop term (eachDay (newUTCDate (term_start term)) (newUTCDate (term_end term)))
              i events with
      | TooManyEvents => TooManyEvents
      | Expanded i' events' => termsLoop rest i' events'
      end
  end.

(** The expansion of [generateICal]: the loops that fill [events], from
    [i = 0] and no event. *)
Definition expand (calendar : Calendar) : Expansion := termsLoop (terms calendar) 0 [].


(** ** generator.ts: the codec of the calendar

    [encodeCalendar] is JSON, then gzip, then base64url without padding;
    [decodeConfig] undoes them in the reverse order.  The text of a string is
    kept as its UTF-8 bytes, so [TextEncoder.encode] and the decoding done by
    [Response.json] are the passage between [string] and [list byte]. *)

Module Base64.

(** The alphabet [base64url]. *)
Definition alphabet : string :=
  "ABCDEFGHIJKLMNOPQRSTUVWXYZabcdefghijklmnopqrstuvwxyz0123456789-_".

(** The character of a group of six bits. *)
Definition sextetChar (n : N) : ascii :=
  match String.get (N.to_nat n) alphabet with
  | Some c => c
  | None => "A"%char
  end.

Fixpoint indexOf (c : ascii) (s : string) (i : N) : option N :=
  match s with
  | EmptyString => None
  | String a r => if Ascii.eqb a c then Some i else indexOf c r (i + 1)%N
  end.

(** The six bits of a character of the alphabet; [+] and [/], which the
    alphabet [base64url] does not have, and any other character give
    nothing. *)
Definition charSextet (c : ascii) : option N := indexOf c alphabet 0%N.

Definition byteOfN (n : N) : byte :=
  match Byte.of_N n with
  | Some b => b
  | None => Byte.x00
  end.

(** [Uint8Array.prototype.toBase64({ alphabet: 'base64url', omitPadding: true })]. *)
Fixpoint toBase64 (bytes : list byte) : string :=
  match bytes with
  | b0 :: b1 :: b2 :: rest =>
      let n0 := Byte.to_N b0 in
      let n1 := Byte.to_N b1 in
      let n2 := Byte.to_N b2 in
      String (sextetChar (n0 / 4))
        (String (sextetChar ((n0 mod 4) * 16 + n1 / 16))
           (String (sextetChar ((n1 mod 16) * 4 + n2 / 64))
              (String (sextetChar (n2 mod 64)) (toBase64 rest))))
  | [b0; b1] =>
      let n0 := Byte.to_N b0 in
      let n1 := Byte.to_N b1 in
      String (sextetChar (n0 / 4))
        (String (sextetChar ((n0 mod 4) * 16 + n1 / 16))
           (String (sextetChar ((n1 mod 16) * 4)) EmptyString))
  | [b0] =>
      let n0 := Byte.to_N b0 in
      String (sextetChar (n0 / 4))
        (String (sextetChar ((n0 mod 4) * 16)) EmptyString)
  | [] => EmptyString
  end.

(** The bytes of a chunk of two, three or four groups of six bits: one, two
    or three bytes, the bits left over being dropped. *)
Definition decodeChunk (chunk : list N) : list byte :=
  match chunk with
  | [a; b] => [byteOfN (a * 4 + b / 16)]
  | [a; b; c] => [byteOfN (a * 4 + b / 16); byteOfN ((b mod 16) * 16 + c / 4)]
  | [a; b; c; d] =>
      [byteOfN (a * 4 + b / 16); byteOfN ((b mod 16) * 16 + c / 4);
       byteOfN ((c mod 4) * 64 + d)]
  | _ => []
  end.

(** Tab, line feed, form feed, carriage return and space. *)
Definition isAsciiWhitespace (c : ascii) : bool :=
  let n := nat_of_ascii c in
  (Nat.eqb n 9 || Nat.eqb n 10 || Nat.eqb n 12 || Nat.eqb n 13 || Nat.eqb n 32)%bool.

Fixpoint skipAsciiWhitespace (s : string) : string :=
  match s with
  | EmptyString => EmptyString
  | String c r => if isAsciiWhitespace c then skipAsciiWhitespace r else s
  end.

Definition syntaxError : Js.Error := Js.MkError "SyntaxError".

(** [Uint8Array.fromBase64(s, { alphabet: 'base64url' })], with the default
    handling of the last chunk: [chunk] holds the groups read since the last
    whole chunk and [bytes] the bytes decoded so far. *)
Fixpoint fromBase64Loop (s : string) (chunk : list N) (bytes : list byte)
    : Js.Result (list byte) :=
  match s with
  | EmptyString =>
      match chunk with
      | [] => inr bytes
      | [_] => inl syntaxError
      | _ => inr (bytes ++ decodeChunk chunk)%list
      end
  | String c r =>
      if isAsciiWhitespace c then fromBase64Loop r chunk bytes
      else if Ascii.eqb c "=" then
        if Nat.ltb (List.length chunk) 2 then inl syntaxError
        else
          let r1 := skipAsciiWhitespace r in
          let r2 :=
            if Nat.eqb (List.length chunk) 2 then
              match r1 with
              | EmptyString => None
              | String c' r' =>
                  if Ascii.eqb c' "=" then Some (skipAsciiWhitespace r') else Some r1
              end
            else Some r1 in
          match r2 with
          | Some EmptyString => inr (bytes ++ decodeChunk chunk)%list
          | _ => inl syntaxError
          end
      else
        match charSextet c with
        | None => inl syntaxError
        | Some n =>
            let chunk' := (chunk ++ [n])%list in
            if Nat.eqb (List.length chunk') 4
            then fromBase64Loop r [] (bytes ++ decodeChunk chunk')%list
            else fromBase64Loop r chunk' bytes
        end
  end.

Definition fromBase64 (s : string) : Js.Result (list byte) := fromBase64Loop s [] [].

End Base64.

Definition rawBase64URLEncode (arrayBuffer : list byte) : string :=
  Base64.toBase64 arrayBuffer.

Definition rawBase64URLDecode (base64 : string) : Js.Result (list byte) :=
  Base64.fromBase64 base64.

(** *** JSON

    The values that [JSON.stringify] writes and [JSON.parse] reads.  A number
    is an integer; the text of a string is its bytes. *)

Module Json.

#[local] Unset Elimination Schemes.

Inductive value : Type :=
| Null
| Bool (b : bool)
| Num (z : Z)
| Str (s : string)
| Arr (elements : list value)
| Obj (members : list (string * value)).

#[local] Set Elimination Schemes.

(** The quotation mark. *)
Definition dquote : ascii := ascii_of_nat 34.

Definition hexDigit (n : nat) : ascii :=
  match String.get n "0123456789abcdef" with
  | Some c => c
  | None => "0"%char
  end.

(** [QuoteJSONString], one character at a time: the quotation mark, the
    backslash and the control characters are escaped. *)
Definition quoteChar (c : ascii) : string :=
  let n := nat_of_ascii c in
  if Nat.eqb n 34 then String "\" (String dquote EmptyString)
  else if Nat.eqb n 92 then "\\"
  else if Nat.eqb n 8 then "\b"
  else if Nat.eqb n 12 then "\f"
  else if Nat.eqb n 10 then "\n"
  else if Nat.eqb n 13 then "\r"
  else if Nat.eqb n 9 then "\t"
  else if Nat.ltb n 32 then
    "\u00" ++ String (hexDigit (Nat.div n 16)) (String (hexDigit (Nat.modulo n 16)) EmptyString)
  else String c EmptyString.

Fixpoint quoteBody (s : string) : string :=
  match s with
  | EmptyString => EmptyString
  | String c r => quoteChar c ++ quoteBody r
  end.

Definition quote (s : string) : string :=
  String dquote (quoteBody s ++ String dquote EmptyString).

Fixpoint commaSep (items : list string) : string :=
  match items with
  | [] => EmptyString
  | [x] => x
  | x :: rest => x ++ "," ++ commaSep rest
  end.

(** [JSON.stringify(v)]. *)
Fixpoint stringify (v : value) : string :=
  match v with
  | Null => "null"
  | Bool true => "true"
  | Bool false => "false"
  | Num z => Js.showZ z
  | Str s => quote s
  | Arr elements => "[" ++ commaSep (map stringify elements) ++ "]"
  | Obj members =>
      "{" ++ commaSep (map (fun m : string * value => let (k, x) := m in quote k ++ ":" ++ stringify x)
                       members)
      ++ "}"
  end.

(** White space of JSON: space, tab, line feed, carriage return. *)
Definition isWs (c : ascii) : bool :=
  let n := nat_of_ascii c in
  (Nat.eqb n 32 || Nat.eqb n 9 || Nat.eqb n 10 || Nat.eqb n 13)%bool.

Fixpoint skipWs (s : string) : string :=
  match s with
  | EmptyString => EmptyString
  | String c r => if isWs c then skipWs r else s
  end.

Definition hexVal (c : ascii) : option nat :=
  let n := nat_of_ascii c in
  if (Nat.leb 48 n && Nat.leb n 57)%bool then Some (n - 48)%nat
  else if (Nat.leb 97 n && Nat.leb n 102)%bool then Some (n - 87)%nat
  else if (Nat.leb 65 n && Nat.leb n 70)%bool then Some (n - 55)%nat
  else None.

(** The bytes of the code unit written by an escape [\uXXXX]. *)
Definition unitBytes (n : nat) : string :=
  if Nat.ltb n 128 then String (ascii_of_nat n) EmptyString
  else if Nat.ltb n 2048 then
    String (ascii_of_nat (192 + Nat.div n 64)%nat)
      (String (ascii_of_nat (128 + Nat.modulo n 64)%nat) EmptyString)
  else
    String (ascii_of_nat (224 + Nat.div n 4096)%nat)
      (String (ascii_of_nat (128 + Nat.modulo (Nat.div n 64) 64)%nat)
         (String (ascii_of_nat (128 + Nat.modulo n 64)%nat) EmptyString)).

(** The characters of a string after its opening quotation mark, up to the
    closing one; [acc] holds the characters read. *)
Fixpoint parseChars (s : string) (acc : string) : option (string * string) :=
  match s with
  | EmptyString => None
  | String c r =>
      if Ascii.eqb c dquote then Some (acc, r)
      else if Ascii.eqb c "\" then
        match r with
        | EmptyString => None
        | String e r1 =>
            let simple (x : ascii) := parseChars r1 (acc ++ String x EmptyString) in
            if Ascii.eqb e dquote then simple dquote
            else if Ascii.eqb e "\" then simple "\"%char
            else if Ascii.eqb e "/" then simple "/"%char
            else if Ascii.eqb e "b" then simple (ascii_of_nat 8)
            else if Ascii.eqb e "f" then simple (ascii_of_nat 12)
            else if Ascii.eqb e "n" then simple (ascii_of_nat 10)
            else if Ascii.eqb e "r" then simple (ascii_of_nat 13)
            else if Ascii.eqb e "t" then simple (ascii_of_nat 9)
            else if Ascii.eqb e "u" then
              match r1 with
              | String h1 (String h2 (String h3 (String h4 r2))) =>
                  match hexVal h1, hexVal h2, hexVal h3, hexVal h4 with
                  | Some a, Some b, Some c', Some d =>
                      parseChars r2 (acc ++ unitBytes (((a * 16 + b) * 16 + c') * 16 + d)%nat)
                  | _, _, _, _ => None
                  end
              | _ => None
              end
            else None
        end
      else if Nat.ltb (nat_of_ascii c) 32 then None
      else parseChars r (acc ++ String c EmptyString)
  end.

(** The digits at the head of [s], read from [acc], and what follows them. *)
Fixpoint spanDigits (s : string) (acc : Z) : Z * string :=
  match s with
  | EmptyString => (acc, EmptyString)
  | String c r => if Js.isDigit c then spanDigits r (10 * acc + Js.digitVal c) else (acc, s)
  end.

(** A number: an optional minus sign and digits without a leading zero.  A
    fraction or an exponent, which would make a number that is not an integer,
    is refused. *)
Definition parseNumber (s : string) : option (value * string) :=
  let (negative, s1) :=
    match s with
    | String c r => if Ascii.eqb c "-" then (true, r) else (false, s)
    | EmptyString => (false, s)
    end in
  match s1 with
  | EmptyString => None
  | String c r =>
      if Js.isDigit c then
        let (n, rest) := if Ascii.eqb c "0" then (0%Z, r) else spanDigits s1 0 in
        match rest with
        | String d _ =>
            if (Js.isDigit d || Ascii.eqb d "." || Ascii.eqb d "e" || Ascii.eqb d "E")%bool
            then None
            else Some (Num (if negative then - n else n), rest)
        | EmptyString => Some (Num (if negative then - n else n), rest)
        end
      else None
  end.

(** [s] starts with [word]: what follows it. *)
Fixpoint after (word s : string) : option string :=
  match word, s with
  | EmptyString, _ => Some s
  | String a w, String b r => if Ascii.eqb a b then after w r else None
  | String _ _, EmptyString => None
  end.

(** A member read with a name that the object has already replaces the value
    of that name; otherwise it comes last. *)
Fixpoint setMember (k : string) (x : value) (members : list (string * value))
    : list (string * value) :=
  match members with
  | [] => [(k, x)]
  | (k', x') :: rest =>
      if (k' =? k)%string then (k, x) :: rest else (k', x') :: setMember k x rest
  end.

(** The parser of values, of the elements of an array after its bracket and
    of the members of an object after its brace.  [fuel] bounds the number of
    nested calls; the length of the text is enough. *)
Fixpoint parseValue (fuel : nat) (s : string) : option (value * string) :=
  match fuel with
  | O => None
  | S fuel =>
      match skipWs s with
      | EmptyString => None
      | String c r =>
          if (Js.isDigit c || Ascii.eqb c "-")%bool then parseNumber (String c r)
          else if Ascii.eqb c "n" then option_map (pair Null) (after "ull" r)
          else if Ascii.eqb c "t" then option_map (pair (Bool true)) (after "rue" r)
          else if Ascii.eqb c "f" then option_map (pair (Bool false)) (after "alse" r)
          else if Ascii.eqb c dquote then
            match parseChars r EmptyString with
            | Some (str, rest) => Some (Str str, rest)
            | None => None
            end
          else if Ascii.eqb c "[" then
            match skipWs r with
            | EmptyString => None
            | String c' r' =>
                if Ascii.eqb c' "]" then Some (Arr [], r')
                else parseElements fuel r []
            end
          else if Ascii.eqb c "{" then
            match skipWs r with
            | EmptyString => None
            | String c' r' =>
                if Ascii.eqb c' "}" then Some (Obj [], r')
                else parseMembers fuel r []
            end
          else None
      end
  end
with parseElements (fuel : nat) (s : string) (acc : list value) : option (value * string) :=
  match fuel with
  | O => None
  | S fuel =>
      match parseValue fuel s with
      | None => None
      | Some (x, rest) =>
          match skipWs rest with
          | EmptyString => None
          | String c r =>
              if Ascii.eqb c "," then parseElements fuel r (acc ++ [x])
              else if Ascii.eqb c "]" then Some (Arr (acc ++ [x]), r)
              else None
          end
      end
  end
with parseMembers (fuel : nat) (s : string) (acc : list (string * value))
    : option (value * string) :=
  match fuel with
  | O => None
  | S fuel =>
      match skipWs s with
      | EmptyString => None
      | String q r =>
          if Ascii.eqb q dquote then
            match parseChars r EmptyString with
            | None => None
            | Some (k, rest) =>
                match skipWs rest with
                | EmptyString => None
                | String colon r1 =>
                    if Ascii.eqb colon ":" then
                      match parseValue fuel r1 with
                      | None => None
                      | Some (x, rest1) =>
                          match skipWs rest1 with
                          | EmptyString => None
                          | String c r2 =>
                              if Ascii.eqb c "," then parseMembers fuel r2 (setMember k x acc)
                              else if Ascii.eqb c "}" then Some (Obj (setMember k x acc), r2)
                              else None
                          end
                      end
                    else None
                end
            end
          else None
      end
  end.

(** [JSON.parse(s)]: one value and nothing but white space after it. *)
Definition parse (s : string) : Js.Result value :=
  match parseValue (S (String.length s)) s with
  | Some (v, rest) =>
      match skipWs rest with
      | EmptyString => inr v
      | String _ _ => inl (Js.MkError "SyntaxError")
      end
  | None => inl (Js.MkError "SyntaxError")
  end.

End Json.

(** *** The calendar as a value

    The object that a calendar is, with its properties in the order of the
    type declarations.  An optional property that is absent is not written;
    a location that is [null] is. *)

Definition optionalMember {A : Type} (k : string) (f : A -> Json.value) (x : option A)
    : list (string * Json.value) :=
  match x with
  | Some a => [(k, f a)]
  | None => []
  end.

Definition meetingPatternValue (mp : MeetingPattern) : Json.value :=
  Json.Obj
    [ ("startTime", Json.Str (startTime mp));
      ("endTime", Json.Str (endTime mp));
      ("weekdays", Json.Arr (map Json.Num (weekdays mp)));
      ("location", match location mp with
                   | Some l => Json.Str l
                   | None => Json.Null
                   end) ].

Definition dateValue (special : CalendarDate) : Json.value :=
  match kind special with
  | NoClass reason hidden =>
      Json.Obj
        (("date", Json.Str (date special)) :: ("type", Json.Str "no-class")
         :: optionalMember "reason" Json.Str reason ++ optionalMember "hidden" Json.Bool hidden)%list
  | Follow weekday =>
      Json.Obj
        [ ("date", Json.Str (date special)); ("type", Json.Str "follow");
          ("weekday", Json.Num weekday) ]
  end.

Definition sectionValue (subsection : CalendarSection) : Json.value :=
  Json.Obj
    [ ("name", Json.Str (sec_name subsection));
      ("meetingPatterns", Json.Arr (map meetingPatternValue (sec_meetingPatterns subsection)));
      ("except", Json.Arr (map Json.Str (sec_except subsection))) ].

Definition courseValue (course : CalendarCourse) : Json.value :=
  Json.Obj
    [ ("number", Json.Str (number course));
      ("name", Json.Str (name course));
      ("meetingPatterns", Json.Arr (map meetingPatternValue (meetingPatterns course)));
      ("except", Json.Arr (map Json.Str (except course)));
      ("subsections", Json.Arr (map sectionValue (subsections course))) ].

Definition termValue (term : CalendarTerm) : Json.value :=
  Json.Obj
    [ ("id", Json.Str (term_id term));
      ("start", Json.Str (term_start term));
      ("end", Json.Str (term_end term));
      ("courses", Json.Arr (map courseValue (courses term)));
      ("dates", Json.Arr (map dateValue (dates term))) ].

Definition calendarValue (calendar : Calendar) : Json.value :=
  Json.Obj
    [ ("name", Json.Str (cal_name calendar));
      ("terms", Json.Arr (map termValue (terms calendar))) ].

Section Codec.

(** The gzip streams [CompressionStream] and [DecompressionStream]; a
    stream that fails gives its exception as an [Error]. *)
Variable gzip : list byte -> list byte.
Variable gunzip : list byte -> Js.Result (list byte).

Definition encodeCalendar (calendar : Calendar) : Js.Result string :=
  inr (rawBase64URLEncode
         (gzip (list_byte_of_string (Json.stringify (calendarValue calendar))))).

(** The value decoded is returned as it is parsed. *)
Definition decodeConfig (base64 : string) : Js.Result Json.value :=
  match rawBase64URLDecode base64 with
  | inl e => inl e
  | inr compressed =>
      match gunzip compressed with
      | inl e => inl e
      | inr data => Json.parse (string_of_list_byte data)
      end
  end.

End Codec.

(** ** generator.ts: generateICal *)


Section GenerateICal.

(** The gzip compression stream of the platform, and [createEvents] of the
    [ics] library, which gives the text of the feed or an error. *)
Variable gzip : list byte -> list byte.
Variable createEvents : list EventAttributes -> string -> string -> Js.Result string.



End GenerateICal.

(** ** excel.ts: the end of parseExcelCalendar *)

Record AcademicCalendar : Type := mkAcademicCalendar {
  ac_name : string;
  year : option Z * option Z;
  range : UTCDate * UTCDate;
  ac_terms : list CalendarTerm
}.

(** What the promise of [parseExcelCalendar] settles to: the object with the
    calendar and the warnings, the object with an error, or a rejection by an
    exception thrown on the way. *)
Inductive ImportResult : Type :=
| Imported (calendar : AcademicCalendar) (warnings : list Warning)
| Failed (error : Js.Error)
| Rejected (exception : string).

(** [a.localeCompare(b)], negative, zero or positive: on the strings of
    digits and hyphens that dates are written in, the order of the locale is
    the order of the code units. *)
Definition localeCompare (a b : string) : Z :=
  match String.compare a b with
  | Lt => -1
  | Eq => 0
  | Gt => 1
  end.

(** [terms.sort((a, b) => a.start.localeCompare(b.start))]: the sort is
    stable, a term stays before the later terms that compare equal to it. *)
Fixpoint insertTerm (t : CalendarTerm) (sorted : list CalendarTerm) : list CalendarTerm :=
  match sorted with
  | [] => [t]
  | u :: rest =>
      if (localeCompare (term_start t) (term_start u) <=? 0)%Z then t :: sorted
      else u :: insertTerm t rest
  end.

Definition sortByStart (ts : list CalendarTerm) : list CalendarTerm :=
  fold_right insertTerm [] ts.

(** The loop that sets [term.id] to [Term i+1], from index [i]. *)
Fixpoint renumber (i : nat) (ts : list CalendarTerm) : list CalendarTerm :=
  match ts with
  | [] => []
  | t :: rest =>
      {| term_id := "Term " ++ Js.showNat (i + 1);
         term_start := term_start t;
         term_end := term_end t;
         courses := courses t;
         dates := dates t |} :: renumber (S i) rest
  end.

(** The loop that finds the least start and the greatest end, from the start
    and end of the first term. *)
Definition leastStart (start : string) (ts : list CalendarTerm) : string :=
  fold_left (fun start term => if String.ltb (term_start term) start then term_start term else start)
    ts start.

Definition greatestEnd (end_ : string) (ts : list CalendarTerm) : string :=
  fold_left (fun end_ term => if Js.gtb (term_end term) end_ then term_end term else end_)
    ts end_.

(** [getFullYear()], [NaN] on the Invalid Date. *)
Definition getFullYear (d : UTCDate) : option Z :=
  option_map (fun z => fst (fst (civilFromDays z))) d.

Definition customCalendarWarning : Warning :=
  {| w_title := "Warning: couldn't match a known WPI academic calendar";
     w_message := "Check term dates for accuracy and add term names, holidays, exceptions to the calendar manually." |}.

(** The statements of [parseExcelCalendar] after its two loops, from the
    removal of the empty terms to the [return], as a function of the variables
    that the loops leave: [calendar], which is [null] when no row selected a
    calendar, [isCustomCalendar] and [warnings]. *)
Definition finishImport (calendar : option AcademicCalendar) (isCustomCalendar : bool)
    (warnings : list Warning) : ImportResult :=
  match calendar with
  | None => Rejected "TypeError"
  | Some calendar =>
      let terms := filter (fun t => Nat.ltb 0 (List.length (courses t))) (ac_terms calendar) in
      match terms with
      | [] =>
          Failed (Js.MkError "No courses found. Check that your export is from the correct page.")
      | first :: _ =>
          let calendar :=
            if isCustomCalendar then
              let start := leastStart (term_start first) terms in
              let end_ := greatestEnd (term_end first) terms in
              let range := (newUTCDate start, newUTCDate end_) in
              {| ac_name := ac_name calendar;
                 year := (getFullYear (fst range), getFullYear (snd range));
                 range := range;
                 ac_terms := renumber 0 (sortByStart terms) |}
            else
              {| ac_name := ac_name calendar;
                 year := year calendar;
                 range := range calendar;
                 ac_terms := terms |} in
          Imported calendar
            (if isCustomCalendar then customCalendarWarning :: warnings else warnings)
      end
  end.

(** ** Notions the properties of the expander are stated with *)

(** A timed event starts at a date with a time of day; an all-day event at a
    date alone. *)
Definition isTimed (ev : EventAttributes) : bool :=
  match ev_start ev with
  | DateTimeArray _ _ _ _ _ => true
  | DateArray _ _ _ => false
  end.

Definition timeOfDay (t : IcsDate) : option (option Z * option Z) :=
  match t with
  | DateTimeArray _ _ _ h mi => Some (h, mi)
  | DateArray _ _ _ => None
  end.

(** What an event shows apart from its day: the times of day it starts and ends
    at, its title and its location. *)
Definition shown (ev : EventAttributes)
    : option (option Z * option Z) * option (option Z * option Z) * string * option string :=
  (timeOfDay (ev_start ev), timeOfDay (ev_end ev), title ev, ev_location ev).

(** The test of the loop over [term.dates]: the entry is for day [d]. *)
Definition isFor (d : Z) (special : CalendarDate) : bool :=
  (date special =? formatDate d)%string.

(** The override entries of [term] for day [d], in declared order, and the
    first of them. *)
Definition overridesOn (term : CalendarTerm) (d : Z) : list CalendarDate :=
  filter (isFor d) (dates term).

Definition firstOverride (term : CalendarTerm) (d : Z) : option CalendarDate :=
  find (isFor d) (dates term).

(** The days of the range of a term, as the loop visits them. *)
Definition termDays (term : CalendarTerm) : list Z :=
  eachDay (newUTCDate (term_start term)) (newUTCDate (term_end term)).

(** The number of dates in the ranges of all the terms. *)
Definition totalDays (calendar : Calendar) : nat :=
  List.length (flat_map termDays (terms calendar)).

(** The events of all the days of all the terms, with no bound on their
    number. *)
Definition allEvents (calendar : Calendar) : list EventAttributes :=
  flat_map (fun term => flat_map (dayEvents term) (termDays term)) (terms calendar).

(** A calendar passes validation when [validate] reports no error. *)
Definition validated (calendar : Calendar) : Prop := errorsOf (validate calendar) = [].

(** The calendar with every [except] list emptied. *)
Definition withoutExceptSection (s : CalendarSection) : CalendarSection :=
  {| sec_name := sec_name s;
     sec_meetingPatterns := sec_meetingPatterns s;
     sec_except := [] |}.

Definition withoutExceptCourse (c : CalendarCourse) : CalendarCourse :=
  {| number := number c;
     name := name c;
     meetingPatterns := meetingPatterns c;
     except := [];
     subsections := map withoutExceptSection (subsections c) |}.

Definition withoutExceptTerm (t : CalendarTerm) : CalendarTerm :=
  {| term_id := term_id t;
     term_start := term_start t;
     term_end := term_end t;
     courses := map withoutExceptCourse (courses t);
     dates := dates t |}.

Definition withoutExcept (calendar : Calendar) : Calendar :=
  {| cal_name := cal_name calendar;
     terms := map withoutExceptTerm (terms calendar) |}.

(** ** Notions the properties of the codec are stated with *)

(** A value is well formed when no object of it has a name twice. *)
Fixpoint wellFormed (v : Json.value) : Prop :=
  match v with
  | Json.Arr l =>
      (fix all (l : list Json.value) : Prop :=
         match l with
         | [] => True
         | x :: r => wellFormed x /\ all r
         end) l
  | Json.Obj ms =>
      NoDup (map fst ms)
      /\ (fix all (ms : list (string * Json.value)) : Prop :=
            match ms with
            | [] => True
            | (_, x) :: r => wellFormed x /\ all r
            end) ms
  | _ => True
  end.

(** The text of a member of an object. *)
Definition printMember (m : string * Json.value) : string :=
  let (k, x) := m in Json.quote k ++ ":" ++ Json.stringify x.

(** The fuel that reading a list of items takes: one more than the length of
    their text with its commas. *)
Definition cost (items : list string) : nat :=
  fold_right (fun x a => S (String.length x + a)) 0%nat items.

(** The character opens a value: it is no white space and closes nothing. *)
Definition opens (c : ascii) : bool :=
  negb (Json.isWs c) && negb (Ascii.eqb c "]") && negb (Ascii.eqb c "}").

(** What comes after a value inside an array or an object, or at the end of
    the text. *)
Definition closes (rest : string) : bool :=
  match rest with
  | EmptyString => true
  | String c _ => (Ascii.eqb c "," || Ascii.eqb c "]" || Ascii.eqb c "}")%bool
  end.

(** What may come after the digits of a number. *)
Definition endsNumber (rest : string) : bool :=
  match rest with
  | EmptyString => true
  | String d _ =>
      negb (Js.isDigit d || Ascii.eqb d "." || Ascii.eqb d "e" || Ascii.eqb d "E")
  end.

(** The text of the value, followed by what may follow a value, is read back
    as the value by any fuel that is at least the length of the text. *)
Definition readsBack (v : Json.value) : Prop :=
  forall fuel rest,
    (String.length (Json.stringify v) <= fuel)%nat ->
    closes rest = true ->
    Json.parseValue fuel (Json.stringify v ++ rest) = Some (v, rest).

(** ** Notions the properties of the import are stated with *)

(** Terms in the order of their starts, each start at most the next. *)
Inductive SortedByStart : list CalendarTerm -> Prop :=
| sorted_nil : SortedByStart []
| sorted_one (t : CalendarTerm) : SortedByStart [t]
| sorted_cons (t u : CalendarTerm) (rest : list CalendarTerm) :
    String.leb (term_start t) (term_start u) = true ->
    SortedByStart (u :: rest) ->
    SortedByStart (t :: u :: rest).

(** Two terms that differ at most by their ids. *)
Definition sameButId (t u : CalendarTerm) : Prop :=
  term_start t = term_start u /\ term_end t = term_end u
  /\ courses t = courses u /\ dates t = dates u.

(** The terms with a course, in the order of the calendar. *)
Definition withCourses (calendar : AcademicCalendar) : list CalendarTerm :=
  filter (fun t => Nat.ltb 0 (List.length (courses t))) (ac_terms calendar).

(** ** Calendars of the scenarios *)

Module Scenario.

Definition thursdayAtNine : MeetingPattern :=
  {| startTime := "09:00"; endTime := "09:50";
     weekdays := [WeekdayConst.Thursday]; location := Some "SH104" |}.

Definition cs101 (except : list string) : CalendarCourse :=
  {| number := "CS 101"; name := "Intro";
     meetingPatterns := [thursdayAtNine];
     except := except; subsections := [] |}.

(** The term A25 of two days, Thursday 2025-08-21 and Friday 2025-08-22. *)
Definition a25 (courses : list CalendarCourse) (dates : list CalendarDate) : CalendarTerm :=
  {| term_id := "A25"; term_start := "2025-08-21"; term_end := "2025-08-22";
     courses := courses; dates := dates |}.

Definition thursday : Z := 20321.

Definition friday : Z := 20322.

(** The calendar of the concrete scenario. *)
Definition plain : Calendar := {| cal_name := ""; terms := [a25 [cs101 []] []] |}.

Definition theMeeting (d : Z) (day : Z) : EventAttributes :=
  {| uid := "course-calendar-CS101-" ++ formatDate d ++ "@tools.calebc.co";
     ev_start := DateTimeArray 2025 8 day (Some 9) (Some 0);
     ev_end := DateTimeArray 2025 8 day (Some 9) (Some 50);
     title := "CS 101 - Intro";
     ev_location := Some "SH104" |}.

(** The course excepts the Thursday it meets on. *)
Definition exceptThursday : Calendar :=
  {| cal_name := ""; terms := [a25 [cs101 ["2025-08-21"]] []] |}.

(** The Friday follows the Thursday schedule by a first entry, and has no
    classes by a second. *)
Definition followThenNoClass : CalendarTerm :=
  a25 [cs101 []]
    [ {| date := "2025-08-22"; kind := Follow WeekdayConst.Thursday |};
      {| date := "2025-08-22"; kind := NoClass (Some "Closure") None |} ].

(** The Friday follows the Thursday schedule by a first entry, and has no
    classes, hidden, by a second. *)
Definition followThenHidden : CalendarTerm :=
  a25 [cs101 []]
    [ {| date := "2025-08-22"; kind := Follow WeekdayConst.Thursday |};
      {| date := "2025-08-22"; kind := NoClass (Some "Break") (Some true) |} ].

(** The Friday follows the Thursday schedule. *)
Definition followOnly : CalendarTerm :=
  a25 [cs101 []] [ {| date := "2025-08-22"; kind := Follow WeekdayConst.Thursday |} ].

(** The Thursday has no classes by two entries, the second of them hidden. *)
Definition shownThenHidden : CalendarTerm :=
  a25 [cs101 []]
    [ {| date := "2025-08-21"; kind := NoClass (Some "Closure") None |};
      {| date := "2025-08-21"; kind := NoClass (Some "Closure") (Some true) |} ].


(** One term whose second course has no number. *)
Definition secondCourseBlank : Calendar :=
  {| cal_name := "";
     terms := [ a25 [ cs101 [];
                      {| number := ""; name := "Lab";
                         meetingPatterns := [thursdayAtNine];
                         except := []; subsections := [] |} ] [] ] |}.

(** A first term without id whose start is after its end. *)
Definition blankTermBackwards : Calendar :=
  {| cal_name := "";
     terms := [ {| term_id := ""; term_start := "2025-08-22"; term_end := "2025-08-21";
                   courses := [cs101 []]; dates := [] |} ] |}.

End Scenario.

(** ** generator.ts: the editing operations *)

(** The term that [addTerm] pushes. *)
Definition emptyTerm : CalendarTerm :=
  {| term_id := ""; term_start := ""; term_end := ""; courses := []; dates := [] |}.

Definition addTerm (calendar : Calendar) : Calendar :=
  {| cal_name := cal_name calendar;
     terms := (terms calendar ++ [emptyTerm])%list |}.

(** The course that [addCourse] pushes. *)
Definition emptyCourse : CalendarCourse :=
  {| number := ""; name := "";
     meetingPatterns := [emptyMeetingPattern];
     except := []; subsections := [] |}.

Definition addCourse (term : CalendarTerm) : CalendarTerm :=
  {| term_id := term_id term;
     term_start := term_start term;
     term_end := term_end term;
     courses := (courses term ++ [emptyCourse])%list;
     dates := dates term |}.

(** [addMeetingPattern] on a course and on a subsection. *)
Definition addMeetingPatternToCourse (course : CalendarCourse) : CalendarCourse :=
  {| number := number course;
     name := name course;
     meetingPatterns := (meetingPatterns course ++ [emptyMeetingPattern])%list;
     except := except course;
     subsections := subsections course |}.

Definition addMeetingPatternToSection (subsection : CalendarSection) : CalendarSection :=
  {| sec_name := sec_name subsection;
     sec_meetingPatterns := (sec_meetingPatterns subsection ++ [emptyMeetingPattern])%list;
     sec_except := sec_except subsection |}.

(** The override date that [addSpecialDate] pushes. *)
Definition emptySpecialDate : CalendarDate :=
  {| date := ""; kind := NoClass (Some "") None |}.

Definition addSpecialDate (term : CalendarTerm) : CalendarTerm :=
  {| term_id := term_id term;
     term_start := term_start term;
     term_end := term_end term;
     courses := courses term;
     dates := (dates term ++ [emptySpecialDate])%list |}.

(** The subsection that [addSubsection] pushes. *)
Definition emptySubsection : CalendarSection :=
  {| sec_name := ""; sec_meetingPatterns := [emptyMeetingPattern]; sec_except := [] |}.

Definition addSubsection (course : CalendarCourse) : CalendarCourse :=
  {| number := number course;
     name := name course;
     meetingPatterns := meetingPatterns course;
     except := except course;
     subsections := (subsections course ++ [emptySubsection])%list |}.

(** [toggleWeekday]: the weekday is filtered out when the pattern includes it
    and pushed when it does not. *)
Definition toggleWeekday (weekday : Weekday) (mp : MeetingPattern) : MeetingPattern :=
  {| startTime := startTime mp;
     endTime := endTime mp;
     weekdays :=
       if includes weekday (weekdays mp)
       then filter (fun w => negb (w =? weekday)%Z) (weekdays mp)
       else (weekdays mp ++ [weekday])%list;
     location := location mp |}.

(** [!xs.length]. *)
Definition noLength {A : Type} (xs : list A) : bool :=
  match xs with
  | [] => true
  | _ :: _ => false
  end.

Definition isEmptyCourse (course : CalendarCourse) : bool :=
  negb (Js.truthy (number course))
  && negb (Js.truthy (name course))
  && (noLength (meetingPatterns course)
      || forallb isEmptyMeetingPattern (meetingPatterns course))
  && noLength (subsections course)
  && noLength (except course).

Definition isEmptyTerm (term : CalendarTerm) : bool :=
  negb (Js.truthy (term_id term))
  && negb (Js.truthy (term_start term))
  && negb (Js.truthy (term_end term))
  && (noLength (courses term) || forallb isEmptyCourse (courses term)).

Definition isEmptySubsection (subsection : CalendarSection) : bool :=
  negb (Js.truthy (sec_name subsection))
  && (noLength (sec_meetingPatterns subsection)
      || forallb isEmptyMeetingPattern (sec_meetingPatterns subsection))
  && noLength (sec_except subsection).

Definition isEmptyException (exception : string) : bool := negb (Js.truthy exception).

(** [!date.weekday] holds of the weekday [0]. *)
Definition isEmptyDate (special : CalendarDate) : bool :=
  negb (Js.truthy (date special))
  && match kind special with
     | NoClass reason _ => negb (Js.truthyOpt reason)
     | Follow weekday => (weekday =? 0)%Z
     end.

(** *** init: the sorting of the calendar

    [Array.prototype.sort] is stable: elements that compare equal keep their
    order.  With a comparator that is an order, as here, the sorted array is
    the one that insertion from the right builds. *)

Fixpoint insertBy {A : Type} (compare : A -> A -> Z) (x : A) (sorted : list A) : list A :=
  match sorted with
  | [] => [x]
  | y :: rest =>
      if (compare x y <=? 0)%Z then x :: sorted
      else y :: insertBy compare x rest
  end.

Definition sortBy {A : Type} (compare : A -> A -> Z) (xs : list A) : list A :=
  fold_right (insertBy compare) [] xs.

(** [xs.sort()] on strings: the order of the code units. *)
Definition sortStrings (xs : list string) : list string := sortBy localeCompare xs.

Definition initSection (subsection : CalendarSection) : CalendarSection :=
  {| sec_name := sec_name subsection;
     sec_meetingPatterns := sec_meetingPatterns subsection;
     sec_except := sortStrings (sec_except subsection) |}.

Definition initCourse (course : CalendarCourse) : CalendarCourse :=
  {| number := number course;
     name := name course;
     meetingPatterns := meetingPatterns course;
     except := sortStrings (except course);
     subsections := map initSection (subsections course) |}.

Definition initTerm (term : CalendarTerm) : CalendarTerm :=
  {| term_id := term_id term;
     term_start := term_start term;
     term_end := term_end term;
     courses := map initCourse (courses term);
     dates := sortBy (fun a b => localeCompare (date a) (date b)) (dates term) |}.

(** The sorting that [init] does before it generates the feed: the terms by
    start, and then in each term the override dates by date and the [except]
    lists. *)
Definition initCalendar (calendar : Calendar) : Calendar :=
  {| cal_name := cal_name calendar;
     terms := map initTerm
                (sortBy (fun a b => localeCompare (term_start a) (term_start b))
                   (terms calendar)) |}.

(** ** generator.ts: importIcs and importExcel *)

(** [s.split(sep)] for a separator of several characters: [skip] counts the
    characters of a separator found that are still to pass, [cur] is the piece
    being read. *)
Fixpoint splitOnFrom (sep s : string) (skip : nat) (cur : string) : list string :=
  match s with
  | EmptyString => [cur]
  | String c r =>
      match skip with
      | S k => splitOnFrom sep r k cur
      | O =>
          if String.prefix sep s
          then cur :: splitOnFrom sep r (String.length sep - 1) EmptyString
          else splitOnFrom sep r 0 (cur ++ String c EmptyString)
      end
  end.

Definition splitOn (sep s : string) : list string := splitOnFrom sep s 0 EmptyString.

(** The product identifier that [generateICal] gives to [createEvents]. *)
Definition productId (calendarData : string) : string :=
  "-//tools.calebc.co//" ++ calendarData ++ "//EN".

Section ImportIcs.

Variable gunzip : list byte -> Js.Result (list byte).

(** What [importIcs] does with the value of the property [prodid]:
    [decodeConfig(value.split('//')[2])]; a value with fewer pieces gives
    [undefined], on which the decoding throws, and the exception is the
    [Error] returned. *)
Definition decodeProdid (value : string) : Js.Result Json.value :=
  match nth_error (splitOn "//" value) 2 with
  | Some base64 => decodeConfig gunzip base64
  | None => inl (Js.MkError "TypeError")
  end.

End ImportIcs.

(** What [importExcel] leaves in [this.calendar]: the name and the terms of
    the calendar imported; when the import gives an error the calendar is
    left as it is. *)
Definition importExcel (result : ImportResult) (calendar : Calendar) : Calendar :=
  match result with
  | Imported imported _ =>
      {| cal_name := ac_name imported; terms := ac_terms imported |}
  | Failed _ => calendar
  | Rejected _ => calendar
  end.

(** ** excel.ts: extractSubsectionName *)

Definition componentNames : list (ascii * string) :=
  [ ("L"%char, "Lecture"); ("D"%char, "Discussion");
    ("X"%char, "Laboratory"); ("R"%char, "Recitation") ].

Fixpoint lookupChar (c : ascii) (table : list (ascii * string)) : option string :=
  match table with
  | [] => None
  | (k, v) :: rest => if Ascii.eqb k c then Some v else lookupChar c rest
  end.

(** The name of the component of a section code; when the code has no hyphen
    before its first [" - "] the second piece is [undefined] and reading its
    first character throws a [TypeError], the [Error] on the left here. *)
Definition extractSubsectionName (courseSection : string) : Js.Result string :=
  match nth_error (Js.split "-" (nth 0 (splitOn " - " courseSection) "")) 1 with
  | None => inl (Js.MkError "TypeError")
  | Some name =>
      inr match name with
          | String c0 rest =>
              if (Ascii.eqb c0 "A" || Ascii.eqb c0 "B" || Ascii.eqb c0 "C"
                  || Ascii.eqb c0 "D")%bool
              then match rest with
                   | String c1 _ =>
                       match lookupChar c1 componentNames with
                       | Some full => full
                       | None => name
                       end
                   | EmptyString => name
                   end
              else name
          | EmptyString => name
          end
  end.

(** ** Notions the properties of validate are stated with *)

(** The date string lies within the bounds of the term, in the order of
    strings. *)
Definition withinTerm (term : CalendarTerm) (d : string) : Prop :=
  String.ltb d (term_start term) = false /\ Js.gtb d (term_end term) = false.

Definition meetingPatternOk (mp : MeetingPattern) : Prop :=
  startTime mp <> "" /\ endTime mp <> ""
  /\ Js.gtb (startTime mp) (endTime mp) = false
  /\ weekdays mp <> [].

Definition subsectionOk (subsection : CalendarSection) : Prop :=
  sec_name subsection <> "" /\ Forall meetingPatternOk (sec_meetingPatterns subsection).

Definition courseOk (term : CalendarTerm) (course : CalendarCourse) : Prop :=
  number course <> "" /\ name course <> ""
  /\ Forall meetingPatternOk (meetingPatterns course)
  /\ Forall subsectionOk (subsections course)
  /\ Forall (fun special => special <> "" /\ withinTerm term special) (except course).

Definition dateOk (term : CalendarTerm) (special : CalendarDate) : Prop :=
  date special <> "" /\ withinTerm term (date special)
  /\ match kind special with
     | Follow weekday =>
         forall d, newUTCDate (date special) = Some d -> getDay d <> weekday
     | NoClass _ _ => True
     end.

Definition termOk (term : CalendarTerm) : Prop :=
  term_id term <> "" /\ term_start term <> "" /\ term_end term <> ""
  /\ Js.gtb (term_start term) (term_end term) = false
  /\ Forall (dateOk term) (dates term)
  /\ Forall (courseOk term) (courses term).

Definition calendarOk (calendar : Calendar) : Prop :=
  terms calendar <> []
  /\ flat_map courses (terms calendar) <> []
  /\ NoDup (map term_id (terms calendar))
  /\ Forall termOk (terms calendar).

(** * Further notions

    Definitions that the properties of the editing operations, of the
    validation, of the runs of [generateICal] and of the import are stated
    with. *)

(** The calendar with [f] applied to every subsection. *)
Definition mapSections (f : CalendarSection -> CalendarSection) (calendar : Calendar) : Calendar :=
  {| cal_name := cal_name calendar;
     terms :=
       map (fun term =>
              {| term_id := term_id term;
                 term_start := term_start term;
                 term_end := term_end term;
                 courses :=
                   map (fun course =>
                          {| number := number course;
                             name := name course;
                             meetingPatterns := meetingPatterns course;
                             except := except course;
                             subsections := map f (subsections course) |})
                     (courses term);
                 dates := dates term |})
         (terms calendar) |}.

Definition setSectionExcept (g : CalendarSection -> list string) (s : CalendarSection)
    : CalendarSection :=
  {| sec_name := sec_name s;
     sec_meetingPatterns := sec_meetingPatterns s;
     sec_except := g s |}.






(** The year, month and day of a date of the [ics] library. *)
Definition dayOf (t : IcsDate) : Z * Z * Z :=
  match t with
  | DateArray y m d => (y, m, d)
  | DateTimeArray y m d _ _ => (y, m, d)
  end.

(** The uid that the events of a course get on day [d], and the uid of the
    events of one of its subsections. *)
Definition courseUid (course : CalendarCourse) (d : Z) : string :=
  "course-calendar-" ++ Js.removeSpaces (number course) ++ "-" ++ formatDate d
  ++ "@tools.calebc.co".

Definition subsectionUid (course : CalendarCourse) (subsection : CalendarSection) (d : Z)
    : string :=
  "course-calendar-" ++ Js.removeSpaces (number course) ++ "-"
  ++ Js.removeSpaces (sec_name subsection) ++ "-" ++ formatDate d ++ "@tools.calebc.co".

(** The number of the meeting patterns that include the weekday. *)
Definition meetingsOn (weekday : Weekday) (mps : list MeetingPattern) : nat :=
  List.length (filter (fun mp => includes weekday (weekdays mp)) mps).

(** ** Further calendars of examples *)

Module Cases.

Definition thursdayAtTwo : MeetingPattern :=
  {| startTime := "14:00"; endTime := "14:50";
     weekdays := [WeekdayConst.Thursday]; location := Some "SH104" |}.

(** A course that meets twice on Thursdays. *)
Definition twiceOnThursday : CalendarCourse :=
  {| number := "CS 101"; name := "Intro";
     meetingPatterns := [Scenario.thursdayAtNine; thursdayAtTwo];
     except := []; subsections := [] |}.



(** What the loops of the importer may leave: a term without courses between
    two terms that have one, the later term first. *)
Definition leftByLoops : AcademicCalendar :=
  {| ac_name := "Custom";
     year := (None, None);
     range := (None, None);
     ac_terms :=
       [ {| term_id := ""; term_start := "2025-10-20"; term_end := "2025-12-12";
            courses := [Scenario.cs101 []]; dates := [] |};
         {| term_id := ""; term_start := "2025-09-01"; term_end := "2025-09-30";
            courses := []; dates := [] |};
         {| term_id := ""; term_start := "2025-08-21"; term_end := "2025-10-10";
            courses := [twiceOnThursday]; dates := [] |} ] |}.

(** The terms returned for [leftByLoops] taken as a custom calendar. *)
Definition returnedCustom : AcademicCalendar :=
  {| ac_name := "Custom";
     year := (Some 2025, Some 2025);
     range := (newUTCDate "2025-08-21", newUTCDate "2025-12-12");
     ac_terms :=
       [ {| term_id := "Term 1"; term_start := "2025-08-21"; term_end := "2025-10-10";
            courses := [twiceOnThursday]; dates := [] |};
         {| term_id := "Term 2"; term_start := "2025-10-20"; term_end := "2025-12-12";
            courses := [Scenario.cs101 []]; dates := [] |} ] |}.

End Cases.

(** * Properties *)

(** ** Strings *)

Lemma append_assoc (a b c : string) : (a ++ b) ++ c = a ++ (b ++ c).
Proof.
  induction a as [|x a IH]; [reflexivity|]. cbn. now rewrite IH.
Qed.

Lemma append_nil_r (a : string) : a ++ "" = a.
Proof.
  induction a as [|x a IH]; [reflexivity|]. cbn. now rewrite IH.
Qed.

Lemma length_append (a b : string) :
  String.length (a ++ b) = (String.length a + String.length b)%nat.
Proof.
  induction a as [|x a IH]; [reflexivity|]. cbn. now rewrite IH.
Qed.

(** ** Properties of the expander *)

(** *** The days of a term *)

(** The list of days is what the loop visits: from the start, one day after
    the other, as long as the day is before the day after the end. *)
Lemma eachDay_step (s e : Z) :
  eachDay (Some s) (Some e)
  = if isBefore s (addDays e 1) then s :: eachDay (Some (addDays s 1)) (Some e) else [].
Proof.
  unfold eachDay, isBefore, addDays.
  destruct (Z.ltb_spec s (e + 1)) as [Hlt|Hge].
  - replace (Z.to_nat (e + 1 - s)) with (S (Z.to_nat (e + 1 - (s + 1)))) by lia.
    cbn [seq map]. f_equal; [lia|].
    rewrite <- seq_shift, map_map. apply map_ext. intros k. lia.
  - replace (Z.to_nat (e + 1 - s)) with 0%nat by lia. reflexivity.
Qed.

Lemma eachDay_In (s e d : Z) :
  In d (eachDay (Some s) (Some e)) <-> (s <= d <= e)%Z.
Proof.
  unfold eachDay, addDays. rewrite in_map_iff. split.
  - intros (k & <- & Hk). apply in_seq in Hk. lia.
  - intros H. exists (Z.to_nat (d - s)). split; [lia|]. apply in_seq. lia.
Qed.

(** *** The scan of the override dates *)

Lemma scanDates_filter (d : Z) (uids : list string) (weekday : Weekday) (specials : list CalendarDate) :
  scanDates d uids weekday specials = scanDates d uids weekday (filter (isFor d) specials).
Proof.
  induction specials as [|special rest IH]; simpl; [reflexivity|].
  unfold isFor at 1.
  destruct (date special =? formatDate d)%string eqn:E.
  - simpl. rewrite E. reflexivity.
  - exact IH.
Qed.

Lemma scanDates_first (d : Z) (weekday : Weekday) (specials : list CalendarDate) :
  scanDates d [] weekday specials =
  match find (isFor d) specials with
  | None => ToCourses weekday []
  | Some special =>
      match kind special with
      | NoClass reason hidden =>
          ContinueOuter (if Js.truthyFlag hidden then []
                         else [noClassMarker d (date special) reason])
      | Follow w => ToCourses w [followMarker d (date special) w]
      end
  end.
Proof.
  induction specials as [|special rest IH]; simpl; [reflexivity|].
  unfold isFor at 1.
  destruct (date special =? formatDate d)%string eqn:E; [|exact IH].
  destruct (kind special) as [reason hidden|w]; [|reflexivity].
  destruct (Js.truthyFlag hidden); reflexivity.
Qed.

Lemma dayEvents_first (term : CalendarTerm) (d : Z) :
  dayEvents term d =
  match firstOverride term d with
  | None => flat_map (courseEvents d (getDay d)) (courses term)
  | Some special =>
      match kind special with
      | NoClass reason hidden =>
          if Js.truthyFlag hidden then [] else [noClassMarker d (date special) reason]
      | Follow w =>
          followMarker d (date special) w :: flat_map (courseEvents d w) (courses term)
      end
  end.
Proof.
  unfold dayEvents, firstOverride. rewrite scanDates_first.
  destruct (find (isFor d) (dates term)) as [special|]; [|reflexivity].
  destruct (kind special); reflexivity.
Qed.

(** *** The loops and the cap *)

Lemma daysLoop_spec (term : CalendarTerm) (days : list Z) :
  forall (i : Z) (events : list EventAttributes),
    (i <= 1000)%Z ->
    daysLoop term days i events =
    if (i + Z.of_nat (List.length days) >? 1000)%Z then TooManyEvents
    else Expanded (i + Z.of_nat (List.length days))
           (events ++ flat_map (dayEvents term) days).
Proof.
  induction days as [|d rest IH]; intros i events Hi.
  - simpl. rewrite Z.add_0_r.
    destruct (Z.gtb_spec i 1000); [lia|]. now rewrite app_nil_r.
  - cbn [daysLoop].
    destruct (Z.gtb_spec (i + 1) 1000).
    + destruct (Z.gtb_spec (i + Z.of_nat (List.length (d :: rest))) 1000); [reflexivity|].
      cbn [List.length] in *. lia.
    + rewrite IH by lia. cbn [List.length flat_map].
      replace (i + 1 + Z.of_nat (List.length rest))%Z
        with (i + Z.of_nat (S (List.length rest)))%Z by lia.
      now rewrite <- app_assoc.
Qed.

Lemma termsLoop_spec (ts : list CalendarTerm) :
  forall (i : Z) (events : list EventAttributes),
    (i <= 1000)%Z ->
    termsLoop ts i events =
    if (i + Z.of_nat (List.length (flat_map termDays ts)) >? 1000)%Z then TooManyEvents
    else Expanded (i + Z.of_nat (List.length (flat_map termDays ts)))
           (events ++ flat_map (fun term => flat_map (dayEvents term) (termDays term)) ts).
Proof.
  induction ts as [|term rest IH]; intros i events Hi.
  - simpl. rewrite Z.add_0_r.
    destruct (Z.gtb_spec i 1000); [lia|]. now rewrite app_nil_r.
  - cbn [termsLoop flat_map]. fold (termDays term).
    rewrite daysLoop_spec by exact Hi.
    rewrite length_app, Nat2Z.inj_add.
    destruct (Z.gtb_spec (i + Z.of_nat (List.length (termDays term))) 1000).
    + destruct (Z.gtb_spec (i + (Z.of_nat (List.length (termDays term))
                     + Z.of_nat (List.length (flat_map termDays rest)))) 1000);
        [reflexivity | lia].
    + rewrite IH by lia. rewrite Z.add_assoc.
      now rewrite <- app_assoc.
Qed.

Lemma expand_spec (calendar : Calendar) :
  expand calendar =
  if (Z.of_nat (totalDays calendar) >? 1000)%Z then TooManyEvents
  else Expanded (Z.of_nat (totalDays calendar)) (allEvents calendar).
Proof.
  unfold expand. rewrite termsLoop_spec by lia. reflexivity.
Qed.

(** Every event of an expansion is pushed by the turn of the loop for some day
    of the range of some term. *)
Lemma expand_event_origin (calendar : Calendar) (i : Z) (events : list EventAttributes)
    (ev : EventAttributes) :
  expand calendar = Expanded i events ->
  In ev events ->
  exists term d,
    In term (terms calendar) /\ In d (termDays term) /\ In ev (dayEvents term d).
Proof.
  rewrite expand_spec.
  destruct (Z.of_nat (totalDays calendar) >? 1000)%Z; [discriminate|].
  intros H Hin. injection H as _ <-.
  unfold allEvents in Hin. apply in_flat_map in Hin as (term & Hterm & Hin).
  apply in_flat_map in Hin as (d & Hd & Hin).
  now exists term, d.
Qed.

(** *** Except lists *)

Lemma meetingEvents_shown (uid uid' title : string) (d d' : Z) (weekday : Weekday)
    (mps : list MeetingPattern) :
  map shown (meetingEvents uid title d weekday mps)
  = map shown (meetingEvents uid' title d' weekday mps).
Proof.
  unfold meetingEvents.
  induction mps as [|mp rest IH]; [reflexivity|].
  cbn [flat_map]. rewrite !map_app, IH. f_equal.
  destruct (includes weekday (weekdays mp)); [|reflexivity].
  unfold shown, toIcsTime; cbn.
  destruct (civilFromDays d) as [[y m] dd], (civilFromDays d') as [[y' m'] dd'].
  reflexivity.
Qed.

Lemma meetingEvents_timed (uid title : string) (d : Z) (weekday : Weekday)
    (mps : list MeetingPattern) :
  forallb isTimed (meetingEvents uid title d weekday mps) = true.
Proof.
  unfold meetingEvents.
  induction mps as [|mp rest IH]; [reflexivity|].
  cbn [flat_map]. rewrite forallb_app, IH, andb_true_r.
  destruct (includes weekday (weekdays mp)); [|reflexivity].
  unfold isTimed, toIcsTime; cbn.
  destruct (civilFromDays d) as [[y m] dd]. reflexivity.
Qed.

Lemma forallb_flat_map {A B : Type} (p : B -> bool) (f : A -> list B) (l : list A) :
  (forall x, forallb p (f x) = true) -> forallb p (flat_map f l) = true.
Proof.
  intros H. induction l as [|x rest IH]; [reflexivity|].
  cbn [flat_map]. now rewrite forallb_app, H, IH.
Qed.

Lemma map_flat_map_ext {A B C : Type} (g : B -> C) (f f' : A -> list B) (l : list A) :
  (forall x, map g (f x) = map g (f' x)) ->
  map g (flat_map f l) = map g (flat_map f' l).
Proof.
  intros H. induction l as [|x rest IH]; [reflexivity|].
  cbn [flat_map]. now rewrite !map_app, H, IH.
Qed.

Lemma courseEvents_timed (d : Z) (weekday : Weekday) (course : CalendarCourse) :
  forallb isTimed (courseEvents d weekday course) = true.
Proof.
  unfold courseEvents. rewrite forallb_app, meetingEvents_timed. cbn [andb].
  apply forallb_flat_map. intros s. apply meetingEvents_timed.
Qed.

Lemma courseEvents_shown (d d' : Z) (weekday : Weekday) (course : CalendarCourse) :
  map shown (courseEvents d weekday course) = map shown (courseEvents d' weekday course).
Proof.
  unfold courseEvents. rewrite !map_app. f_equal.
  - apply meetingEvents_shown.
  - apply map_flat_map_ext. intros s. apply meetingEvents_shown.
Qed.

Lemma courseEvents_withoutExcept (d : Z) (weekday : Weekday) (course : CalendarCourse) :
  courseEvents d weekday (withoutExceptCourse course) = courseEvents d weekday course.
Proof.
  unfold courseEvents. cbn. f_equal.
  induction (subsections course) as [|s rest IH]; [reflexivity|].
  cbn [map flat_map]. now rewrite IH.
Qed.

Lemma dayEvents_withoutExcept (term : CalendarTerm) (d : Z) :
  dayEvents (withoutExceptTerm term) d = dayEvents term d.
Proof.
  unfold dayEvents. cbn.
  assert (E : forall w, flat_map (courseEvents d w) (map withoutExceptCourse (courses term))
                        = flat_map (courseEvents d w) (courses term)).
  { intros w. induction (courses term) as [|c rest IH]; [reflexivity|].
    cbn [map flat_map]. now rewrite IH, courseEvents_withoutExcept. }
  destruct (scanDates d [] (getDay d) (dates term)); [reflexivity|].
  now rewrite E.
Qed.

(** C1, as the code has it: the expander does not read the [except] lists.
    For every calendar, expansion gives the same outcome, and the same events,
    as for the calendar with every course's and every subsection's [except]
    list emptied; a date in an [except] list suppresses no event, of the
    course or of its subsections. *)
Theorem expand_ignores_except (calendar : Calendar) :
  expand (withoutExcept calendar) = expand calendar.
Proof.
  unfold expand. cbn [withoutExcept terms].
  generalize 0%Z, (@nil EventAttributes).
  induction (terms calendar) as [|term rest IH]; intros i events; [reflexivity|].
  cbn [map termsLoop].
  assert (E : forall days j evs,
             daysLoop (withoutExceptTerm term) days j evs = daysLoop term days j evs).
  { induction days as [|d days IHd]; intros j evs; [reflexivity|].
    cbn [daysLoop]. now rewrite dayEvents_withoutExcept, IHd. }
  cbn [withoutExceptTerm term_start term_end]. rewrite E.
  destruct (daysLoop term _ i events); [reflexivity|apply IH].
Qed.

(** C1, as stated, fails: the course CS 101 excepts 2025-08-21, the calendar
    passes validation, and the expansion still holds the timed meeting of that
    course on that day. *)
Lemma except_date_still_meets :
  validated Scenario.exceptThursday
  /\ In "2025-08-21" (except (Scenario.cs101 ["2025-08-21"]))
  /\ formatDate Scenario.thursday = "2025-08-21"
  /\ expand Scenario.exceptThursday
     = Expanded 2
         [ {| uid := "course-calendar-CS101-2025-08-21@tools.calebc.co";
              ev_start := DateTimeArray 2025 8 21 (Some 9) (Some 0);
              ev_end := DateTimeArray 2025 8 21 (Some 9) (Some 50);
              title := "CS 101 - Intro";
              ev_location := Some "SH104" |} ].
Proof.
  repeat split; try (vm_compute; reflexivity).
  left; reflexivity.
Qed.

(** *** Days without classes *)

(** C2, as the code has it: when the first override entry of the term for day
    [d], in declared order, is a no-class entry, the turn of the loop for [d]
    pushes no timed event, whatever the meeting patterns and whatever entries
    follow. *)
Theorem first_no_class_no_meeting (term : CalendarTerm) (d : Z) (special : CalendarDate)
    (reason : option string) (hidden : option bool) :
  firstOverride term d = Some special ->
  kind special = NoClass reason hidden ->
  forall ev, In ev (dayEvents term d) -> isTimed ev = false.
Proof.
  intros Hfirst Hkind ev Hin.
  rewrite dayEvents_first, Hfirst, Hkind in Hin.
  destruct (Js.truthyFlag hidden); [contradiction|].
  destruct Hin as [<-|[]]. reflexivity.
Qed.

Lemma first_no_class_no_meeting_witness :
  firstOverride Scenario.shownThenHidden Scenario.thursday
  = Some {| date := "2025-08-21"; kind := NoClass (Some "Closure") None |}
  /\ In (noClassMarker Scenario.thursday "2025-08-21" (Some "Closure"))
       (dayEvents Scenario.shownThenHidden Scenario.thursday)
  /\ isTimed (noClassMarker Scenario.thursday "2025-08-21" (Some "Closure")) = false.
Proof.
  split; [reflexivity|]. split; [left; reflexivity|].
  apply (first_no_class_no_meeting Scenario.shownThenHidden Scenario.thursday
           {| date := "2025-08-21"; kind := NoClass (Some "Closure") None |}
           (Some "Closure") None); [reflexivity | reflexivity | left; reflexivity].
Defined.

(** C2, as stated, fails: the term lists a no-class entry for 2025-08-22, a day
    of its range, after a follow entry for the same day; the calendar passes
    validation and the expansion holds a timed meeting on 2025-08-22. *)
Lemma no_class_after_follow_meets :
  validated {| cal_name := ""; terms := [Scenario.followThenNoClass] |}
  /\ In Scenario.friday (termDays Scenario.followThenNoClass)
  /\ In {| date := formatDate Scenario.friday; kind := NoClass (Some "Closure") None |}
       (dates Scenario.followThenNoClass)
  /\ exists ev,
       In ev (dayEvents Scenario.followThenNoClass Scenario.friday)
       /\ isTimed ev = true
       /\ ev_start ev = DateTimeArray 2025 8 22 (Some 9) (Some 0)
       /\ title ev = "CS 101 - Intro"
       /\ exists i events,
            expand {| cal_name := ""; terms := [Scenario.followThenNoClass] |}
            = Expanded i events /\ In ev events.
Proof.
  split; [vm_compute; reflexivity|].
  split; [vm_compute; auto|].
  split; [vm_compute; auto|].
  eexists. split; [vm_compute; right; left; reflexivity|].
  repeat split.
  eexists _, _. split; [vm_compute; reflexivity|].
  right; right; left; reflexivity.
Qed.

(** C7, as the code has it: when the first override entry of the term for day
    [d], in declared order, is a no-class entry, the turn of the loop for [d]
    pushes nothing at all if the entry is hidden, and otherwise exactly one
    event, the all-day marker from [d] to the next day titled [No Classes] or
    [No Classes (reason)]; in both cases no meeting, and whatever entries
    follow. *)
Theorem first_no_class_marker (term : CalendarTerm) (d : Z) (special : CalendarDate)
    (reason : option string) (hidden : option bool) :
  firstOverride term d = Some special ->
  kind special = NoClass reason hidden ->
  (hidden = Some true -> dayEvents term d = [])
  /\ (hidden <> Some true ->
      exists marker,
        dayEvents term d = [marker]
        /\ isTimed marker = false
        /\ ev_start marker = toIcsDate d
        /\ ev_end marker = toIcsDate (addDays d 1)
        /\ title marker = (if Js.truthyOpt reason
                           then "No Classes (" ++ match reason with Some r => r | None => "" end ++ ")"
                           else "No Classes")).
Proof.
  intros Hfirst Hkind. rewrite dayEvents_first, Hfirst, Hkind. split.
  - intros ->. reflexivity.
  - intros Hshown.
    assert (Js.truthyFlag hidden = false) as ->
      by (destruct hidden as [[|]|]; [now contradiction Hshown | reflexivity | reflexivity]).
    eexists. split; [reflexivity|]. repeat split.
    destruct reason; reflexivity.
Qed.

Lemma first_no_class_marker_witness :
  (None = Some true -> dayEvents Scenario.shownThenHidden Scenario.thursday = [])
  /\ (None <> Some true ->
      exists marker,
        dayEvents Scenario.shownThenHidden Scenario.thursday = [marker]
        /\ isTimed marker = false
        /\ ev_start marker = toIcsDate Scenario.thursday
        /\ ev_end marker = toIcsDate (addDays Scenario.thursday 1)
        /\ title marker = "No Classes (Closure)").
Proof.
  apply (first_no_class_marker Scenario.shownThenHidden Scenario.thursday
           {| date := "2025-08-21"; kind := NoClass (Some "Closure") None |}
           (Some "Closure") None); reflexivity.
Defined.

(** C7, as stated, fails: the term lists a hidden no-class entry for
    2025-08-22 after a follow entry for the same day; the calendar passes
    validation, and the expansion holds two events on 2025-08-22, the follow
    marker and a meeting. *)
Lemma hidden_no_class_after_follow_shows :
  validated {| cal_name := ""; terms := [Scenario.followThenHidden] |}
  /\ In {| date := formatDate Scenario.friday; kind := NoClass (Some "Break") (Some true) |}
       (dates Scenario.followThenHidden)
  /\ dayEvents Scenario.followThenHidden Scenario.friday
     = [ {| uid := "course-calendar-2025-08-22-follow@tools.calebc.co";
            ev_start := DateArray 2025 8 22;
            ev_end := DateArray 2025 8 23;
            title := "Follow Thursday Schedule";
            ev_location := None |};
         {| uid := "course-calendar-CS101-2025-08-22@tools.calebc.co";
            ev_start := DateTimeArray 2025 8 22 (Some 9) (Some 0);
            ev_end := DateTimeArray 2025 8 22 (Some 9) (Some 50);
            title := "CS 101 - Intro";
            ev_location := Some "SH104" |} ]
  /\ expand {| cal_name := ""; terms := [Scenario.followThenHidden] |}
     = Expanded 2
         (dayEvents Scenario.followThenHidden Scenario.thursday
          ++ dayEvents Scenario.followThenHidden Scenario.friday).
Proof.
  repeat split; try (vm_compute; reflexivity).
  vm_compute; auto.
Qed.

(** *** Days that follow another weekday *)

Lemma firstOverride_overridesOn (term : CalendarTerm) (d : Z) :
  firstOverride term d = hd_error (overridesOn term d).
Proof.
  unfold firstOverride, overridesOn.
  induction (dates term) as [|special rest IH]; [reflexivity|].
  cbn [find filter]. destruct (isFor d special); [reflexivity|exact IH].
Qed.

(** C6: let the only override entry of the term for day [d] be a follow entry
    to weekday [W], and let [d'] be an ordinary day, with no override entry,
    that falls on [W].  Then the turn of the loop for [d] pushes one all-day
    marker titled [Follow <Weekday> Schedule], and after it timed events only,
    which show the same times of day, titles and locations, in the same order,
    as the events of [d']. *)
Theorem follow_day_like_weekday (term : CalendarTerm) (d d' : Z) (special : CalendarDate)
    (W : Weekday) :
  overridesOn term d = [special] ->
  kind special = Follow W ->
  overridesOn term d' = [] ->
  getDay d' = W ->
  exists marker meetings,
    dayEvents term d = marker :: meetings
    /\ isTimed marker = false
    /\ ev_start marker = toIcsDate d
    /\ ev_end marker = toIcsDate (addDays d 1)
    /\ title marker = "Follow " ++ weekdayToString W false ++ " Schedule"
    /\ forallb isTimed meetings = true
    /\ map shown meetings = map shown (dayEvents term d').
Proof.
  intros Hd Hkind Hd' Hday.
  rewrite !dayEvents_first, !firstOverride_overridesOn, Hd, Hd'. cbn [hd_error].
  rewrite Hkind, Hday.
  eexists _, _. split; [reflexivity|].
  repeat split.
  - apply forallb_flat_map. intros c. apply courseEvents_timed.
  - apply map_flat_map_ext. intros c. apply courseEvents_shown.
Qed.

Lemma follow_day_like_weekday_witness :
  exists marker meetings,
    dayEvents Scenario.followOnly Scenario.friday = marker :: meetings
    /\ isTimed marker = false
    /\ ev_start marker = toIcsDate Scenario.friday
    /\ ev_end marker = toIcsDate (addDays Scenario.friday 1)
    /\ title marker = "Follow " ++ weekdayToString WeekdayConst.Thursday false ++ " Schedule"
    /\ forallb isTimed meetings = true
    /\ map shown meetings = map shown (dayEvents Scenario.followOnly Scenario.thursday).
Proof.
  apply (follow_day_like_weekday Scenario.followOnly Scenario.friday Scenario.thursday
           {| date := "2025-08-22"; kind := Follow WeekdayConst.Thursday |}
           WeekdayConst.Thursday); reflexivity.
Defined.

(** *** The cap on the number of days *)

Section Cap.

Variable gzip : list byte -> list byte.
Variable createEvents : list EventAttributes -> string -> string -> Js.Result string.


End Cap.


(** The abort is taken exactly when the ranges hold more than 1000 dates, and
    otherwise every day of every term contributes its events, in order. *)
Lemma expand_aborts_iff (calendar : Calendar) :
  expand calendar = TooManyEvents <-> (1000 < totalDays calendar)%nat.
Proof.
  rewrite expand_spec.
  destruct (Z.gtb_spec (Z.of_nat (totalDays calendar)) 1000) as [Hgt|Hle];
    split; intros Hx; try reflexivity; try lia; discriminate.
Qed.

(** The loop over the days of a term returns on the first day that takes the
    count past 1000: with [i] days counted before, the days up to the one
    numbered [1000 - i] are expanded, and the next one returns. *)
Lemma daysLoop_returns_at_1001 (term : CalendarTerm) (before after : list Z) (d : Z)
    (i : Z) (events : list EventAttributes) :
  (i + Z.of_nat (List.length before) = 1000)%Z ->
  (0 <= i)%Z ->
  daysLoop term (before ++ d :: after) i events = TooManyEvents.
Proof.
  revert i events. induction before as [|b rest IH]; intros i events Hcount Hi.
  - cbn in *. destruct (Z.gtb_spec (i + 1) 1000); [reflexivity|lia].
  - cbn [app daysLoop]. cbn [List.length] in Hcount.
    destruct (Z.gtb_spec (i + 1) 1000); [reflexivity|].
    apply IH; lia.
Qed.

(** *** The concrete scenario *)

(** C8: the calendar of the one term A25, from 2025-08-21 to 2025-08-22,
    with the course CS 101 "Intro" meeting on Thursdays 09:00-09:50 at SH104,
    passes validation and expands to exactly one event, timed, on 2025-08-21
    (a Thursday) from 09:00 to 09:50; the Friday 2025-08-22 gives no event. *)
Theorem scenario_one_meeting :
  validated Scenario.plain
  /\ expand Scenario.plain
     = Expanded 2
         [ {| uid := "course-calendar-CS101-2025-08-21@tools.calebc.co";
              ev_start := DateTimeArray 2025 8 21 (Some 9) (Some 0);
              ev_end := DateTimeArray 2025 8 21 (Some 9) (Some 50);
              title := "CS 101 - Intro";
              ev_location := Some "SH104" |} ]
  /\ termDays (Scenario.a25 [Scenario.cs101 []] []) = [Scenario.thursday; Scenario.friday]
  /\ formatDate Scenario.thursday = "2025-08-21"
  /\ getDay Scenario.thursday = WeekdayConst.Thursday
  /\ formatDate Scenario.friday = "2025-08-22"
  /\ getDay Scenario.friday = WeekdayConst.Friday
  /\ dayEvents (Scenario.a25 [Scenario.cs101 []] []) Scenario.friday = [].
Proof.
  repeat split; vm_compute; reflexivity.
Qed.

(** The same term with a no-class entry for 2025-08-21: no meeting, and one
    all-day event from 2025-08-21 to 2025-08-22. *)
Example scenario_closure :
  expand {| cal_name := "";
            terms := [ Scenario.a25 [Scenario.cs101 []]
                         [ {| date := "2025-08-21";
                              kind := NoClass (Some "Closure") None |} ] ] |}
  = Expanded 2
      [ {| uid := "course-calendar-2025-08-21-no-class@tools.calebc.co";
           ev_start := DateArray 2025 8 21;
           ev_end := DateArray 2025 8 22;
           title := "No Classes (Closure)";
           ev_location := None |} ].
Proof. vm_compute. reflexivity. Qed.

(** ** Properties of parseMeetingPattern *)

Lemma split_not_nil (sep : ascii) (s : string) : Js.split sep s <> [].
Proof.
  destruct s as [|c r]; cbn; [discriminate|].
  destruct (Ascii.eqb c sep); [discriminate|].
  destruct (Js.split sep r); discriminate.
Qed.

Lemma includes_In (w : Weekday) (ws : list Weekday) : includes w ws = true <-> In w ws.
Proof.
  unfold includes. rewrite existsb_exists. split.
  - intros [x [Hin Heq]]. apply Z.eqb_eq in Heq. now subst.
  - intros Hin. exists w. split; [exact Hin|apply Z.eqb_refl].
Qed.





(** ** Properties of validate *)

(** The naming fallback of a term: a term without id is named by its position,
    counted from one, and the diagnostics of the term itself carry that
    name. *)
Lemma blank_term_named_by_position (termNames : list string) (index : nat) (term : CalendarTerm) :
  term_id term = "" ->
  Js.truthy (term_start term) = true ->
  Js.truthy (term_end term) = true ->
  Js.gtb (term_start term) (term_end term) = true ->
  exists more,
    errorsOf (validateTerm termNames index term)
    = ("Term #" ++ Js.showNat (index + 1) ++ ": missing/invalid name")
      :: (if has "" termNames
          then ["Term #" ++ Js.showNat (index + 1) ++ ": duplicate name"] else [])
      ++ ("Term #" ++ Js.showNat (index + 1) ++ ": start > end") :: more.
Proof.
  intros Hid Hs He Hgt. unfold validateTerm, nameOr, errorsOf.
  rewrite Hid, Hs, He, Hgt.
  change (Js.truthy "") with false.
  destruct (has "" termNames);
    cbn [negb andb when thenD fst pushError noDiag app]; eexists; reflexivity.
Qed.

(** The scenario of the specification: a first term with [id] empty and
    start after end gets two errors that name it [#1]. *)
Example blank_first_term_scenario :
  errorsOf (validate Scenario.blankTermBackwards)
  = ["Term #1: missing/invalid name"; "Term #1: start > end"].
Proof. vm_compute. reflexivity. Qed.

(** C5 fails on the code for courses: the fallback name of a course without
    number is built from the index of its term, not from the position of the
    course.  In a first term whose second course has no number, that course is
    reported as [#1], where its own position is 2. *)
Theorem blank_course_named_by_term_index :
  errorsOf (validate Scenario.secondCourseBlank)
  = ["Term A25, course #1: missing/invalid number"].
Proof. vm_compute. reflexivity. Qed.

(** In general the name of a course without number is [#] and the position of
    the term. *)
Lemma blank_course_name (termName : string) (index : nat) (term : CalendarTerm)
    (course : CalendarCourse) :
  number course = "" ->
  exists more,
    errorsOf (validateCourse termName index term course)
    = ("Term " ++ termName ++ ", course #" ++ Js.showNat (index + 1) ++ ": missing/invalid number")
      :: more.
Proof.
  intros Hnum. unfold validateCourse, nameOr, errorsOf. rewrite Hnum.
  change (Js.truthy "") with false.
  cbn [negb when thenD fst pushError app].
  rewrite !append_assoc. eexists; reflexivity.
Qed.

(** The warnings about a subsection name it by the text an object prints as. *)
Example subsection_warning_names_object :
  warningsOf
    (validateSubsection "A25" "CS 101" 0
       {| sec_name := "Lab"; sec_meetingPatterns := []; sec_except := [] |})
  = [ {| w_title := "No meeting patterns for component [object Object] of course CS 101 in term A25";
         w_message := "Add a meeting pattern for this component, if applicable. It will be ignored otherwise." |} ].
Proof. vm_compute. reflexivity. Qed.
(** ** The codec round trip *)

(** *** Base64 *)

Lemma sextet_table :
  forallb
    (fun n =>
       negb (Base64.isAsciiWhitespace (Base64.sextetChar n))
       && negb (Ascii.eqb (Base64.sextetChar n) "=")
       && match Base64.charSextet (Base64.sextetChar n) with
          | Some m => N.eqb m n
          | None => false
          end)
    (map N.of_nat (seq 0 64)) = true.
Proof. vm_compute. reflexivity. Qed.

(** A character of the alphabet is read back as the six bits it stands for. *)
Lemma sextetChar_read (n : N) :
  (n < 64)%N ->
  Base64.isAsciiWhitespace (Base64.sextetChar n) = false
  /\ Ascii.eqb (Base64.sextetChar n) "=" = false
  /\ Base64.charSextet (Base64.sextetChar n) = Some n.
Proof.
  intros Hn.
  pose proof sextet_table as T. rewrite forallb_forall in T.
  specialize (T n).
  assert (Hin : In n (map N.of_nat (seq 0 64))).
  { apply in_map_iff. exists (N.to_nat n). split; [apply N2Nat.id|].
    apply in_seq. lia. }
  apply T in Hin. apply andb_true_iff in Hin as [Hin H3].
  apply andb_true_iff in Hin as [H1 H2].
  apply negb_true_iff in H1, H2.
  destruct (Base64.charSextet (Base64.sextetChar n)) as [m|]; [|discriminate].
  apply N.eqb_eq in H3. subst. auto.
Qed.

Lemma fromBase64Loop_char (n : N) (r : string) (chunk : list N) (bytes : list byte) :
  (n < 64)%N ->
  Base64.fromBase64Loop (String (Base64.sextetChar n) r) chunk bytes
  = if Nat.eqb (List.length (chunk ++ [n])) 4
    then Base64.fromBase64Loop r [] (bytes ++ Base64.decodeChunk (chunk ++ [n]))
    else Base64.fromBase64Loop r (chunk ++ [n]) bytes.
Proof.
  intros Hn. destruct (sextetChar_read n Hn) as [H1 [H2 H3]].
  cbn [Base64.fromBase64Loop]. now rewrite H1, H2, H3.
Qed.

Lemma byteOfN_to_N (b : byte) : Base64.byteOfN (Byte.to_N b) = b.
Proof. unfold Base64.byteOfN. now rewrite Byte.of_to_N. Qed.

Lemma bytes_of_sextets (n0 n1 n2 : N) :
  (n0 <= 255)%N -> (n1 <= 255)%N -> (n2 <= 255)%N ->
  (n0 / 4 * 4 + (n0 mod 4 * 16 + n1 / 16) / 16 = n0
   /\ (n0 mod 4 * 16 + n1 / 16) mod 16 * 16 + (n1 mod 16 * 4 + n2 / 64) / 4 = n1
   /\ (n1 mod 16 * 4 + n2 / 64) mod 4 * 64 + n2 mod 64 = n2
   /\ (n0 mod 4 * 16) / 16 = n0 mod 4
   /\ (n0 mod 4 * 16 + n1 / 16) mod 16 * 16 + (n1 mod 16 * 4) / 4 = n1)%N.
Proof.
  intros H0 H1 H2. repeat split; zify; Z.to_euclidean_division_equations; lia.
Qed.

Lemma sextets_small (n0 n1 n2 : N) :
  (n0 <= 255)%N -> (n1 <= 255)%N -> (n2 <= 255)%N ->
  (n0 / 4 < 64 /\ n0 mod 4 * 16 + n1 / 16 < 64 /\ n1 mod 16 * 4 + n2 / 64 < 64
   /\ n2 mod 64 < 64 /\ n0 mod 4 * 16 < 64 /\ n1 mod 16 * 4 < 64)%N.
Proof.
  intros H0 H1 H2. repeat split; zify; Z.to_euclidean_division_equations; lia.
Qed.

(** Induction on a list three elements at a time. *)
Lemma list_ind3 {A : Type} (P : list A -> Prop) :
  P [] -> (forall a, P [a]) -> (forall a b, P [a; b]) ->
  (forall a b c l, P l -> P (a :: b :: c :: l)) ->
  forall l, P l.
Proof.
  intros H0 H1 H2 H3 l.
  enough (H : P l /\ (forall a, P (a :: l)) /\ (forall a b, P (a :: b :: l))) by apply H.
  induction l as [|x l [IH0 [IH1 IH2]]].
  - auto.
  - repeat split; auto.
Qed.

(** Decoding undoes encoding, for every sequence of bytes. *)
Lemma fromBase64Loop_toBase64 (bytes : list byte) :
  forall done : list byte,
    Base64.fromBase64Loop (Base64.toBase64 bytes) [] done = inr (done ++ bytes)%list.
Proof.
  induction bytes as [|b0|b0 b1|b0 b1 b2 rest IH] using list_ind3; intros done.
  - cbn. now rewrite app_nil_r.
  - pose proof (Byte.to_N_bounded b0) as B0.
    destruct (sextets_small (Byte.to_N b0) 0 0) as (S0 & _ & _ & _ & S4 & _); try lia.
    destruct (bytes_of_sextets (Byte.to_N b0) 0 0) as (E0 & _ & _ & E3 & _); try lia.
    cbn [Base64.toBase64].
    rewrite !fromBase64Loop_char by assumption. cbn.
    rewrite E3.
    replace (Byte.to_N b0 / 4 * 4 + Byte.to_N b0 mod 4)%N with (Byte.to_N b0)
      by (zify; Z.to_euclidean_division_equations; lia).
    now rewrite byteOfN_to_N.
  - pose proof (Byte.to_N_bounded b0) as B0. pose proof (Byte.to_N_bounded b1) as B1.
    destruct (sextets_small (Byte.to_N b0) (Byte.to_N b1) 0) as (S0 & S1 & _ & _ & _ & S5);
      try lia.
    destruct (bytes_of_sextets (Byte.to_N b0) (Byte.to_N b1) 0) as (E0 & _ & _ & _ & E4);
      try lia.
    cbn [Base64.toBase64].
    rewrite !fromBase64Loop_char by assumption. cbn.
    rewrite E0, E4. now rewrite !byteOfN_to_N.
  - pose proof (Byte.to_N_bounded b0) as B0. pose proof (Byte.to_N_bounded b1) as B1.
    pose proof (Byte.to_N_bounded b2) as B2.
    destruct (sextets_small (Byte.to_N b0) (Byte.to_N b1) (Byte.to_N b2))
      as (S0 & S1 & S2 & S3 & _ & _); try lia.
    destruct (bytes_of_sextets (Byte.to_N b0) (Byte.to_N b1) (Byte.to_N b2))
      as (E0 & E1 & E2 & _ & _); try lia.
    cbn [Base64.toBase64].
    rewrite !fromBase64Loop_char by assumption.
    cbn [app List.length Nat.eqb Base64.decodeChunk].
    rewrite E0, E1, E2, !byteOfN_to_N, IH.
    now rewrite <- app_assoc.
Qed.

Lemma rawBase64URL_roundtrip (bytes : list byte) :
  rawBase64URLDecode (rawBase64URLEncode bytes) = inr bytes.
Proof.
  unfold rawBase64URLDecode, rawBase64URLEncode, Base64.fromBase64.
  now rewrite fromBase64Loop_toBase64.
Qed.

Example base64_hello :
  rawBase64URLEncode [Byte.x68; Byte.x69; Byte.x3f; Byte.xff] = "aGk__w"
  /\ rawBase64URLDecode "aGk__w" = inr [Byte.x68; Byte.x69; Byte.x3f; Byte.xff]
  /\ rawBase64URLDecode "aGk__w==" = inr [Byte.x68; Byte.x69; Byte.x3f; Byte.xff]
  /\ rawBase64URLDecode "aGk/+w" = inl Base64.syntaxError.
Proof. repeat split; vm_compute; reflexivity. Qed.


(** *** JSON *)

(** *** Numbers *)

Lemma digitChar_digit (k : nat) :
  (k < 10)%nat ->
  Js.isDigit (Js.digitChar k) = true /\ Js.digitVal (Js.digitChar k) = Z.of_nat k.
Proof.
  intros H. do 10 (destruct k as [|k]; [split; reflexivity|]). lia.
Qed.

Lemma showNatAux_append (fuel : nat) :
  forall n acc rest,
    Js.showNatAux fuel n acc ++ rest = Js.showNatAux fuel n (acc ++ rest).
Proof.
  induction fuel as [|f IH]; intros n acc rest; [reflexivity|].
  cbn [Js.showNatAux]. destruct (Nat.div n 10); [reflexivity|].
  now rewrite IH.
Qed.

Lemma spanDigits_showNatAux (fuel : nat) :
  forall n acc,
    (n < fuel)%nat ->
    Json.spanDigits (Js.showNatAux fuel n acc) 0 = Json.spanDigits acc (Z.of_nat n).
Proof.
  induction fuel as [|f IH]; intros n acc Hn; [lia|].
  cbn [Js.showNatAux].
  pose proof (Nat.div_mod_eq n 10) as Hdm.
  pose proof (Nat.mod_upper_bound n 10 ltac:(lia)) as Hmod.
  destruct (digitChar_digit (Nat.modulo n 10) Hmod) as [Hd Hv].
  destruct (Nat.div n 10) as [|q] eqn:Eq.
  - cbn [Json.spanDigits]. rewrite Hd, Hv. f_equal. lia.
  - rewrite IH by lia. cbn [Json.spanDigits]. rewrite Hd, Hv. f_equal. lia.
Qed.

(** The first digit written for a number that is not zero is not a zero. *)
Lemma showNatAux_head (fuel : nat) :
  forall n acc,
    (n < fuel)%nat -> (0 < n)%nat ->
    exists c r, Js.showNatAux fuel n acc = String c r
                /\ Js.isDigit c = true /\ Ascii.eqb c "0" = false.
Proof.
  induction fuel as [|f IH]; intros n acc Hn Hpos; [lia|].
  cbn [Js.showNatAux].
  pose proof (Nat.div_mod_eq n 10) as Hdm.
  pose proof (Nat.mod_upper_bound n 10 ltac:(lia)) as Hmod.
  destruct (Nat.div n 10) as [|q] eqn:Eq.
  - eexists _, _. split; [reflexivity|].
    assert (Hk : (Nat.modulo n 10 = n)%nat) by lia. rewrite Hk in *.
    clear - Hmod Hpos.
    do 10 (destruct n as [|n]; [first [lia | split; reflexivity]|]). lia.
  - apply IH; lia.
Qed.

Lemma spanDigits_stop (rest : string) (n : Z) :
  endsNumber rest = true -> Json.spanDigits rest n = (n, rest).
Proof.
  destruct rest as [|d r]; [reflexivity|]. cbn. intros H.
  destruct (Js.isDigit d); [discriminate|reflexivity].
Qed.

Lemma parseDigits_showNat (n : nat) (rest : string) (negative : bool) :
  endsNumber rest = true ->
  match Js.showNat n ++ rest with
  | EmptyString => None
  | String c r =>
      if Js.isDigit c then
        let (m, rest') := if Ascii.eqb c "0" then (0%Z, r)
                          else Json.spanDigits (Js.showNat n ++ rest) 0 in
        match rest' with
        | String d _ =>
            if (Js.isDigit d || Ascii.eqb d "." || Ascii.eqb d "e" || Ascii.eqb d "E")%bool
            then None
            else Some (Json.Num (if negative then - m else m), rest')
        | EmptyString => Some (Json.Num (if negative then - m else m), rest')
        end
      else None
  end = Some (Json.Num (if negative then - Z.of_nat n else Z.of_nat n), rest).
Proof.
  intros Hrest.
  assert (Hend : forall m : Z,
             match rest with
             | String d _ =>
                 if (Js.isDigit d || Ascii.eqb d "." || Ascii.eqb d "e" || Ascii.eqb d "E")%bool
                 then None
                 else Some (Json.Num (if negative then - m else m), rest)
             | EmptyString => Some (Json.Num (if negative then - m else m), rest)
             end = Some (Json.Num (if negative then - m else m), rest)).
  { intros m. destruct rest as [|d r]; [reflexivity|]. cbn in Hrest.
    destruct (Js.isDigit d || Ascii.eqb d "." || Ascii.eqb d "e" || Ascii.eqb d "E")%bool;
      [discriminate|reflexivity]. }
  destruct n as [|n].
  - exact (Hend 0%Z).
  - unfold Js.showNat.
    destruct (showNatAux_head (S (S n)) (S n) "" ltac:(lia) ltac:(lia)) as (c & r & E & Hd & H0).
    rewrite showNatAux_append. cbn [String.append].
    pose proof (spanDigits_showNatAux (S (S n)) (S n) rest ltac:(lia)) as Hspan.
    rewrite (spanDigits_stop rest _ Hrest) in Hspan.
    pose proof (showNatAux_append (S (S n)) (S n) "" rest) as Happ. cbn [String.append] in Happ.
    rewrite E in Happ. cbn [String.append] in Happ.
    rewrite <- Happ. rewrite Hd, H0.
    rewrite Happ, Hspan. apply Hend.
Qed.

Lemma parseNumber_showZ (z : Z) (rest : string) :
  endsNumber rest = true ->
  Json.parseNumber (Js.showZ z ++ rest) = Some (Json.Num z, rest).
Proof.
  intros Hrest. unfold Json.parseNumber, Js.showZ.
  destruct (Z.ltb_spec z 0) as [Hneg|Hpos].
  - cbn [String.append]. change (Ascii.eqb "-" "-") with true. cbv iota.
    rewrite (parseDigits_showNat (Z.to_nat (- z)) rest true Hrest).
    do 2 f_equal. f_equal. lia.
  - remember (Js.showNat (Z.to_nat z) ++ rest) as text eqn:Et.
    pose proof (parseDigits_showNat (Z.to_nat z) rest false Hrest) as H.
    rewrite <- Et in H.
    destruct text as [|c r]; [discriminate|].
    destruct (Ascii.eqb c "-") eqn:Em.
    + apply Ascii.eqb_eq in Em. subst c. cbn in H. discriminate.
    + rewrite H. do 2 f_equal. f_equal. lia.
Qed.

(** *** Quoted strings *)

Lemma parseChars_quoteChar (c : ascii) :
  forall tail acc,
    Json.parseChars (Json.quoteChar c ++ tail) acc
    = Json.parseChars tail (acc ++ String c "").
Proof.
  destruct c as [[|] [|] [|] [|] [|] [|] [|] [|]]; intros tail acc; reflexivity.
Qed.

Lemma parseChars_quoteBody (s : string) :
  forall rest acc,
    Json.parseChars (Json.quoteBody s ++ String Json.dquote rest) acc = Some (acc ++ s, rest).
Proof.
  induction s as [|c s IH]; intros rest acc.
  - cbn. now rewrite append_nil_r.
  - cbn [Json.quoteBody]. rewrite append_assoc, parseChars_quoteChar, IH.
    now rewrite append_assoc.
Qed.

Lemma quote_append (s rest : string) :
  Json.quote s ++ rest = String Json.dquote (Json.quoteBody s ++ String Json.dquote rest).
Proof.
  unfold Json.quote. cbn [String.append]. now rewrite append_assoc.
Qed.

(** *** The first character of a text *)

Lemma showZ_head (z : Z) :
  exists c r, Js.showZ z = String c r /\ (Js.isDigit c || Ascii.eqb c "-")%bool = true.
Proof.
  unfold Js.showZ. destruct (z <? 0)%Z.
  - eexists _, _. split; reflexivity.
  - destruct (Z.to_nat z) as [|n].
    + eexists _, _. split; reflexivity.
    + destruct (showNatAux_head (S (S n)) (S n) "" ltac:(lia) ltac:(lia)) as (c & r & E & Hd & _).
      exists c, r. split; [exact E|]. now rewrite Hd.
Qed.

Lemma number_opens (c : ascii) :
  (Js.isDigit c || Ascii.eqb c "-")%bool = true -> opens c = true.
Proof.
  destruct c as [[|] [|] [|] [|] [|] [|] [|] [|]]; vm_compute; congruence.
Qed.

Lemma stringify_head (v : Json.value) :
  exists c r, Json.stringify v = String c r /\ opens c = true.
Proof.
  destruct v as [|[|]|z|s|l|ms]; try (eexists _, _; split; reflexivity).
  destruct (showZ_head z) as (c & r & E & H).
  exists c, r. split; [exact E|now apply number_opens].
Qed.

Lemma closes_endsNumber (rest : string) : closes rest = true -> endsNumber rest = true.
Proof.
  destruct rest as [|c r]; [reflexivity|].
  destruct c as [[|] [|] [|] [|] [|] [|] [|] [|]]; vm_compute; congruence.
Qed.

Lemma closes_skipWs (rest : string) : closes rest = true -> Json.skipWs rest = rest.
Proof.
  destruct rest as [|c r]; [reflexivity|].
  destruct c as [[|] [|] [|] [|] [|] [|] [|] [|]]; vm_compute; congruence.
Qed.

Lemma opens_skipWs (c : ascii) (r : string) :
  opens c = true -> Json.skipWs (String c r) = String c r.
Proof.
  unfold opens. cbn [Json.skipWs]. destruct (Json.isWs c); [discriminate|reflexivity].
Qed.

(** *** Induction on values *)

Section ValueInduction.

Variable P : Json.value -> Prop.
Hypothesis HNull : P Json.Null.
Hypothesis HBool : forall b, P (Json.Bool b).
Hypothesis HNum : forall z, P (Json.Num z).
Hypothesis HStr : forall s, P (Json.Str s).
Hypothesis HArr : forall l, Forall P l -> P (Json.Arr l).
Hypothesis HObj : forall ms, Forall (fun m => P (snd m)) ms -> P (Json.Obj ms).

Lemma value_induction : forall v, P v.
Proof.
  fix IH 1. intros [|b|z|s|l|ms].
  - exact HNull.
  - apply HBool.
  - apply HNum.
  - apply HStr.
  - apply HArr.
    exact ((fix all (l : list Json.value) : Forall P l :=
              match l with
              | [] => Forall_nil P
              | x :: r => Forall_cons x (IH x) (all r)
              end) l).
  - apply HObj.
    exact ((fix all (ms : list (string * Json.value)) : Forall (fun m => P (snd m)) ms :=
              match ms with
              | [] => Forall_nil _
              | (k, x) :: r => Forall_cons (k, x) (IH x) (all r)
              end) ms).
Qed.

End ValueInduction.

(** *** Arrays and objects *)

Lemma wellFormed_Arr (l : list Json.value) :
  wellFormed (Json.Arr l) <-> Forall wellFormed l.
Proof.
  cbn. induction l as [|x r IH]; [split; constructor|].
  rewrite IH. split.
  - intros [H1 H2]. now constructor.
  - intros H. inversion H; subst. now split.
Qed.

Lemma wellFormed_Obj (ms : list (string * Json.value)) :
  wellFormed (Json.Obj ms) <-> NoDup (map fst ms) /\ Forall (fun m => wellFormed (snd m)) ms.
Proof.
  cbn. apply and_iff_compat_l.
  induction ms as [|[k x] r IH]; [split; constructor|].
  rewrite IH. split.
  - intros [H1 H2]. now constructor.
  - intros H. inversion H; subst. now split.
Qed.

Lemma cost_commaSep (items : list string) :
  items <> [] -> cost items = S (String.length (Json.commaSep items)).
Proof.
  induction items as [|x rest IH]; [congruence|]. intros _.
  destruct rest as [|y rest].
  - cbn. lia.
  - cbn [cost fold_right Json.commaSep] in *.
    rewrite IH by discriminate. rewrite !length_append. cbn. lia.
Qed.

Lemma setMember_fresh (k : string) (x : Json.value) (acc : list (string * Json.value)) :
  ~ In k (map fst acc) -> Json.setMember k x acc = (acc ++ [(k, x)])%list.
Proof.
  induction acc as [|[k' x'] rest IH]; intros Hfresh; [reflexivity|].
  cbn in *. destruct (String.eqb_spec k' k) as [->|Hne]; [tauto|].
  rewrite IH by tauto. reflexivity.
Qed.

Lemma parseElements_spec (l : list Json.value) :
  l <> [] ->
  Forall readsBack l ->
  forall acc fuel rest,
    (cost (map Json.stringify l) <= fuel)%nat ->
    Json.parseElements fuel (Json.commaSep (map Json.stringify l) ++ String "]" rest) acc
    = Some (Json.Arr (acc ++ l)%list, rest).
Proof.
  induction l as [|x r IH]; [congruence|]. intros _ Hall acc fuel rest Hfuel.
  inversion Hall as [|? ? Hx Hr]; subst.
  destruct fuel as [|fuel]; [cbn in Hfuel; lia|].
  cbn [Json.parseElements].
  destruct r as [|y r].
  - cbn [map Json.commaSep]. cbn in Hfuel.
    rewrite Hx by (try reflexivity; lia).
    cbn. reflexivity.
  - cbn [map Json.commaSep]. rewrite !append_assoc. cbn [String.append].
    cbn [cost fold_right map] in Hfuel.
    rewrite Hx by (try reflexivity; lia).
    cbn [Json.skipWs]. change (Json.isWs ",") with false. cbv iota.
    change (Ascii.eqb "," ",") with true. cbv iota.
    rewrite (IH ltac:(discriminate) Hr) by (cbn [cost fold_right map]; lia).
    now rewrite <- app_assoc.
Qed.

Lemma parseMembers_spec (ms : list (string * Json.value)) :
  ms <> [] ->
  Forall (fun m => readsBack (snd m)) ms ->
  forall acc fuel rest,
    (cost (map printMember ms) <= fuel)%nat ->
    NoDup (map fst (acc ++ ms)%list) ->
    Json.parseMembers fuel (Json.commaSep (map printMember ms) ++ String "}" rest) acc
    = Some (Json.Obj (acc ++ ms)%list, rest).
Proof.
  induction ms as [|[k x] r IH]; [congruence|]. intros _ Hall acc fuel rest Hfuel Hnodup.
  inversion Hall as [|? ? Hx Hr]; subst. cbn [snd] in Hx.
  destruct fuel as [|fuel]; [cbn in Hfuel; lia|].
  assert (Hfresh : ~ In k (map fst acc)).
  { rewrite map_app in Hnodup. cbn in Hnodup.
    apply NoDup_remove_2 in Hnodup. intros Hin. apply Hnodup.
    apply in_or_app. now left. }
  assert (Hlen : (String.length (Json.stringify x) <= fuel)%nat).
  { destruct r; cbn [map cost fold_right printMember] in Hfuel;
      rewrite !length_append in Hfuel; lia. }
  cbn [Json.parseMembers].
  destruct r as [|m r].
  - cbn [map Json.commaSep printMember].
    rewrite !append_assoc, quote_append. cbn [String.append].
    cbn [Json.skipWs]. change (Json.isWs Json.dquote) with false. cbv iota.
    rewrite Ascii.eqb_refl, parseChars_quoteBody. cbn [String.append].
    cbn [Json.skipWs]. change (Json.isWs ":") with false. cbv iota.
    change (Ascii.eqb ":" ":") with true. cbv iota.
    rewrite Hx by (try reflexivity; lia).
    cbn [Json.skipWs]. change (Json.isWs "}") with false. cbv iota.
    change (Ascii.eqb "}" ",") with false. change (Ascii.eqb "}" "}") with true. cbv iota.
    now rewrite setMember_fresh.
  - cbn [map Json.commaSep]. unfold printMember at 1.
    rewrite !append_assoc, quote_append. cbn [String.append].
    cbn [Json.skipWs]. change (Json.isWs Json.dquote) with false. cbv iota.
    rewrite Ascii.eqb_refl, parseChars_quoteBody. cbn [String.append].
    cbn [Json.skipWs]. change (Json.isWs ":") with false. cbv iota.
    change (Ascii.eqb ":" ":") with true. cbv iota.
    rewrite Hx by (try reflexivity; lia).
    cbn [Json.skipWs]. change (Json.isWs ",") with false. cbv iota.
    change (Ascii.eqb "," ",") with true. cbv iota.
    rewrite setMember_fresh by exact Hfresh.
    rewrite (IH ltac:(discriminate) Hr).
    + now rewrite <- app_assoc.
    + cbn [map cost fold_right] in *. lia.
    + now rewrite <- app_assoc.
Qed.

Lemma readsBack_all (v : Json.value) : wellFormed v -> readsBack v.
Proof.
  induction v as [|b|z|s|l IHl|ms IHms] using value_induction; intros Hwf fuel rest Hfuel Hrest.
  - destruct fuel as [|fuel]; [cbn in Hfuel; lia|]. reflexivity.
  - destruct fuel as [|fuel]; [destruct b; cbn in Hfuel; lia|]. destruct b; reflexivity.
  - destruct fuel as [|fuel].
    { destruct (showZ_head z) as (c & r & E & _). cbn in Hfuel. rewrite E in Hfuel.
      cbn in Hfuel. lia. }
    cbn [Json.parseValue Json.stringify].
    destruct (showZ_head z) as (c & r & E & Hc).
    pose proof (parseNumber_showZ z rest (closes_endsNumber rest Hrest)) as Hnum.
    rewrite E in *. cbn [String.append] in *.
    rewrite (opens_skipWs c _ (number_opens c Hc)), Hc. exact Hnum.
  - destruct fuel as [|fuel]; [cbn in Hfuel; lia|].
    cbn [Json.parseValue Json.stringify]. rewrite quote_append.
    cbn [Json.skipWs]. change (Json.isWs Json.dquote) with false. cbv iota.
    change (Js.isDigit Json.dquote || Ascii.eqb Json.dquote "-")%bool with false.
    change (Ascii.eqb Json.dquote "n") with false.
    change (Ascii.eqb Json.dquote "t") with false.
    change (Ascii.eqb Json.dquote "f") with false.
    cbv iota. rewrite Ascii.eqb_refl, parseChars_quoteBody. reflexivity.
  - destruct fuel as [|fuel]; [cbn in Hfuel; lia|].
    apply wellFormed_Arr in Hwf.
    assert (Hall : Forall readsBack l).
    { rewrite Forall_forall in *. intros x Hin. apply IHl; auto. }
    cbn [Json.stringify]. rewrite !append_assoc. cbn [String.append].
    cbn [Json.parseValue Json.skipWs].
    change (Json.isWs "[") with false. cbv iota.
    change (Js.isDigit "[" || Ascii.eqb "[" "-")%bool with false.
    change (Ascii.eqb "[" "n") with false. change (Ascii.eqb "[" "t") with false.
    change (Ascii.eqb "[" "f") with false. change (Ascii.eqb "[" Json.dquote) with false.
    change (Ascii.eqb "[" "[") with true. cbv iota.
    destruct l as [|x r].
    + reflexivity.
    + destruct (stringify_head x) as (c & t & E & Hc).
      assert (Hskip : exists t', Json.commaSep (map Json.stringify (x :: r)) ++ String "]" rest
                                 = String c t').
      { destruct r; cbn [map Json.commaSep]; rewrite E; cbn; eexists; reflexivity. }
      destruct Hskip as [t' Ht'].
      rewrite Ht' at 1. rewrite (opens_skipWs c t' Hc).
      assert (Ascii.eqb c "]" = false) as ->.
      { unfold opens in Hc. destruct (Ascii.eqb c "]"); [|reflexivity].
        rewrite andb_false_r in Hc. discriminate. }
      rewrite (parseElements_spec (x :: r) ltac:(discriminate) Hall).
      * reflexivity.
      * rewrite cost_commaSep by discriminate.
        cbn [Json.stringify] in Hfuel. rewrite !length_append in Hfuel.
        change (String.length "[") with 1%nat in Hfuel.
        change (String.length "]") with 1%nat in Hfuel. lia.
  - destruct fuel as [|fuel]; [cbn in Hfuel; lia|].
    apply wellFormed_Obj in Hwf. destruct Hwf as [Hnodup Hwf].
    assert (Hall : Forall (fun m => readsBack (snd m)) ms).
    { rewrite Forall_forall in *. intros m Hin. apply IHms; auto. }
    cbn [Json.stringify]. fold printMember. rewrite !append_assoc. cbn [String.append].
    cbn [Json.parseValue Json.skipWs].
    change (Json.isWs "{") with false. cbv iota.
    change (Js.isDigit "{" || Ascii.eqb "{" "-")%bool with false.
    change (Ascii.eqb "{" "n") with false. change (Ascii.eqb "{" "t") with false.
    change (Ascii.eqb "{" "f") with false. change (Ascii.eqb "{" Json.dquote) with false.
    change (Ascii.eqb "{" "[") with false. change (Ascii.eqb "{" "{") with true. cbv iota.
    destruct ms as [|m r].
    + reflexivity.
    + assert (Hskip : exists t', Json.commaSep (map printMember (m :: r)) ++ String "}" rest
                                 = String Json.dquote t').
      { destruct m as [k x]. destruct r; cbn [map Json.commaSep printMember];
          rewrite ?append_assoc, quote_append; eexists; reflexivity. }
      destruct Hskip as [t' Ht'].
      rewrite Ht' at 1. cbn [Json.skipWs]. change (Json.isWs Json.dquote) with false. cbv iota.
      change (Ascii.eqb Json.dquote "}") with false. cbv iota.
      rewrite (parseMembers_spec (m :: r) ltac:(discriminate) Hall).
      * reflexivity.
      * rewrite cost_commaSep by discriminate.
        cbn [Json.stringify] in Hfuel. fold printMember in Hfuel.
        rewrite !length_append in Hfuel.
        change (String.length "{") with 1%nat in Hfuel.
        change (String.length "}") with 1%nat in Hfuel. lia.
      * exact Hnodup.
Qed.

(** [JSON.parse] reads back what [JSON.stringify] writes, for every value
    whose objects have no repeated name. *)
Lemma parse_stringify (v : Json.value) :
  wellFormed v -> Json.parse (Json.stringify v) = inr v.
Proof.
  intros Hwf. unfold Json.parse.
  pose proof (readsBack_all v Hwf (S (String.length (Json.stringify v))) "" ltac:(lia) eq_refl)
    as H.
  rewrite append_nil_r in H. rewrite H. reflexivity.
Qed.

(** *** The value of a calendar *)

Lemma wellFormed_map {A : Type} (f : A -> Json.value) (l : list A) :
  (forall x, wellFormed (f x)) -> wellFormed (Json.Arr (map f l)).
Proof.
  intros H. apply wellFormed_Arr. apply Forall_forall.
  intros v Hin. apply in_map_iff in Hin as (x & <- & _). apply H.
Qed.

Ltac distinct_names :=
  repeat (constructor; [cbn; intuition discriminate|]); constructor.

Ltac well_formed_object :=
  apply wellFormed_Obj; split;
  [ cbn; distinct_names
  | repeat (constructor; [cbn [snd]; try exact I|]); try constructor ].

Lemma wellFormed_meetingPattern (mp : MeetingPattern) : wellFormed (meetingPatternValue mp).
Proof.
  unfold meetingPatternValue. well_formed_object.
  - apply wellFormed_map. intros z. exact I.
  - destruct (location mp); exact I.
Qed.

Lemma wellFormed_date (special : CalendarDate) : wellFormed (dateValue special).
Proof.
  unfold dateValue. destruct (kind special) as [[reason|] [hidden|]|weekday];
    well_formed_object.
Qed.

Lemma wellFormed_section (subsection : CalendarSection) : wellFormed (sectionValue subsection).
Proof.
  unfold sectionValue. well_formed_object.
  - apply wellFormed_map, wellFormed_meetingPattern.
  - apply wellFormed_map. intros s. exact I.
Qed.

Lemma wellFormed_course (course : CalendarCourse) : wellFormed (courseValue course).
Proof.
  unfold courseValue. well_formed_object.
  - apply wellFormed_map, wellFormed_meetingPattern.
  - apply wellFormed_map. intros s. exact I.
  - apply wellFormed_map, wellFormed_section.
Qed.

Lemma wellFormed_term (term : CalendarTerm) : wellFormed (termValue term).
Proof.
  unfold termValue. well_formed_object.
  - apply wellFormed_map, wellFormed_course.
  - apply wellFormed_map, wellFormed_date.
Qed.

Lemma wellFormed_calendar (calendar : Calendar) : wellFormed (calendarValue calendar).
Proof.
  unfold calendarValue. well_formed_object.
  apply wellFormed_map, wellFormed_term.
Qed.

Lemma map_injective {A B : Type} (f : A -> B) :
  (forall x y, f x = f y -> x = y) ->
  forall l l', map f l = map f l' -> l = l'.
Proof.
  intros Hf. induction l as [|x l IH]; intros [|y l'] H; try discriminate; [reflexivity|].
  cbn in H. injection H as Hxy Hl. f_equal; auto.
Qed.

Lemma meetingPatternValue_injective (a b : MeetingPattern) :
  meetingPatternValue a = meetingPatternValue b -> a = b.
Proof.
  destruct a as [s1 e1 w1 l1], b as [s2 e2 w2 l2]. unfold meetingPatternValue. cbn.
  intros H. injection H as Hs He Hw Hl.
  apply (map_injective Json.Num) in Hw; [|intros x y Hxy; now injection Hxy].
  subst. f_equal. destruct l1, l2; congruence.
Qed.

Lemma dateValue_injective (a b : CalendarDate) : dateValue a = dateValue b -> a = b.
Proof.
  destruct a as [d1 k1], b as [d2 k2]. unfold dateValue. cbn.
  destruct k1 as [[r1|] [h1|]|w1], k2 as [[r2|] [h2|]|w2]; cbn; intros H;
    try discriminate; injection H; intros; subst; reflexivity.
Qed.

Lemma sectionValue_injective (a b : CalendarSection) : sectionValue a = sectionValue b -> a = b.
Proof.
  destruct a as [n1 m1 e1], b as [n2 m2 e2]. unfold sectionValue. cbn.
  intros H. injection H as Hn Hm He.
  apply (map_injective _ meetingPatternValue_injective) in Hm.
  apply (map_injective Json.Str) in He; [|intros x y Hxy; now injection Hxy].
  now subst.
Qed.

Lemma courseValue_injective (a b : CalendarCourse) : courseValue a = courseValue b -> a = b.
Proof.
  destruct a as [n1 a1 m1 e1 s1], b as [n2 a2 m2 e2 s2]. unfold courseValue. cbn.
  intros H. injection H as Hn Ha Hm He Hs.
  apply (map_injective _ meetingPatternValue_injective) in Hm.
  apply (map_injective Json.Str) in He; [|intros x y Hxy; now injection Hxy].
  apply (map_injective _ sectionValue_injective) in Hs.
  now subst.
Qed.

Lemma termValue_injective (a b : CalendarTerm) : termValue a = termValue b -> a = b.
Proof.
  destruct a as [i1 s1 e1 c1 d1], b as [i2 s2 e2 c2 d2]. unfold termValue. cbn.
  intros H. injection H as Hi Hs He Hc Hd.
  apply (map_injective _ courseValue_injective) in Hc.
  apply (map_injective _ dateValue_injective) in Hd.
  now subst.
Qed.

(** The value keeps everything of the calendar: two calendars with the same
    value are the same, down to the empty strings, the absent reasons and the
    hidden flags. *)
Lemma calendarValue_injective (a b : Calendar) : calendarValue a = calendarValue b -> a = b.
Proof.
  destruct a as [n1 t1], b as [n2 t2]. unfold calendarValue. cbn.
  intros H. injection H as Hn Ht.
  apply (map_injective _ termValue_injective) in Ht.
  now subst.
Qed.

Section CodecRoundTrip.

Variable gzip : list byte -> list byte.
Variable gunzip : list byte -> Js.Result (list byte).

(** C3: decoding the encoded form of a calendar gives the calendar back: the
    value decoded is the value of the calendar, which no other calendar has.
    The JSON and base64url stages are the ones modelled above; the gzip
    streams of the platform are taken with their contract on the bytes of this
    calendar, that decompression gives back what was compressed. *)
Theorem decode_encode (calendar : Calendar) :
  gunzip (gzip (list_byte_of_string (Json.stringify (calendarValue calendar))))
  = inr (list_byte_of_string (Json.stringify (calendarValue calendar))) ->
  exists encoded,
    encodeCalendar gzip calendar = inr encoded
    /\ decodeConfig gunzip encoded = inr (calendarValue calendar)
    /\ forall other, calendarValue other = calendarValue calendar -> other = calendar.
Proof.
  intros Hgzip. eexists. split; [reflexivity|]. split.
  - unfold decodeConfig. rewrite rawBase64URL_roundtrip, Hgzip.
    rewrite string_of_list_byte_of_string.
    apply parse_stringify, wellFormed_calendar.
  - intros other. apply calendarValue_injective.
Qed.

End CodecRoundTrip.

Lemma decode_encode_witness :
  exists encoded,
    encodeCalendar (fun bytes => Byte.x1f :: Byte.x8b :: bytes) Scenario.plain = inr encoded
    /\ decodeConfig
         (fun bytes => match bytes with
                       | Byte.x1f :: Byte.x8b :: data => inr data
                       | _ => inl (Js.MkError "TypeError")
                       end) encoded
       = inr (calendarValue Scenario.plain)
    /\ forall other, calendarValue other = calendarValue Scenario.plain -> other = Scenario.plain.
Proof.
  apply (decode_encode
           (fun bytes => Byte.x1f :: Byte.x8b :: bytes)
           (fun bytes => match bytes with
                         | Byte.x1f :: Byte.x8b :: data => inr data
                         | _ => inl (Js.MkError "TypeError")
                         end)
           Scenario.plain).
  reflexivity.
Defined.


(** ** The end of the tabular import *)

Lemma string_leb_trans (a : string) :
  forall b c, String.leb a b = true -> String.leb b c = true -> String.leb a c = true.
Proof.
  unfold String.leb.
  induction a as [|x a IH]; intros [|y b] [|z c]; cbn; try congruence.
  unfold Ascii.compare.
  destruct (N.compare_spec (N_of_ascii x) (N_of_ascii y)) as [Exy|Lxy|Gxy];
    destruct (N.compare_spec (N_of_ascii y) (N_of_ascii z)) as [Eyz|Lyz|Gyz];
    destruct (N.compare_spec (N_of_ascii x) (N_of_ascii z)) as [Exz|Lxz|Gxz];
    try congruence; try lia; try (intros; reflexivity).
  apply IH.
Qed.

Lemma ltb_false_leb (a b : string) : String.ltb a b = false -> String.leb b a = true.
Proof.
  unfold String.ltb, String.leb. rewrite (String.compare_antisym a b).
  destruct (String.compare b a); cbn; congruence.
Qed.

Lemma ltb_true_leb (a b : string) : String.ltb a b = true -> String.leb a b = true.
Proof.
  unfold String.ltb, String.leb. destruct (String.compare a b); congruence.
Qed.

Lemma string_leb_refl (a : string) : String.leb a a = true.
Proof. destruct (String.leb_total a a); assumption. Qed.

Lemma localeCompare_le (a b : string) :
  (localeCompare a b <=? 0)%Z = String.leb a b.
Proof.
  unfold localeCompare, String.leb. destruct (String.compare a b); reflexivity.
Qed.

Lemma insertTerm_sorted (t : CalendarTerm) (sorted : list CalendarTerm) :
  SortedByStart sorted -> SortedByStart (insertTerm t sorted).
Proof.
  induction 1 as [|u|u v rest Huv Hrest IH]; cbn.
  - constructor.
  - rewrite localeCompare_le.
    destruct (String.leb (term_start t) (term_start u)) eqn:E.
    + constructor; [exact E|constructor].
    + constructor; [|constructor].
      destruct (String.leb_total (term_start t) (term_start u)); congruence.
  - cbn in IH. rewrite !localeCompare_le in *.
    destruct (String.leb (term_start t) (term_start u)) eqn:E.
    + constructor; [exact E|]. constructor; assumption.
    + destruct (String.leb (term_start t) (term_start v)) eqn:E'.
      * constructor; [|exact IH].
        destruct (String.leb_total (term_start t) (term_start u)); congruence.
      * constructor; [exact Huv|exact IH].
Qed.

Lemma sortByStart_sorted (ts : list CalendarTerm) : SortedByStart (sortByStart ts).
Proof.
  induction ts as [|t rest IH]; cbn; [constructor|].
  now apply insertTerm_sorted.
Qed.

Lemma insertTerm_perm (t : CalendarTerm) (sorted : list CalendarTerm) :
  Permutation.Permutation (t :: sorted) (insertTerm t sorted).
Proof.
  induction sorted as [|u rest IH]; cbn; [reflexivity|].
  destruct (localeCompare (term_start t) (term_start u) <=? 0)%Z; [reflexivity|].
  rewrite Permutation.perm_swap. now constructor.
Qed.

Lemma sortByStart_perm (ts : list CalendarTerm) :
  Permutation.Permutation ts (sortByStart ts).
Proof.
  induction ts as [|t rest IH]; cbn; [constructor|].
  rewrite <- insertTerm_perm. now constructor.
Qed.

Lemma renumber_spec (ts : list CalendarTerm) :
  forall i,
    Forall2 sameButId (renumber i ts) ts
    /\ map term_id (renumber i ts)
       = map (fun k => "Term " ++ Js.showNat (k + 1)) (seq i (List.length ts)).
Proof.
  induction ts as [|t rest IH]; intros i; cbn; [split; [constructor|reflexivity]|].
  destruct (IH (S i)) as [H1 H2]. split.
  - constructor; [repeat split|exact H1].
  - now rewrite H2.
Qed.

Lemma renumber_sorted (ts : list CalendarTerm) :
  forall i, SortedByStart ts -> SortedByStart (renumber i ts).
Proof.
  intros i H. revert i.
  induction H as [|u|u v rest Huv Hrest IH]; intros i; cbn; try constructor.
  - exact Huv.
  - apply (IH (S i)).
Qed.

Lemma leastStart_spec (ts : list CalendarTerm) :
  forall start,
    String.leb (leastStart start ts) start = true
    /\ Forall (fun t => String.leb (leastStart start ts) (term_start t) = true) ts
    /\ (leastStart start ts = start \/ In (leastStart start ts) (map term_start ts)).
Proof.
  unfold leastStart.
  induction ts as [|t rest IH]; intros start; cbn [fold_left].
  - split; [apply string_leb_refl|]. split; [constructor|now left].
  - destruct (String.ltb (term_start t) start) eqn:E.
    + destruct (IH (term_start t)) as (H1 & H2 & H3). split; [|split].
      * eapply string_leb_trans; [exact H1|]. now apply ltb_true_leb.
      * constructor; assumption.
      * right. destruct H3 as [->|H3]; [now left|now right].
    + destruct (IH start) as (H1 & H2 & H3). split; [exact H1|]. split.
      * constructor; [|exact H2].
        eapply string_leb_trans; [exact H1|]. now apply ltb_false_leb.
      * destruct H3 as [H3|H3]; [now left|right; now right].
Qed.

Lemma greatestEnd_spec (ts : list CalendarTerm) :
  forall end_,
    String.leb end_ (greatestEnd end_ ts) = true
    /\ Forall (fun t => String.leb (term_end t) (greatestEnd end_ ts) = true) ts
    /\ (greatestEnd end_ ts = end_ \/ In (greatestEnd end_ ts) (map term_end ts)).
Proof.
  unfold greatestEnd, Js.gtb.
  induction ts as [|t rest IH]; intros end_; cbn [fold_left].
  - split; [apply string_leb_refl|]. split; [constructor|now left].
  - destruct (String.ltb end_ (term_end t)) eqn:E.
    + destruct (IH (term_end t)) as (H1 & H2 & H3). split; [|split].
      * eapply string_leb_trans; [|exact H1]. now apply ltb_true_leb.
      * constructor; assumption.
      * right. destruct H3 as [->|H3]; [now left|now right].
    + destruct (IH end_) as (H1 & H2 & H3). split; [exact H1|]. split.
      * constructor; [|exact H2].
        eapply string_leb_trans; [|exact H1]. now apply ltb_false_leb.
      * destruct H3 as [H3|H3]; [now left|right; now right].
Qed.

Lemma withCourses_nonempty (calendar : AcademicCalendar) :
  Forall (fun t => courses t <> []) (withCourses calendar).
Proof.
  apply Forall_forall. intros t Hin. apply filter_In in Hin as [_ H].
  destruct (courses t); [discriminate|discriminate].
Qed.

(** When the loops leave a calendar, the end of the import does what the
    description says: it fails with the error [No courses found] exactly when
    no term has a course, and otherwise returns the terms that have one. *)
Lemma finishImport_no_courses (calendar : AcademicCalendar) (isCustomCalendar : bool)
    (warnings : list Warning) :
  withCourses calendar = [] <->
  finishImport (Some calendar) isCustomCalendar warnings
  = Failed (Js.MkError "No courses found. Check that your export is from the correct page.").
Proof.
  unfold finishImport. fold (withCourses calendar).
  destruct (withCourses calendar); split; intros H; try reflexivity; discriminate.
Qed.

Lemma sameButId_courses (l l' : list CalendarTerm) :
  Forall2 sameButId l l' ->
  Forall (fun t => courses t <> []) l' ->
  Forall (fun t => courses t <> []) l.
Proof.
  induction 1 as [|t u l l' [_ [_ [Hc _]]] Hrest IH]; intros Hall; [constructor|].
  inversion Hall; subst. constructor; [congruence|auto].
Qed.

Lemma finishImport_terms_have_courses (calendar returned : AcademicCalendar)
    (isCustomCalendar : bool) (warnings warnings' : list Warning) :
  finishImport (Some calendar) isCustomCalendar warnings = Imported returned warnings' ->
  Forall (fun t => courses t <> []) (ac_terms returned).
Proof.
  unfold finishImport. fold (withCourses calendar).
  pose proof (withCourses_nonempty calendar) as Hne.
  destruct (withCourses calendar) as [|first rest] eqn:E; [discriminate|].
  intros H. injection H as <- _.
  destruct isCustomCalendar; cbn [ac_terms]; [|exact Hne].
  destruct (renumber_spec (sortByStart (first :: rest)) 0) as [Hsame _].
  assert (Hsorted : Forall (fun t => courses t <> []) (sortByStart (first :: rest))).
  { rewrite Forall_forall in *. intros t Hin. apply Hne.
    eapply Permutation.Permutation_in; [|exact Hin].
    apply Permutation.Permutation_sym, sortByStart_perm. }
  exact (sameButId_courses _ _ Hsame Hsorted).
Qed.

(** For a calendar made up by the importer, the terms returned are those with
    a course, sorted by start, numbered [Term 1], [Term 2], ... in that order,
    and the range goes from the least start to the greatest end. *)
Lemma finishImport_custom (calendar returned : AcademicCalendar)
    (warnings warnings' : list Warning) :
  finishImport (Some calendar) true warnings = Imported returned warnings' ->
  SortedByStart (ac_terms returned)
  /\ Forall2 sameButId (ac_terms returned) (sortByStart (withCourses calendar))
  /\ Permutation.Permutation (withCourses calendar) (sortByStart (withCourses calendar))
  /\ map term_id (ac_terms returned)
     = map (fun k => "Term " ++ Js.showNat (k + 1))
         (seq 0 (List.length (withCourses calendar)))
  /\ (exists least greatest,
        range returned = (newUTCDate least, newUTCDate greatest)
        /\ In least (map term_start (withCourses calendar))
        /\ In greatest (map term_end (withCourses calendar))
        /\ Forall (fun t => String.leb least (term_start t) = true) (withCourses calendar)
        /\ Forall (fun t => String.leb (term_end t) greatest = true) (withCourses calendar))
  /\ warnings' = customCalendarWarning :: warnings.
Proof.
  unfold finishImport. fold (withCourses calendar).
  destruct (withCourses calendar) as [|first rest] eqn:E; [discriminate|].
  intros H. injection H as <- <-. cbn [ac_terms range].
  destruct (renumber_spec (sortByStart (first :: rest)) 0) as [Hsame Hids].
  split; [exact (renumber_sorted _ 0 (sortByStart_sorted (first :: rest)))|].
  split; [exact Hsame|].
  split; [exact (sortByStart_perm (first :: rest))|].
  split.
  { etransitivity; [exact Hids|]. f_equal. f_equal.
    symmetry. exact (Permutation.Permutation_length (sortByStart_perm (first :: rest))). }
  split; [|reflexivity].
  destruct (leastStart_spec (first :: rest) (term_start first)) as (_ & L2 & L3).
  destruct (greatestEnd_spec (first :: rest) (term_end first)) as (_ & G2 & G3).
  eexists _, _. split; [reflexivity|]. repeat split; try assumption.
  - destruct L3 as [L3|L3]; [left; symmetry; exact L3|exact L3].
  - destruct G3 as [G3|G3]; [left; symmetry; exact G3|exact G3].
Qed.

(** C9 fails on the code when no row of the sheet selects a calendar, as for
    an export without any course row: [calendar] is still [null] after the
    loops, the removal of the empty terms reads [calendar.terms], and the
    import is rejected by a [TypeError] instead of failing with the error
    [No courses found]. *)
Theorem finishImport_without_calendar (isCustomCalendar : bool) (warnings : list Warning) :
  finishImport None isCustomCalendar warnings = Rejected "TypeError"
  /\ finishImport None isCustomCalendar warnings
     <> Failed (Js.MkError "No courses found. Check that your export is from the correct page.").
Proof.
  split; [reflexivity|discriminate].
Qed.

(** ** The primitives on examples *)

Example split_bar :
  Js.split "|" "M-W|09:00 AM-09:50 AM|SH104" = ["M-W"; "09:00 AM-09:50 AM"; "SH104"].
Proof. reflexivity. Qed.

Example split_empty : Js.split "-" "" = [""].
Proof. reflexivity. Qed.

Example trim_ex : Js.trim "  ab c  " = "ab c".
Proof. reflexivity. Qed.

Example showNat_ex : (Js.showNat 0, Js.showNat 7, Js.showNat 1001) = ("0", "7", "1001").
Proof. reflexivity. Qed.

Example addLeadingZeros_ex :
  (Js.addLeadingZeros 8 2, Js.addLeadingZeros 2025 4, Js.addLeadingZeros 10000 4)
  = ("08", "2025", "10000").
Proof. reflexivity. Qed.

Example parseMeetingPattern_ex :
  parseMeetingPattern "R|12:00 pm-1:50 p.m."
  = inr {| startTime := "12:00"; endTime := "13:50";
           weekdays := [WeekdayConst.Thursday]; location := None |}
  /\ parseMeetingPattern "M-W-m|09:00 AM-09:50 AM|SH104"
     = inl (Js.MkError "scanning MeetingPattern: weekday m is duplicated")
  /\ parseMeetingPattern "R|2:00 PM-1:50 PM"
     = inl (Js.MkError "scanning MeetingPattern: start time 2:00 PM after end time 1:50 PM").
Proof. repeat split; vm_compute; reflexivity. Qed.

Example dates_ex :
  newUTCDate "1970-01-01" = Some 0%Z
  /\ newUTCDate "2024-02-29" = Some 19782%Z
  /\ newUTCDate "2025-02-29" = None
  /\ newUTCDate "2025-8-21" = None
  /\ formatDate 19782 = "2024-02-29"
  /\ getDay 0 = WeekdayConst.Thursday.
Proof. repeat split; vm_compute; reflexivity. Qed.

(** ** Further properties of validate *)

(** ** What validate accepts *)

Lemma errorsOf_then (a b : Diag) : errorsOf (a ;; b) = (errorsOf a ++ errorsOf b)%list.
Proof. reflexivity. Qed.

Lemma no_error_then (a b : Diag) :
  errorsOf (a ;; b) = [] <-> errorsOf a = [] /\ errorsOf b = [].
Proof.
  rewrite errorsOf_then. split.
  - intros H. now apply app_eq_nil in H.
  - intros [-> ->]. reflexivity.
Qed.

Lemma no_error_when_error (c : bool) (message : string) :
  errorsOf (when c (pushError message)) = [] <-> c = false.
Proof. destruct c; cbn; split; congruence. Qed.

Lemma no_error_when_warning (c : bool) (title message : string) :
  errorsOf (when c (pushWarning title message)) = [].
Proof. destruct c; reflexivity. Qed.

Lemma no_error_forOf {A : Type} (body : A -> Diag) (xs : list A) :
  errorsOf (forOf body xs) = [] <-> Forall (fun x => errorsOf (body x) = []) xs.
Proof.
  induction xs as [|x rest IH]; cbn [forOf].
  - split; [constructor|reflexivity].
  - rewrite no_error_then, IH. split.
    + intros [H1 H2]. now constructor.
    + intros H. inversion H; subst. now split.
Qed.

Lemma no_error_forEntries {A : Type} (body : nat -> A -> Diag) (xs : list A) :
  forall index,
    (forall i x, errorsOf (body i x) = [] <-> errorsOf (body 0%nat x) = []) ->
    errorsOf (forEntries body index xs) = []
    <-> Forall (fun x => errorsOf (body 0%nat x) = []) xs.
Proof.
  induction xs as [|x rest IH]; intros index Hbody; cbn [forEntries].
  - split; [constructor|reflexivity].
  - rewrite no_error_then, (IH (S index) Hbody), Hbody. split.
    + intros [H1 H2]. now constructor.
    + intros H. inversion H; subst. now split.
Qed.

Lemma truthy_iff (s : string) : Js.truthy s = true <-> s <> "".
Proof.
  unfold Js.truthy. destruct (String.eqb_spec s ""); cbn; split; congruence.
Qed.

Lemma not_truthy_false (s : string) : negb (Js.truthy s) = false <-> s <> "".
Proof. rewrite negb_false_iff. apply truthy_iff. Qed.

Lemma Forall_iff {A : Type} (P Q : A -> Prop) (l : list A) :
  (forall x, P x <-> Q x) -> Forall P l <-> Forall Q l.
Proof.
  intros H. split; apply Forall_impl; intros x; apply H.
Qed.

Lemma validateMeetingPattern_ok (who what whose : string) (mp : MeetingPattern) :
  errorsOf (validateMeetingPattern who what whose mp) = [] <-> meetingPatternOk mp.
Proof.
  unfold validateMeetingPattern, meetingPatternOk.
  rewrite !no_error_then, !no_error_when_error, !not_truthy_false.
  split.
  - intros (Hs & He & Hgt & Hw & _). repeat split; auto.
    + apply truthy_iff in Hs, He. rewrite Hs, He in Hgt. exact Hgt.
    + destruct (weekdays mp); [discriminate|discriminate].
  - intros (Hs & He & Hgt & Hw). repeat split; auto.
    + rewrite Hgt. now rewrite andb_false_r.
    + destruct (weekdays mp); [congruence|reflexivity].
    + apply no_error_when_warning.
Qed.

Lemma validateSubsection_ok (termName courseName : string) (index : nat)
    (subsection : CalendarSection) :
  errorsOf (validateSubsection termName courseName index subsection) = []
  <-> subsectionOk subsection.
Proof.
  unfold validateSubsection, subsectionOk.
  rewrite !no_error_then, no_error_when_error, not_truthy_false, no_error_forOf.
  rewrite (Forall_iff _ meetingPatternOk) by (intros mp; apply validateMeetingPattern_ok).
  pose proof (no_error_when_warning
                (Nat.eqb (List.length (sec_meetingPatterns subsection)) 0)) as Hw.
  split; [intros (H1 & _ & H3); now split|intros [H1 H3]; repeat split; auto].
Qed.

Lemma validateExcept_ok (termName courseName : string) (term : CalendarTerm)
    (special : string) :
  errorsOf (validateExcept termName courseName term special) = []
  <-> special <> "" /\ withinTerm term special.
Proof.
  unfold validateExcept, withinTerm.
  destruct (negb (Js.truthy special)) eqn:Et.
  - apply negb_true_iff in Et. split; [discriminate|].
    intros [H _]. apply truthy_iff in H. congruence.
  - apply not_truthy_false in Et.
    destruct (String.ltb special (term_start term)).
    + split; [discriminate|]. intros [_ [H _]]. discriminate.
    + rewrite no_error_when_error. tauto.
Qed.

Lemma validateCourse_ok (termName : string) (index : nat) (term : CalendarTerm)
    (course : CalendarCourse) :
  errorsOf (validateCourse termName index term course) = [] <-> courseOk term course.
Proof.
  unfold validateCourse, courseOk.
  rewrite !no_error_then, !no_error_when_error, !not_truthy_false, !no_error_forOf.
  rewrite (Forall_iff _ meetingPatternOk) by (intros mp; apply validateMeetingPattern_ok).
  rewrite (Forall_iff _ (fun special => special <> "" /\ withinTerm term special))
    by (intros special; apply validateExcept_ok).
  rewrite no_error_forEntries
    by (intros i x; rewrite !validateSubsection_ok; reflexivity).
  rewrite (Forall_iff _ subsectionOk) by (intros s; apply validateSubsection_ok).
  pose proof (no_error_when_warning (Nat.eqb (List.length (meetingPatterns course)) 0)) as Hw.
  split; [intros (H1 & H2 & _ & H3 & H4 & H5); now repeat split
         |intros (H1 & H2 & H3 & H4 & H5); repeat split; auto].
Qed.

Lemma validateDate_ok (termName : string) (term : CalendarTerm) (special : CalendarDate) :
  errorsOf (validateDate termName term special) = [] <-> dateOk term special.
Proof.
  unfold validateDate, dateOk, withinTerm.
  destruct (negb (Js.truthy (date special))) eqn:Et.
  - apply negb_true_iff in Et. split; [discriminate|].
    intros [H _]. apply truthy_iff in H. congruence.
  - apply not_truthy_false in Et. rewrite no_error_then.
    assert (Hrange :
              errorsOf
                (if String.ltb (date special) (term_start term)
                 then pushError ("Term " ++ termName ++ ": special date " ++ date special
                                 ++ " before term start")
                 else when (Js.gtb (date special) (term_end term))
                        (pushError ("Term " ++ termName ++ ": special date " ++ date special
                                    ++ " after term end"))) = []
              <-> String.ltb (date special) (term_start term) = false
                  /\ Js.gtb (date special) (term_end term) = false).
    { destruct (String.ltb (date special) (term_start term)).
      - split; [discriminate|intros [H _]; discriminate].
      - rewrite no_error_when_error. tauto. }
    rewrite Hrange.
    assert (Hkind :
              errorsOf
                match kind special with
                | Follow weekday =>
                    when (match newUTCDate (date special) with
                          | Some d => (getDay d =? weekday)%Z
                          | None => false
                          end)
                      (pushError ("Term " ++ termName ++ ": special date " ++ date special
                                  ++ " does nothing (already a "
                                  ++ weekdayToString weekday false ++ ")"))
                | NoClass _ _ => noDiag
                end = []
              <-> match kind special with
                  | Follow weekday =>
                      forall d, newUTCDate (date special) = Some d -> getDay d <> weekday
                  | NoClass _ _ => True
                  end).
    { destruct (kind special) as [reason hidden|weekday]; [split; auto|].
      rewrite no_error_when_error.
      destruct (newUTCDate (date special)) as [d|].
      - rewrite Z.eqb_neq. split.
        + intros H d' Hd'. injection Hd' as <-. exact H.
        + intros H. now apply H.
      - split; [intros _ d Hd; discriminate|reflexivity]. }
    rewrite Hkind. tauto.
Qed.

Lemma has_In (x : string) (set : list string) : has x set = true <-> In x set.
Proof.
  unfold has. rewrite existsb_exists. split.
  - intros (y & Hin & Heq). apply String.eqb_eq in Heq. now subst.
  - intros Hin. exists x. split; [exact Hin|apply String.eqb_refl].
Qed.

Lemma validateTerm_ok (termNames : list string) (index : nat) (term : CalendarTerm) :
  errorsOf (validateTerm termNames index term) = []
  <-> ~ In (term_id term) termNames /\ termOk term.
Proof.
  unfold validateTerm, termOk.
  rewrite !no_error_then, !no_error_when_error, !not_truthy_false, !no_error_forOf.
  rewrite (Forall_iff _ (dateOk term)) by (intros s; apply validateDate_ok).
  rewrite (Forall_iff _ (courseOk term)) by (intros c; apply validateCourse_ok).
  rewrite <- not_true_iff_false, has_In.
  split.
  - intros (H1 & H2 & H3 & H4 & H5 & H6 & H7). repeat split; auto.
    apply truthy_iff in H3, H4. rewrite H3, H4 in H5. exact H5.
  - intros (H2 & H1 & H3 & H4 & H5 & H6 & H7). repeat split; auto.
    rewrite H5. now rewrite andb_false_r.
Qed.

Lemma validateTerms_ok (ts : list CalendarTerm) :
  forall termNames index,
    errorsOf (validateTerms termNames index ts) = []
    <-> (forall t, In t ts -> ~ In (term_id t) termNames)
        /\ NoDup (map term_id ts) /\ Forall termOk ts.
Proof.
  induction ts as [|term rest IH]; intros termNames index; cbn [validateTerms].
  - split; [intros _|reflexivity]. repeat split; [intros t []|constructor|constructor].
  - rewrite no_error_then, validateTerm_ok, IH. cbn [map]. split.
    + intros ((Hfresh & Hok) & Hrest & Hnodup & Hall).
      split; [|split].
      * intros t [<-|Hin]; [exact Hfresh|].
        intros Hin'. apply (Hrest t Hin). now right.
      * constructor; [|exact Hnodup].
        intros Hin. apply in_map_iff in Hin as (t & Heq & Hin).
        apply (Hrest t Hin). now left.
      * now constructor.
    + intros (Hfresh & Hnodup & Hall).
      inversion Hnodup as [|? ? Hnotin Hnodup']; subst.
      inversion Hall as [|? ? Hok Hall']; subst.
      split; [split; [|exact Hok]|split; [|split; [exact Hnodup'|exact Hall']]].
      * apply Hfresh. now left.
      * intros t Hin Hx. destruct Hx as [Heq|Hin'].
        -- apply Hnotin. rewrite Heq. now apply in_map.
        -- apply (Hfresh t); [now right|exact Hin'].
Qed.

Lemma validated_calendarOk (calendar : Calendar) :
  validated calendar <-> calendarOk calendar.
Proof.
  unfold validated, validate, calendarOk.
  rewrite !no_error_then, !no_error_when_error, validateTerms_ok.
  split.
  - intros (H1 & H2 & _ & H3 & H4). repeat split; auto.
    + destruct (terms calendar); [discriminate|discriminate].
    + destruct (flat_map courses (terms calendar)); [discriminate|discriminate].
  - intros (H1 & H2 & H3 & H4). repeat split; auto.
    + destruct (terms calendar); [congruence|reflexivity].
    + destruct (flat_map courses (terms calendar)); [congruence|reflexivity].
Qed.


(** *** Rows that are empty *)

Lemma isEmptyMeetingPattern_not_ok (mp : MeetingPattern) :
  isEmptyMeetingPattern mp = true -> ~ meetingPatternOk mp.
Proof.
  unfold isEmptyMeetingPattern, meetingPatternOk. intros H (Hs & _).
  apply andb_true_iff in H as [H _]. apply andb_true_iff in H as [H _].
  apply andb_true_iff in H as [_ H]. apply negb_true_iff in H.
  apply truthy_iff in Hs. congruence.
Qed.

(** X2: a calendar that passes validation holds no row that the editor counts as
    empty: no empty term, override date, course, subsection or meeting
    pattern. *)
Theorem validated_has_no_empty_row (calendar : Calendar) :
  validated calendar ->
  forall term, In term (terms calendar) ->
    isEmptyTerm term = false
    /\ (forall special, In special (dates term) -> isEmptyDate special = false)
    /\ (forall course, In course (courses term) ->
          isEmptyCourse course = false
          /\ (forall mp, In mp (meetingPatterns course) -> isEmptyMeetingPattern mp = false)
          /\ (forall exception, In exception (except course) ->
                isEmptyException exception = false)
          /\ (forall subsection, In subsection (subsections course) ->
                isEmptySubsection subsection = false
                /\ (forall mp, In mp (sec_meetingPatterns subsection) ->
                      isEmptyMeetingPattern mp = false))).
Proof.
  intros Hvalid term Hterm.
  apply validated_calendarOk in Hvalid. destruct Hvalid as (_ & _ & _ & Hall).
  rewrite Forall_forall in Hall. specialize (Hall term Hterm).
  destruct Hall as (Hid & _ & _ & _ & Hdates & Hcourses).
  rewrite Forall_forall in Hdates, Hcourses.
  assert (Hmp : forall mp, meetingPatternOk mp -> isEmptyMeetingPattern mp = false).
  { intros mp Hok. destruct (isEmptyMeetingPattern mp) eqn:E; [|reflexivity].
    now apply isEmptyMeetingPattern_not_ok in E. }
  split; [|split].
  - unfold isEmptyTerm. apply truthy_iff in Hid. now rewrite Hid.
  - intros special Hin. destruct (Hdates special Hin) as (Hd & _).
    unfold isEmptyDate. apply truthy_iff in Hd. now rewrite Hd.
  - intros course Hin. destruct (Hcourses course Hin) as (Hn & _ & Hmps & Hsubs & Hexc).
    rewrite Forall_forall in Hmps, Hsubs, Hexc.
    split; [|split; [|split]].
    + unfold isEmptyCourse. apply truthy_iff in Hn. now rewrite Hn.
    + intros mp Hmpin. apply Hmp, Hmps, Hmpin.
    + intros exception Hein. destruct (Hexc exception Hein) as [Hne _].
      unfold isEmptyException. apply truthy_iff in Hne. now rewrite Hne.
    + intros subsection Hsin. destruct (Hsubs subsection Hsin) as (Hsn & Hsmps).
      rewrite Forall_forall in Hsmps. split.
      * unfold isEmptySubsection. apply truthy_iff in Hsn. now rewrite Hsn.
      * intros mp Hmpin. apply Hmp, Hsmps, Hmpin.
Qed.

Lemma validated_has_no_empty_row_witness :
  isEmptyTerm (Scenario.a25 [Scenario.cs101 []] []) = false
  /\ (forall special, In special (dates (Scenario.a25 [Scenario.cs101 []] [])) ->
        isEmptyDate special = false)
  /\ (forall course, In course (courses (Scenario.a25 [Scenario.cs101 []] [])) ->
        isEmptyCourse course = false
        /\ (forall mp, In mp (meetingPatterns course) -> isEmptyMeetingPattern mp = false)
        /\ (forall exception, In exception (except course) ->
              isEmptyException exception = false)
        /\ (forall subsection, In subsection (subsections course) ->
              isEmptySubsection subsection = false
              /\ (forall mp, In mp (sec_meetingPatterns subsection) ->
                    isEmptyMeetingPattern mp = false))).
Proof.
  apply (validated_has_no_empty_row Scenario.plain).
  - vm_compute. reflexivity.
  - left. reflexivity.
Defined.

(** *** The rows that the editor adds *)

(** X3: the row pushed by each of the add operations keeps the calendar from
    passing validation, wherever the term, course or subsection it was added
    to sits in the calendar: the feed is generated again only once the row is
    filled in or removed. *)
Theorem added_rows_fail_validation (calendar : Calendar) :
  ~ validated (addTerm calendar)
  /\ (forall term, In (addCourse term) (terms calendar) -> ~ validated calendar)
  /\ (forall term, In (addSpecialDate term) (terms calendar) -> ~ validated calendar)
  /\ (forall term course,
        In term (terms calendar) ->
        In (addSubsection course) (courses term) \/ In (addMeetingPatternToCourse course) (courses term) ->
        ~ validated calendar)
  /\ (forall term course subsection,
        In term (terms calendar) -> In course (courses term) ->
        In (addMeetingPatternToSection subsection) (subsections course) ->
        ~ validated calendar).
Proof.
  assert (Hempty : ~ meetingPatternOk emptyMeetingPattern).
  { intros (H & _). now apply H. }
  repeat split.
  - intros Hvalid. apply validated_calendarOk in Hvalid.
    destruct Hvalid as (_ & _ & _ & Hall). rewrite Forall_forall in Hall.
    destruct (Hall emptyTerm) as (Hid & _); [|now apply Hid].
    cbn. apply in_or_app. right. now left.
  - intros term Hin Hvalid. apply validated_calendarOk in Hvalid.
    destruct Hvalid as (_ & _ & _ & Hall). rewrite Forall_forall in Hall.
    destruct (Hall _ Hin) as (_ & _ & _ & _ & _ & Hcourses).
    rewrite Forall_forall in Hcourses.
    destruct (Hcourses emptyCourse) as (Hn & _); [|now apply Hn].
    cbn. apply in_or_app. right. now left.
  - intros term Hin Hvalid. apply validated_calendarOk in Hvalid.
    destruct Hvalid as (_ & _ & _ & Hall). rewrite Forall_forall in Hall.
    destruct (Hall _ Hin) as (_ & _ & _ & _ & Hdates & _).
    rewrite Forall_forall in Hdates.
    destruct (Hdates emptySpecialDate) as (Hd & _); [|now apply Hd].
    cbn. apply in_or_app. right. now left.
  - intros term course Hin Hc Hvalid. apply validated_calendarOk in Hvalid.
    destruct Hvalid as (_ & _ & _ & Hall). rewrite Forall_forall in Hall.
    destruct (Hall _ Hin) as (_ & _ & _ & _ & _ & Hcourses).
    rewrite Forall_forall in Hcourses.
    destruct Hc as [Hc|Hc]; destruct (Hcourses _ Hc) as (_ & _ & Hmps & Hsubs & _);
      rewrite Forall_forall in Hmps, Hsubs.
    + destruct (Hsubs emptySubsection) as (Hn & _); [|now apply Hn].
      cbn. apply in_or_app. right. now left.
    + apply Hempty, Hmps. cbn. apply in_or_app. right. now left.
  - intros term course subsection Hin Hc Hs Hvalid. apply validated_calendarOk in Hvalid.
    destruct Hvalid as (_ & _ & _ & Hall). rewrite Forall_forall in Hall.
    destruct (Hall _ Hin) as (_ & _ & _ & _ & _ & Hcourses).
    rewrite Forall_forall in Hcourses.
    destruct (Hcourses _ Hc) as (_ & _ & _ & Hsubs & _). rewrite Forall_forall in Hsubs.
    destruct (Hsubs _ Hs) as (_ & Hmps). rewrite Forall_forall in Hmps.
    apply Hempty, Hmps. cbn. apply in_or_app. right. now left.
Qed.

(** *** The except lists of subsections *)


(** *** What validation does not read *)

Lemma forOf_map {A B : Type} (body : B -> Diag) (f : A -> B) (xs : list A) :
  forOf body (map f xs) = forOf (fun x => body (f x)) xs.
Proof. induction xs as [|x xs IH]; cbn; [reflexivity|now rewrite IH]. Qed.

Lemma forOf_ext {A : Type} (body body' : A -> Diag) (xs : list A) :
  (forall x, body x = body' x) -> forOf body xs = forOf body' xs.
Proof. intros H. induction xs as [|x xs IH]; cbn; [reflexivity|now rewrite H, IH]. Qed.

Lemma forEntries_map {A B : Type} (body : nat -> B -> Diag) (f : A -> B) (xs : list A) :
  forall index,
    forEntries body index (map f xs) = forEntries (fun i x => body i (f x)) index xs.
Proof. induction xs as [|x xs IH]; intros index; cbn; [reflexivity|now rewrite IH]. Qed.

Lemma validateTerms_map (f : CalendarTerm -> CalendarTerm) (ts : list CalendarTerm) :
  (forall t, term_id (f t) = term_id t) ->
  (forall termNames index t, validateTerm termNames index (f t) = validateTerm termNames index t) ->
  forall termNames index,
    validateTerms termNames index (map f ts) = validateTerms termNames index ts.
Proof.
  intros Hid Hsame. induction ts as [|t ts IH]; intros termNames index; cbn [map validateTerms].
  - reflexivity.
  - now rewrite Hsame, Hid, IH.
Qed.

(** X4: [validate] never reads the [except] list of a subsection: whatever the
    lists are replaced with, blank or out-of-term dates included, the errors
    and the warnings stay the same. *)
Theorem validate_ignores_subsection_except
    (g : CalendarSection -> list string) (calendar : Calendar) :
  validate (mapSections (setSectionExcept g) calendar) = validate calendar.
Proof.
  unfold validate, mapSections. cbn [terms].
  rewrite length_map.
  match goal with
  | |- context [flat_map courses (map ?f ?ts)] =>
      assert (Hlen : List.length (flat_map courses (map f ts))
                     = List.length (flat_map courses ts))
  end.
  { induction (terms calendar) as [|t ts IH]; cbn [map flat_map courses]; [reflexivity|].
    now rewrite !length_app, length_map, IH. }
  rewrite Hlen.
  do 2 f_equal.
  apply validateTerms_map; [reflexivity|].
  intros termNames index t. unfold validateTerm. cbn [term_id term_start term_end dates courses].
  do 6 f_equal.
  rewrite forOf_map. apply forOf_ext. intros course.
  unfold validateCourse. cbn [number name meetingPatterns except subsections].
  do 4 f_equal. f_equal.
  rewrite forEntries_map. reflexivity.
Qed.

(** *** Every check runs *)

Lemma validateTerms_app (a b : list CalendarTerm) :
  forall termNames index,
    validateTerms termNames index (a ++ b)%list
    = validateTerms termNames index a ;;
      validateTerms (rev (map term_id a) ++ termNames)%list (index + List.length a) b.
Proof.
  induction a as [|t a IH]; intros termNames index; cbn [app validateTerms map rev List.length].
  - rewrite Nat.add_0_r. now destruct (validateTerms termNames index b).
  - rewrite IH. rewrite <- app_assoc. cbn [app].
    replace (S index + List.length a)%nat with (index + S (List.length a))%nat by lia.
    unfold thenD. cbn [fst snd]. now rewrite !app_assoc.
Qed.

(** X5: validation does not stop at the first failure: the errors of every term,
    computed with the ids of the terms before it, all appear in the list that
    [validate] returns, in the order of the terms. *)
Theorem validate_reports_every_term (calendar : Calendar) (before after : list CalendarTerm)
    (term : CalendarTerm) :
  terms calendar = (before ++ term :: after)%list ->
  exists earlier later,
    errorsOf (validate calendar)
    = (earlier
       ++ errorsOf (validateTerm (rev (map term_id before)) (List.length before) term)
       ++ later)%list.
Proof.
  intros Hterms. unfold validate. rewrite Hterms, validateTerms_app.
  cbn [validateTerms]. rewrite app_nil_r, Nat.add_0_l.
  unfold errorsOf, thenD. cbn [fst snd].
  match goal with
  | |- exists _ _, (?a ++ ?b ++ ?c ++ ?x ++ ?d)%list = _ =>
      exists (a ++ b ++ c)%list, d
  end.
  now rewrite <- !app_assoc.
Qed.

Lemma validate_reports_every_term_witness :
  exists earlier later,
    errorsOf (validate Scenario.blankTermBackwards)
    = (earlier
       ++ errorsOf (validateTerm (rev (map term_id []))
                      (List.length (@nil CalendarTerm))
                      (hd emptyTerm (terms Scenario.blankTermBackwards)))
       ++ later)%list.
Proof.
  apply (validate_reports_every_term Scenario.blankTermBackwards [] (tl (terms Scenario.blankTermBackwards))).
  reflexivity.
Defined.

(** X6: a term without an id is named by its position in every message about it:
    its errors start with the missing name, then (when an earlier term was
    blank as well) the duplicate, and a start after the end is reported under
    the same name. *)
Theorem blank_term_messages (termNames : list string) (index : nat) (term : CalendarTerm) :
  term_id term = "" ->
  Js.truthy (term_start term) = true ->
  Js.truthy (term_end term) = true ->
  Js.gtb (term_start term) (term_end term) = true ->
  exists more,
    errorsOf (validateTerm termNames index term)
    = ("Term #" ++ Js.showNat (index + 1) ++ ": missing/invalid name")
      :: (if has "" termNames
          then ["Term #" ++ Js.showNat (index + 1) ++ ": duplicate name"] else [])
      ++ ("Term #" ++ Js.showNat (index + 1) ++ ": start > end") :: more.
Proof.
  intros Hid Hs He Hgt. unfold validateTerm, nameOr, errorsOf.
  rewrite Hid, Hs, He, Hgt.
  change (Js.truthy "") with false.
  destruct (has "" termNames);
    cbn [negb andb when thenD fst pushError noDiag app]; eexists; reflexivity.
Qed.

Lemma blank_term_messages_witness :
  exists more,
    errorsOf (validateTerm [] 0 (hd emptyTerm (terms Scenario.blankTermBackwards)))
    = ("Term #" ++ Js.showNat (0 + 1) ++ ": missing/invalid name")
      :: (if has "" [] then ["Term #" ++ Js.showNat (0 + 1) ++ ": duplicate name"] else [])
      ++ ("Term #" ++ Js.showNat (0 + 1) ++ ": start > end") :: more.
Proof.
  apply (blank_term_messages [] 0 (hd emptyTerm (terms Scenario.blankTermBackwards)));
    reflexivity.
Defined.

(** ** Further properties of the weekdays, times and patterns *)

(** *** Weekdays *)


Lemma includes_filter_neq (w weekday : Weekday) (ws : list Weekday) :
  includes w (filter (fun x => negb (x =? weekday)%Z) ws)
  = (negb (w =? weekday)%Z && includes w ws)%bool.
Proof.
  unfold includes. induction ws as [|x ws IH]; cbn [filter existsb].
  - now rewrite andb_false_r.
  - destruct (Z.eqb_spec x weekday) as [->|Hx]; cbn [negb existsb].
    + rewrite IH. destruct (Z.eqb_spec w weekday); reflexivity.
    + rewrite IH. destruct (Z.eqb_spec w weekday) as [->|Hw]; cbn [negb andb]; [|reflexivity].
      destruct (Z.eqb_spec weekday x); [congruence|reflexivity].
Qed.

Lemma includes_app (w : Weekday) (a b : list Weekday) :
  includes w (a ++ b)%list = (includes w a || includes w b)%bool.
Proof.
  apply eq_true_iff_eq. rewrite orb_true_iff, !includes_In, in_app_iff. tauto.
Qed.

(** X8: [toggleWeekday] flips whether the pattern includes the weekday and leaves
    every other weekday as it was; a list without duplicates stays so. *)
Theorem toggleWeekday_flips (weekday w : Weekday) (mp : MeetingPattern) :
  includes w (weekdays (toggleWeekday weekday mp))
  = (if (w =? weekday)%Z then negb (includes weekday (weekdays mp))
     else includes w (weekdays mp))
  /\ (NoDup (weekdays mp) -> NoDup (weekdays (toggleWeekday weekday mp))).
Proof.
  unfold toggleWeekday. cbn [weekdays]. split.
  - destruct (includes weekday (weekdays mp)) eqn:Hinc.
    + rewrite includes_filter_neq. destruct (Z.eqb_spec w weekday); reflexivity.
    + rewrite includes_app.
      destruct (Z.eqb_spec w weekday) as [->|Hne].
      * rewrite Hinc. unfold includes. cbn [existsb negb orb]. now rewrite Z.eqb_refl.
      * unfold includes at 2. cbn [existsb].
        destruct (Z.eqb_spec w weekday); [congruence|]. now rewrite !orb_false_r.
  - intros Hnd. destruct (includes weekday (weekdays mp)) eqn:Hinc.
    + now apply NoDup_filter.
    + apply NoDup_app; [exact Hnd|repeat constructor; intros []|].
      intros x Hx [<-|[]]. apply includes_In in Hx. congruence.
Qed.

(** X9: toggling a weekday that the pattern does not include, twice, gives the
    pattern back: the weekday is pushed at the end and then filtered out. *)
Theorem toggleWeekday_twice (weekday : Weekday) (mp : MeetingPattern) :
  includes weekday (weekdays mp) = false ->
  toggleWeekday weekday (toggleWeekday weekday mp) = mp.
Proof.
  intros Hinc.
  assert (Hnow : includes weekday (weekdays mp ++ [weekday]) = true).
  { rewrite includes_app, Hinc. unfold includes. cbn [existsb orb]. now rewrite Z.eqb_refl. }
  unfold toggleWeekday. cbn [weekdays startTime endTime location]. rewrite Hinc, Hnow.
  rewrite filter_app. cbn [filter]. rewrite Z.eqb_refl. cbn [negb]. rewrite app_nil_r.
  rewrite forallb_filter_id.
  - now destruct mp.
  - apply forallb_forall. intros x Hx.
    apply negb_true_iff. apply Z.eqb_neq. intros ->.
    apply includes_In in Hx. congruence.
Qed.

Lemma toggleWeekday_twice_witness :
  toggleWeekday WeekdayConst.Friday (toggleWeekday WeekdayConst.Friday Scenario.thursdayAtNine)
  = Scenario.thursdayAtNine.
Proof. apply (toggleWeekday_twice WeekdayConst.Friday Scenario.thursdayAtNine). reflexivity. Defined.

(** *** Times of day *)










(** *** Patterns read from text *)











(** ** Further properties of the generator *)

(** *** The events of a run *)



Lemma dayOf_toIcsDate (d : Z) : dayOf (toIcsDate d) = civilFromDays d.
Proof. unfold toIcsDate. now destruct (civilFromDays d) as [[y m] dd]. Qed.

Lemma dayOf_toIcsTime (d : Z) (time : string) : dayOf (toIcsTime d time) = civilFromDays d.
Proof. unfold toIcsTime. now destruct (civilFromDays d) as [[y m] dd]. Qed.

Lemma meetingEvents_on_day (u t : string) (d : Z) (weekday : Weekday)
    (mps : list MeetingPattern) (ev : EventAttributes) :
  In ev (meetingEvents u t d weekday mps) ->
  isTimed ev = true
  /\ dayOf (ev_start ev) = civilFromDays d /\ dayOf (ev_end ev) = civilFromDays d.
Proof.
  unfold meetingEvents. intros Hin. apply in_flat_map in Hin as (mp & _ & Hin).
  destruct (includes weekday (weekdays mp)); [|destruct Hin].
  destruct Hin as [<-|[]]. cbn [ev_start ev_end]. rewrite !dayOf_toIcsTime.
  split; [|split; reflexivity].
  unfold isTimed, toIcsTime. cbn [ev_start]. now destruct (civilFromDays d) as [[y m] dd].
Qed.

Lemma courseEvents_on_day (d : Z) (weekday : Weekday) (course : CalendarCourse)
    (ev : EventAttributes) :
  In ev (courseEvents d weekday course) ->
  isTimed ev = true
  /\ dayOf (ev_start ev) = civilFromDays d /\ dayOf (ev_end ev) = civilFromDays d.
Proof.
  unfold courseEvents. intros Hin. apply in_app_iff in Hin as [Hin|Hin].
  - exact (meetingEvents_on_day _ _ _ _ _ _ Hin).
  - apply in_flat_map in Hin as (s & _ & Hin).
    exact (meetingEvents_on_day _ _ _ _ _ _ Hin).
Qed.

Lemma marker_on_day (d : Z) (ev : EventAttributes) :
  ev_start ev = toIcsDate d -> ev_end ev = toIcsDate (addDays d 1) ->
  dayOf (ev_start ev) = civilFromDays d
  /\ dayOf (ev_end ev) = civilFromDays (if isTimed ev then d else d + 1).
Proof.
  intros Hs He. unfold isTimed. rewrite Hs, He, !dayOf_toIcsDate. split; [reflexivity|].
  unfold toIcsDate. now destruct (civilFromDays d) as [[y m] dd].
Qed.

(** X14: every event pushed in the turn of the loop for day [d] is dated that
    day: a timed event starts and ends on [d], an all-day event starts on [d]
    and ends on the day after. *)
Theorem day_events_on_day (term : CalendarTerm) (d : Z) (ev : EventAttributes) :
  In ev (dayEvents term d) ->
  dayOf (ev_start ev) = civilFromDays d
  /\ dayOf (ev_end ev) = civilFromDays (if isTimed ev then d else d + 1).
Proof.
  rewrite dayEvents_first.
  assert (Hc : forall w, In ev (flat_map (courseEvents d w) (courses term)) ->
               dayOf (ev_start ev) = civilFromDays d
               /\ dayOf (ev_end ev) = civilFromDays (if isTimed ev then d else d + 1)).
  { intros w Hin. apply in_flat_map in Hin as (course & _ & Hin).
    apply courseEvents_on_day in Hin as (-> & Hs & He). now split. }
  destruct (firstOverride term d) as [special|]; [|apply Hc].
  destruct (kind special) as [reason hidden|w].
  - destruct (Js.truthyFlag hidden); [intros []|].
    intros [<-|[]]. now apply marker_on_day.
  - intros [<-|Hin]; [now apply marker_on_day|exact (Hc w Hin)].
Qed.

Lemma day_events_on_day_witness :
  dayOf (ev_start (Scenario.theMeeting Scenario.thursday 21)) = civilFromDays Scenario.thursday
  /\ dayOf (ev_end (Scenario.theMeeting Scenario.thursday 21))
     = civilFromDays (if isTimed (Scenario.theMeeting Scenario.thursday 21)
                      then Scenario.thursday else Scenario.thursday + 1).
Proof.
  apply (day_events_on_day (Scenario.a25 [Scenario.cs101 []] []) Scenario.thursday).
  left. vm_compute. reflexivity.
Defined.

(** X15: the events of one day are at most one all-day event, which comes first
    and is there only when the day has an override entry, followed by timed
    events only. *)
Theorem day_events_shape (term : CalendarTerm) (d : Z) :
  exists marker meetings,
    dayEvents term d = (marker ++ meetings)%list
    /\ (List.length marker <= 1)%nat
    /\ forallb (fun ev => negb (isTimed ev)) marker = true
    /\ forallb isTimed meetings = true
    /\ (firstOverride term d = None -> marker = []).
Proof.
  rewrite dayEvents_first.
  assert (Hc : forall w, forallb isTimed (flat_map (courseEvents d w) (courses term)) = true).
  { intros w. apply forallb_flat_map. intros course. apply courseEvents_timed. }
  assert (Hmarker : forall ev, ev_start ev = toIcsDate d -> negb (isTimed ev) = true).
  { intros ev Hs. unfold isTimed. rewrite Hs. unfold toIcsDate.
    now destruct (civilFromDays d) as [[y m] dd]. }
  destruct (firstOverride term d) as [special|].
  - destruct (kind special) as [reason hidden|w].
    + destruct (Js.truthyFlag hidden).
      * exists [], [].
        split; [reflexivity|]. split; [cbn; lia|]. split; [reflexivity|].
        split; [reflexivity|discriminate].
      * exists [noClassMarker d (date special) reason], [].
        split; [reflexivity|]. split; [cbn; lia|].
        split; [cbn [forallb]; now rewrite Hmarker|].
        split; [reflexivity|discriminate].
    + exists [followMarker d (date special) w], (flat_map (courseEvents d w) (courses term)).
      split; [reflexivity|]. split; [cbn; lia|].
      split; [cbn [forallb]; now rewrite Hmarker|].
      split; [apply Hc|discriminate].
  - exists [], (flat_map (courseEvents d (getDay d)) (courses term)).
    split; [reflexivity|]. split; [cbn; lia|]. split; [reflexivity|].
    split; [apply Hc|reflexivity].
Qed.

Lemma meetingEvents_uid (u t : string) (d : Z) (weekday : Weekday) (mps : list MeetingPattern) :
  map uid (meetingEvents u t d weekday mps) = repeat u (meetingsOn weekday mps).
Proof.
  unfold meetingEvents, meetingsOn.
  induction mps as [|mp rest IH]; [reflexivity|].
  cbn [flat_map filter]. rewrite map_app, IH.
  destruct (includes weekday (weekdays mp)); reflexivity.
Qed.

(** X16: the uid of an event names the course, the subsection and the day, not
    the meeting pattern: on a day, every meeting of a course has the uid of
    the course, and every meeting of a subsection the uid of the subsection,
    as many times as patterns include the weekday. *)
Theorem course_events_uids (d : Z) (weekday : Weekday) (course : CalendarCourse) :
  map uid (courseEvents d weekday course)
  = (repeat (courseUid course d) (meetingsOn weekday (meetingPatterns course))
     ++ flat_map (fun subsection =>
                    repeat (subsectionUid course subsection d)
                      (meetingsOn weekday (sec_meetingPatterns subsection)))
          (subsections course))%list.
Proof.
  unfold courseEvents. rewrite map_app, meetingEvents_uid. f_equal.
  induction (subsections course) as [|s rest IH]; [reflexivity|].
  cbn [flat_map]. rewrite map_app, IH. f_equal.
  unfold subsectionEvents. apply meetingEvents_uid.
Qed.



(** *** The runs of generateICal *)

Section Runs.

Variable gzip : list byte -> list byte.
Variable createEvents : list EventAttributes -> string -> string -> Js.Result string.






End Runs.




(** *** The sorting of init *)

Lemma insertBy_perm {A : Type} (compare : A -> A -> Z) (x : A) (sorted : list A) :
  Permutation (insertBy compare x sorted) (x :: sorted).
Proof.
  induction sorted as [|y rest IH]; cbn [insertBy]; [reflexivity|].
  destruct (compare x y <=? 0)%Z; [reflexivity|].
  rewrite IH. apply perm_swap.
Qed.

Lemma sortBy_perm {A : Type} (compare : A -> A -> Z) (xs : list A) :
  Permutation (sortBy compare xs) xs.
Proof.
  induction xs as [|x rest IH]; [reflexivity|].
  unfold sortBy. cbn [fold_right]. fold (sortBy compare rest).
  rewrite insertBy_perm. now rewrite IH.
Qed.

Lemma find_insertBy {A : Type} (compare : A -> A -> Z) (p : A -> bool) (x : A)
    (sorted : list A) :
  (forall y, p x = true -> p y = true -> (compare x y <=? 0)%Z = true) ->
  find p (insertBy compare x sorted) = if p x then Some x else find p sorted.
Proof.
  intros Hsame. induction sorted as [|y rest IH]; cbn [insertBy find].
  - now destruct (p x).
  - destruct (compare x y <=? 0)%Z eqn:Hle.
    + cbn [find]. reflexivity.
    + cbn [find]. rewrite IH. destruct (p y) eqn:Hy; [|reflexivity].
      destruct (p x) eqn:Hx; [|reflexivity].
      specialize (Hsame y eq_refl Hy). congruence.
Qed.

Lemma find_sortBy {A : Type} (compare : A -> A -> Z) (p : A -> bool) (xs : list A) :
  (forall x y, p x = true -> p y = true -> (compare x y <=? 0)%Z = true) ->
  find p (sortBy compare xs) = find p xs.
Proof.
  intros Hsame. induction xs as [|x rest IH]; [reflexivity|].
  unfold sortBy. cbn [fold_right]. fold (sortBy compare rest).
  rewrite find_insertBy by (intros y; apply Hsame). cbn [find]. now rewrite IH.
Qed.

Lemma localeCompare_same (a : string) : localeCompare a a = 0%Z.
Proof.
  unfold localeCompare. pose proof (String.compare_antisym a a) as H.
  destruct (String.compare a a); [reflexivity|discriminate|discriminate].
Qed.

Lemma firstOverride_initTerm (term : CalendarTerm) (d : Z) :
  firstOverride (initTerm term) d = firstOverride term d.
Proof.
  unfold firstOverride, initTerm. cbn [dates]. apply find_sortBy.
  intros x y Hx Hy. unfold isFor in Hx, Hy.
  apply String.eqb_eq in Hx, Hy. rewrite Hx, Hy, localeCompare_same. reflexivity.
Qed.

Lemma courseEvents_initCourse (d : Z) (weekday : Weekday) (course : CalendarCourse) :
  courseEvents d weekday (initCourse course) = courseEvents d weekday course.
Proof.
  unfold courseEvents. f_equal.
  change (subsections (initCourse course)) with (map initSection (subsections course)).
  rewrite !flat_map_concat_map, map_map. f_equal.
Qed.

Lemma courses_initTerm (term : CalendarTerm) (d : Z) (w : Weekday) :
  flat_map (courseEvents d w) (courses (initTerm term))
  = flat_map (courseEvents d w) (courses term).
Proof.
  unfold initTerm. cbn [courses].
  induction (courses term) as [|c rest IH]; [reflexivity|].
  cbn [map flat_map]. now rewrite courseEvents_initCourse, IH.
Qed.

(** X21: the sorting that [init] does changes the events of no day: the first
    entry of a day among the override dates of a term is the same before and
    after (the sort is stable), and the [except] lists that are sorted are
    not read. *)
Theorem init_keeps_day_events (term : CalendarTerm) (d : Z) :
  dayEvents (initTerm term) d = dayEvents term d.
Proof.
  rewrite !dayEvents_first, firstOverride_initTerm.
  destruct (firstOverride term d) as [special|]; [|apply courses_initTerm].
  destruct (kind special); [reflexivity|]. now rewrite courses_initTerm.
Qed.

Lemma subsectionOk_initSection (s : CalendarSection) :
  subsectionOk (initSection s) <-> subsectionOk s.
Proof. reflexivity. Qed.

Lemma Forall_map_iff {A B : Type} (P : B -> Prop) (Q : A -> Prop) (f : A -> B) (l : list A) :
  (forall x, P (f x) <-> Q x) -> Forall P (map f l) <-> Forall Q l.
Proof.
  intros H. rewrite Forall_map. apply Forall_iff. exact H.
Qed.

Lemma Forall_perm_iff {A : Type} (P : A -> Prop) (l l' : list A) :
  Permutation l l' -> Forall P l <-> Forall P l'.
Proof.
  intros Hp. split; intros H.
  - exact (Permutation_Forall Hp H).
  - exact (Permutation_Forall (Permutation_sym Hp) H).
Qed.

Lemma courseOk_initCourse (term : CalendarTerm) (course : CalendarCourse) :
  courseOk (initTerm term) (initCourse course) <-> courseOk term course.
Proof.
  unfold courseOk, initCourse. cbn [number name meetingPatterns subsections except].
  rewrite (Forall_map_iff subsectionOk subsectionOk initSection) by apply subsectionOk_initSection.
  rewrite (Forall_perm_iff _ _ _ (sortBy_perm localeCompare (except course))).
  reflexivity.
Qed.

Lemma termOk_initTerm (term : CalendarTerm) : termOk (initTerm term) <-> termOk term.
Proof.
  unfold termOk. 
  change (term_id (initTerm term)) with (term_id term).
  change (term_start (initTerm term)) with (term_start term).
  change (term_end (initTerm term)) with (term_end term).
  change (courses (initTerm term)) with (map initCourse (courses term)).
  change (dates (initTerm term))
    with (sortBy (fun a b => localeCompare (date a) (date b)) (dates term)).
  rewrite (Forall_map_iff (courseOk (initTerm term)) (courseOk term) initCourse)
    by apply courseOk_initCourse.
  rewrite (Forall_perm_iff _ _ _ (sortBy_perm _ (dates term))).
  reflexivity.
Qed.

Lemma length_courses_map_initTerm (ts : list CalendarTerm) :
  List.length (flat_map courses (map initTerm ts)) = List.length (flat_map courses ts).
Proof.
  induction ts as [|t rest IH]; [reflexivity|].
  cbn [map flat_map]. rewrite !length_app, IH. unfold initTerm at 1. cbn [courses].
  now rewrite length_map.
Qed.

Lemma not_nil_length {A : Type} (l : list A) : l <> [] <-> List.length l <> 0%nat.
Proof. destruct l; cbn; split; congruence. Qed.

(** X22: [init] changes neither the verdict of the validation nor what a run
    expands: the sorted calendar passes validation exactly when the calendar
    does, its ranges hold as many dates, so that the cap stops the one run
    exactly when it stops the other, and its events are the same events, in
    the order of the sorted terms. *)
Theorem init_keeps_outcome (calendar : Calendar) :
  (validated (initCalendar calendar) <-> validated calendar)
  /\ totalDays (initCalendar calendar) = totalDays calendar
  /\ (expand (initCalendar calendar) = TooManyEvents <-> expand calendar = TooManyEvents)
  /\ Permutation (allEvents (initCalendar calendar)) (allEvents calendar).
Proof.
  pose proof (sortBy_perm (fun a b => localeCompare (term_start a) (term_start b))
                (terms calendar)) as Hperm.
  assert (Hdays : totalDays (initCalendar calendar) = totalDays calendar).
  { unfold totalDays, initCalendar. cbn [terms].
    rewrite flat_map_concat_map, map_map.
    rewrite (map_ext _ termDays) by reflexivity.
    rewrite <- flat_map_concat_map.
    apply Permutation_length. now apply Permutation_flat_map. }
  split; [|split; [exact Hdays|split]].
  - rewrite !validated_calendarOk. unfold calendarOk, initCalendar. cbn [terms].
    rewrite !not_nil_length, length_courses_map_initTerm, length_map.
    rewrite (Permutation_length Hperm).
    rewrite (Permutation_length (Permutation_flat_map courses Hperm)).
    rewrite map_map. rewrite (map_ext _ term_id) by reflexivity.
    rewrite (Forall_map_iff termOk termOk initTerm) by apply termOk_initTerm.
    rewrite (Forall_perm_iff _ _ _ Hperm).
    assert (Hnd : NoDup (map term_id (sortBy (fun a b => localeCompare (term_start a) (term_start b))
                                        (terms calendar)))
                  <-> NoDup (map term_id (terms calendar))).
    { split; apply Permutation_NoDup; [|apply Permutation_sym]; now apply Permutation_map. }
    rewrite Hnd. reflexivity.
  - rewrite !expand_aborts_iff, Hdays. reflexivity.
  - unfold allEvents, initCalendar. cbn [terms].
    rewrite flat_map_concat_map, map_map.
    rewrite (map_ext _ (fun term => flat_map (dayEvents term) (termDays term))).
    + rewrite <- flat_map_concat_map. now apply Permutation_flat_map.
    + intros term. change (termDays (initTerm term)) with (termDays term).
      apply flat_map_ext. intros d.
      rewrite !dayEvents_first, firstOverride_initTerm.
      destruct (firstOverride term d) as [special|]; [|apply courses_initTerm].
      destruct (kind special); [reflexivity|]. now rewrite courses_initTerm.
Qed.

(** ** Further properties of the codec and of the import *)

(** *** The text of the encoding *)

(** X23: the decoding of the base64url text of any bytes gives the bytes
    back. *)
Theorem base64url_round_trip (bytes : list byte) :
  rawBase64URLDecode (rawBase64URLEncode bytes) = inr bytes.
Proof.
  unfold rawBase64URLDecode, rawBase64URLEncode, Base64.fromBase64.
  now rewrite fromBase64Loop_toBase64.
Qed.

Lemma get_In (s : string) :
  forall i c, String.get i s = Some c -> In c (list_ascii_of_string s).
Proof.
  induction s as [|a s IH]; intros i c; [discriminate|].
  destruct i as [|i]; cbn [String.get list_ascii_of_string].
  - intros [= <-]. now left.
  - intros H. right. exact (IH i c H).
Qed.

Lemma sextetChar_alphabet (n : N) :
  In (Base64.sextetChar n) (list_ascii_of_string Base64.alphabet).
Proof.
  unfold Base64.sextetChar.
  destruct (String.get (N.to_nat n) Base64.alphabet) as [c|] eqn:E.
  - exact (get_In _ _ _ E).
  - cbn. now left.
Qed.

Lemma toBase64_alphabet (bytes : list byte) :
  Forall (fun c => In c (list_ascii_of_string Base64.alphabet))
    (list_ascii_of_string (Base64.toBase64 bytes)).
Proof.
  induction bytes as [|b0|b0 b1|b0 b1 b2 rest IH] using list_ind3;
    cbn [Base64.toBase64 list_ascii_of_string];
    repeat (constructor; [apply sextetChar_alphabet|]); [constructor|constructor|constructor|exact IH].
Qed.

Lemma toBase64_length (bytes : list byte) :
  String.length (Base64.toBase64 bytes) = ((4 * List.length bytes + 2) / 3)%nat.
Proof.
  induction bytes as [|b0|b0 b1|b0 b1 b2 rest IH] using list_ind3;
    cbn [Base64.toBase64 String.length List.length]; try reflexivity.
  rewrite IH.
  replace (4 * S (S (S (List.length rest))) + 2)%nat
    with ((4 * List.length rest + 2) + 4 * 3)%nat by lia.
  rewrite Nat.div_add by lia. lia.
Qed.

Lemma toBase64_no_slash (bytes : list byte) :
  ~ In "/"%char (list_ascii_of_string (rawBase64URLEncode bytes)).
Proof.
  unfold rawBase64URLEncode.
  intros Hin. pose proof (toBase64_alphabet bytes) as Hall.
  rewrite Forall_forall in Hall. specialize (Hall _ Hin).
  revert Hall. clear. cbn. intuition discriminate.
Qed.

(** X24: the text that [rawBase64URLEncode] gives is made of the letters, the
    digits, the hyphen and the underscore, without padding: four characters
    for every three bytes, and two or three for a last one or two; it holds
    no slash, so that it is one piece of the product identifier. *)
Theorem base64url_text (bytes : list byte) :
  Forall (fun c => In c (list_ascii_of_string Base64.alphabet))
    (list_ascii_of_string (rawBase64URLEncode bytes))
  /\ String.length (rawBase64URLEncode bytes) = ((4 * List.length bytes + 2) / 3)%nat
  /\ ~ In "/"%char (list_ascii_of_string (rawBase64URLEncode bytes)).
Proof.
  unfold rawBase64URLEncode.
  split; [apply toBase64_alphabet|]. split; [apply toBase64_length|].
  apply toBase64_no_slash.
Qed.

(** *** The product identifier *)

Lemma splitOnFrom_piece (data : string) :
  forall cur,
    ~ In "/"%char (list_ascii_of_string data) ->
    splitOnFrom "//" (data ++ "//EN") 0 cur = [cur ++ data; "EN"].
Proof.
  induction data as [|c r IH]; intros cur Hno.
  - cbn. now rewrite append_nil_r.
  - cbn [append splitOnFrom String.prefix].
    destruct (ascii_dec "/" c) as [<-|Hc]; [elim Hno; now left|].
    rewrite IH by (intros Hin; apply Hno; now right).
    now rewrite append_assoc.
Qed.

Lemma prodid_piece (data : string) :
  ~ In "/"%char (list_ascii_of_string data) ->
  nth_error (splitOn "//" (productId data)) 2 = Some data.
Proof.
  intros Hno. unfold splitOn, productId.
  cbn [append splitOnFrom String.prefix ascii_dec ascii_rec ascii_rect Bool.bool_dec bool_rec
       bool_rect sumbool_rec sumbool_rect String.length Nat.sub eq_rec_r eq_rec eq_rect eq_sym
       f_equal].
  replace (String.prefix "" (data ++ "//EN")) with true
    by (now destruct (data ++ "//EN")).
  rewrite splitOnFrom_piece by exact Hno. reflexivity.
Qed.

Section Prodid.

Variable gzip : list byte -> list byte.
Variable gunzip : list byte -> Js.Result (list byte).

(** X25: what [importIcs] decodes from the product identifier of a feed is the
    text that [generateICal] put there: the third of the pieces between
    double slashes is the encoded calendar, whole. *)
Theorem prodid_carries_calendar (calendar : Calendar) (calendarData : string) :
  encodeCalendar gzip calendar = inr calendarData ->
  decodeProdid gunzip (productId calendarData) = decodeConfig gunzip calendarData.
Proof.
  unfold encodeCalendar. intros [= <-]. unfold decodeProdid.
  rewrite prodid_piece; [reflexivity|]. apply toBase64_no_slash.
Qed.

End Prodid.

Lemma prodid_carries_calendar_witness :
  decodeProdid (fun bytes => inr bytes)
    (productId (rawBase64URLEncode
                  (list_byte_of_string (Json.stringify (calendarValue Scenario.plain)))))
  = decodeConfig (fun bytes => inr bytes)
      (rawBase64URLEncode (list_byte_of_string (Json.stringify (calendarValue Scenario.plain)))).
Proof.
  apply (prodid_carries_calendar (fun bytes => bytes) (fun bytes => inr bytes) Scenario.plain).
  reflexivity.
Defined.

(** *** The end of the import *)

(** X26: with a calendar left by the loops, the import fails with the error
    [No courses found] exactly when no term has a course. *)
Theorem import_fails_without_courses (calendar : AcademicCalendar) (isCustomCalendar : bool)
    (warnings : list Warning) :
  withCourses calendar = [] <->
  finishImport (Some calendar) isCustomCalendar warnings
  = Failed (Js.MkError "No courses found. Check that your export is from the correct page.").
Proof.
  unfold finishImport. fold (withCourses calendar).
  destruct (withCourses calendar); split; intros H; try reflexivity; discriminate.
Qed.

(** X27: for a calendar made up by the importer, the terms returned are those
    with a course, sorted by start (a term staying before the later terms of
    the same start), numbered [Term 1], [Term 2], ... in that order; the
    range goes from the least start to the greatest end, and the warning
    about the unknown calendar comes first. *)
Theorem custom_import_terms (calendar returned : AcademicCalendar)
    (warnings warnings' : list Warning) :
  finishImport (Some calendar) true warnings = Imported returned warnings' ->
  SortedByStart (ac_terms returned)
  /\ Forall2 sameButId (ac_terms returned) (sortByStart (withCourses calendar))
  /\ Permutation (withCourses calendar) (sortByStart (withCourses calendar))
  /\ map term_id (ac_terms returned)
     = map (fun k => "Term " ++ Js.showNat (k + 1))
         (seq 0 (List.length (withCourses calendar)))
  /\ (exists least greatest,
        range returned = (newUTCDate least, newUTCDate greatest)
        /\ In least (map term_start (withCourses calendar))
        /\ In greatest (map term_end (withCourses calendar))
        /\ Forall (fun t => String.leb least (term_start t) = true) (withCourses calendar)
        /\ Forall (fun t => String.leb (term_end t) greatest = true) (withCourses calendar))
  /\ warnings' = customCalendarWarning :: warnings.
Proof.
  unfold finishImport. fold (withCourses calendar).
  destruct (withCourses calendar) as [|first rest] eqn:E; [discriminate|].
  intros H. injection H as <- <-. cbn [ac_terms range].
  destruct (renumber_spec (sortByStart (first :: rest)) 0) as [Hsame Hids].
  split; [exact (renumber_sorted _ 0 (sortByStart_sorted (first :: rest)))|].
  split; [exact Hsame|].
  split; [exact (sortByStart_perm (first :: rest))|].
  split.
  { etransitivity; [exact Hids|]. f_equal. f_equal.
    symmetry. exact (Permutation_length (sortByStart_perm (first :: rest))). }
  split; [|reflexivity].
  destruct (leastStart_spec (first :: rest) (term_start first)) as (_ & L2 & L3).
  destruct (greatestEnd_spec (first :: rest) (term_end first)) as (_ & G2 & G3).
  eexists _, _. split; [reflexivity|]. repeat split; try assumption.
  - destruct L3 as [L3|L3]; [left; symmetry; exact L3|exact L3].
  - destruct G3 as [G3|G3]; [left; symmetry; exact G3|exact G3].
Qed.

Lemma custom_import_terms_witness :
  SortedByStart (ac_terms Cases.returnedCustom)
  /\ Forall2 sameButId (ac_terms Cases.returnedCustom)
       (sortByStart (withCourses Cases.leftByLoops))
  /\ Permutation (withCourses Cases.leftByLoops) (sortByStart (withCourses Cases.leftByLoops))
  /\ map term_id (ac_terms Cases.returnedCustom)
     = map (fun k => "Term " ++ Js.showNat (k + 1))
         (seq 0 (List.length (withCourses Cases.leftByLoops)))
  /\ (exists least greatest,
        range Cases.returnedCustom = (newUTCDate least, newUTCDate greatest)
        /\ In least (map term_start (withCourses Cases.leftByLoops))
        /\ In greatest (map term_end (withCourses Cases.leftByLoops))
        /\ Forall (fun t => String.leb least (term_start t) = true)
             (withCourses Cases.leftByLoops)
        /\ Forall (fun t => String.leb (term_end t) greatest = true)
             (withCourses Cases.leftByLoops))
  /\ [customCalendarWarning] = [customCalendarWarning].
Proof.
  apply (custom_import_terms Cases.leftByLoops Cases.returnedCustom [] [customCalendarWarning]).
  vm_compute. reflexivity.
Defined.

Lemma showNat_injective (n m : nat) : Js.showNat n = Js.showNat m -> n = m.
Proof.
  intros H.
  pose proof (spanDigits_showNatAux (S n) n EmptyString (Nat.lt_succ_diag_r n)) as Hn.
  pose proof (spanDigits_showNatAux (S m) m EmptyString (Nat.lt_succ_diag_r m)) as Hm.
  fold (Js.showNat n) in Hn. fold (Js.showNat m) in Hm.
  rewrite H, Hm in Hn. cbn [Json.spanDigits] in Hn. injection Hn. lia.
Qed.

Lemma numbered_ids_distinct (n : nat) :
  NoDup (map (fun k => "Term " ++ Js.showNat (k + 1)) (seq 0 n)).
Proof.
  assert (Hinj : forall a b, "Term " ++ Js.showNat (a + 1) = "Term " ++ Js.showNat (b + 1)
                             -> a = b).
  { intros a b H. cbn [append] in H. injection H as H.
    apply showNat_injective in H. lia. }
  enough (H : forall start,
             NoDup (map (fun k => "Term " ++ Js.showNat (k + 1)) (seq start n))) by apply H.
  induction n as [|n IH]; intros start; cbn [seq map]; constructor.
  - intros Hin. apply in_map_iff in Hin as (k & Hk & Hin).
    apply Hinj in Hk. apply in_seq in Hin. lia.
  - apply IH.
Qed.

(** X28: the calendar that [importExcel] takes over from an import that
    succeeded has a term, and a course in every term, so that the validation
    finds terms and courses defined; after an import of a calendar made up
    by the importer, the ids of its terms are not blank and differ from one
    another. *)
Theorem imported_calendar_checks (calendar returned : AcademicCalendar)
    (isCustomCalendar : bool) (warnings warnings' : list Warning) (before : Calendar) :
  finishImport (Some calendar) isCustomCalendar warnings = Imported returned warnings' ->
  let after := importExcel (Imported returned warnings') before in
  cal_name after = ac_name calendar
  /\ terms after <> []
  /\ Forall (fun t => courses t <> []) (terms after)
  /\ flat_map courses (terms after) <> []
  /\ (isCustomCalendar = true ->
      NoDup (map term_id (terms after)) /\ Forall (fun t => term_id t <> "") (terms after)).
Proof.
  intros Hfinish after. subst after. cbn [importExcel cal_name terms].
  pose proof (finishImport_terms_have_courses _ _ _ _ _ Hfinish) as Hcourses.
  assert (Hterms : ac_terms returned <> []).
  { destruct isCustomCalendar.
    - destruct (finishImport_custom _ _ _ _ Hfinish) as (_ & _ & _ & Hids & _).
      intros Hnil. rewrite Hnil in Hids. cbn [map] in Hids.
      symmetry in Hids. apply map_eq_nil in Hids.
      revert Hfinish. unfold finishImport. fold (withCourses calendar).
      destruct (withCourses calendar); [discriminate|discriminate].
    - revert Hfinish. unfold finishImport.
      destruct (filter _ (ac_terms calendar)); [discriminate|].
      intros H. injection H as <- _. discriminate. }
  assert (Hname : ac_name returned = ac_name calendar).
  { revert Hfinish. unfold finishImport.
    destruct (filter _ (ac_terms calendar)); [discriminate|].
    intros H. injection H as <- _. now destruct isCustomCalendar. }
  split; [exact Hname|]. split; [exact Hterms|]. split; [exact Hcourses|]. split.
  - destruct (ac_terms returned) as [|t rest]; [congruence|].
    inversion Hcourses as [|? ? Ht _]. cbn [flat_map].
    destruct (courses t); [congruence|discriminate].
  - intros ->. destruct (finishImport_custom _ _ _ _ Hfinish) as (_ & _ & _ & Hids & _).
    split.
    + rewrite Hids. apply numbered_ids_distinct.
    + apply Forall_forall. intros t Hin.
      apply (in_map term_id) in Hin. rewrite Hids in Hin.
      apply in_map_iff in Hin as (k & <- & _). discriminate.
Qed.

Lemma imported_calendar_checks_witness :
  cal_name (importExcel (Imported Cases.returnedCustom [customCalendarWarning]) Scenario.plain)
  = ac_name Cases.leftByLoops
  /\ terms (importExcel (Imported Cases.returnedCustom [customCalendarWarning]) Scenario.plain)
     <> []
  /\ Forall (fun t => courses t <> [])
       (terms (importExcel (Imported Cases.returnedCustom [customCalendarWarning])
                 Scenario.plain))
  /\ flat_map courses
       (terms (importExcel (Imported Cases.returnedCustom [customCalendarWarning])
                 Scenario.plain)) <> []
  /\ (true = true ->
      NoDup (map term_id
               (terms (importExcel (Imported Cases.returnedCustom [customCalendarWarning])
                         Scenario.plain)))
      /\ Forall (fun t => term_id t <> "")
           (terms (importExcel (Imported Cases.returnedCustom [customCalendarWarning])
                     Scenario.plain))).
Proof.
  apply (imported_calendar_checks Cases.leftByLoops Cases.returnedCustom true []
           [customCalendarWarning] Scenario.plain).
  vm_compute. reflexivity.
Defined.

(** *** The names of the components *)

Lemma split_second (sep : ascii) (s : string) :
  nth_error (Js.split sep s) 1 = None <-> ~ In sep (list_ascii_of_string s).
Proof.
  induction s as [|c r IH]; cbn [Js.split list_ascii_of_string].
  - cbn. tauto.
  - destruct (Ascii.eqb_spec c sep) as [->|Hne].
    + cbn [nth_error]. split.
      * destruct (Js.split sep r) eqn:E; [now apply split_not_nil in E|discriminate].
      * intros H. elim H. now left.
    + destruct (Js.split sep r) as [|h t] eqn:E; [now apply split_not_nil in E|].
      cbn [nth_error] in *. rewrite IH. cbn [In]. tauto.
Qed.

(** X29: [extractSubsectionName] throws exactly on a section code that has no
    hyphen before its first [" - "]: the piece after the hyphen is then
    [undefined], and its first character is read. *)
Theorem extractSubsectionName_throws (courseSection : string) :
  extractSubsectionName courseSection = inl (Js.MkError "TypeError")
  <-> ~ In "-"%char (list_ascii_of_string (nth 0 (splitOn " - " courseSection) "")).
Proof.
  rewrite <- split_second. unfold extractSubsectionName.
  destruct (nth_error (Js.split "-" (nth 0 (splitOn " - " courseSection) "")) 1);
    split; intros H; try reflexivity; discriminate.
Qed.

(** *** From a feed back to the calendar *)

Section Restore.

Variable gzip : list byte -> list byte.
Variable gunzip : list byte -> Js.Result (list byte).


End Restore.

